(** * SwasthyaSathi backend: document pipeline and authentication

    A shallow embedding of the backend services

      - [formatFileSize], [checkStorageQuota], [uploadDocument], [getDocument],
        [updateDocument], [deleteDocument], [processDocumentWithOCR] and
        [processDocumentWithAI] of [DocumentService] (document.service.ts),
        with [getUserDocuments] and [getStorageInfo],
      - [S3Service] (s3.service.ts),
      - [OcrService] (ocr.service.ts),
      - [AuthService] (auth.service.ts),
      - the handlers of the upload, read, update and delete routes
        (document.routes.ts) and of the registration and login routes,

    over an explicit model of the PostgreSQL tables of schema.sql and of the
    S3 bucket, followed by the properties of the document pipeline. *)

From Stdlib Require Import ZArith String Ascii List DecimalString DecimalZ Floats Uint63 Lia.
From stdpp Require Import gmap strings list fin_maps.
From stdpp Require Import sorting.

Local Open Scope string_scope.
Local Open Scope Z_scope.
Set Warnings "-register-all".

(** ** JavaScript values that reach the arithmetic of the services

    The columns [users.storage_used], [users.storage_quota] and
    [documents.file_size] are BIGINT (schema.sql).  The node-postgres pool of
    pool.ts installs no type parser, and the driver then hands an int8 column
    to JavaScript as its decimal text, not as a number;
    [mapDbDocumentToDocument] accordingly reads [file_size] through
    [parseInt].  A driver configured to parse int8 returns numbers instead.
    Both decodings are kept, as [Int8Parser], and every function that reads
    such a column takes the parser as an argument. *)

Module Js.

Inductive value : Type :=
| Num (n : Z)
| NaN
| Str (s : string).

(** [Number.prototype.toString] on an integer. *)
Definition decimal (n : Z) : string := NilZero.string_of_int (Z.to_int n).

Definition ToString (v : value) : string :=
  match v with
  | Num n => decimal n
  | NaN => "NaN"
  | Str s => s
  end.

(** [ToNumber]: of the numeric literals only the signed decimal integers
    are recognised, which is what the text of an int8 column holds. *)
Definition ToNumber (v : value) : option Z :=
  match v with
  | Num n => Some n
  | NaN => None
  | Str s => Z.of_int <$> NilZero.int_of_string s
  end.

Definition of_number (o : option Z) : value :=
  match o with Some n => Num n | None => NaN end.

(** [a + b]: concatenation as soon as one operand is a string. *)
Definition add (a b : value) : value :=
  match a, b with
  | Num x, Num y => Num (x + y)
  | Str _, _ | _, Str _ => Str (ToString a +:+ ToString b)
  | _, _ => NaN
  end.

(** [a - b]: always numeric. *)
Definition sub (a b : value) : value :=
  match ToNumber a, ToNumber b with
  | Some x, Some y => Num (x - y)
  | _, _ => NaN
  end.

(** [a > b]: two strings are compared code unit by code unit, anything
    else numerically, and a comparison with NaN is false. *)
Definition gt (a b : value) : bool :=
  match a, b with
  | Str s, Str t => String.ltb t s
  | _, _ =>
      match ToNumber a, ToNumber b with
      | Some x, Some y => y <? x
      | _, _ => false
      end
  end.

(** [v === 0] *)
Definition strict_eq_zero (v : value) : bool :=
  match v with Num 0 => true | _ => false end.

(** [s || d] on a possibly undefined string. *)
Definition or_else (o : option string) (d : string) : string :=
  match o with
  | Some s => if decide (s = "") then d else s
  | None => d
  end.

(** [s || null] on a possibly undefined string. *)
Definition or_null (o : option string) : option string :=
  match o with
  | Some s => if decide (s = "") then None else Some s
  | None => None
  end.

(** [s.includes(t)] *)
Fixpoint includes (t s : string) : bool :=
  String.prefix t s ||
  match s with
  | EmptyString => false
  | String _ s' => includes t s'
  end.

End Js.

(** The two decodings of an int8 column by node-postgres. *)
Inductive Int8Parser : Type :=
| Int8AsText      (* the driver's default *)
| Int8AsNumber.   (* with a parser registered for int8 *)

Definition pg_int8 (p : Int8Parser) (n : Z) : Js.value :=
  match p with
  | Int8AsText => Js.Str (Js.decimal n)
  | Int8AsNumber => Js.Num n
  end.

(** ** [DocumentService.formatFileSize]

    The source computes with IEEE doubles: [Math.log], [Math.pow], a
    division and [Math.round].  The model computes the same quantities on
    integers: [floor (log bytes / log 1024)] is the binary logarithm divided
    by ten, and the rounded quotient is kept in hundredths.  A non-positive
    or non-numeric argument other than the number zero runs into [Math.log]
    of it and comes out as ["NaN undefined"]. *)

Definition sizes : list string := ["Bytes"; "KB"; "MB"; "GB"].

(** A number of hundredths printed as JavaScript prints the quotient by 100. *)
Definition hundredths (h : Z) : string :=
  let q := h / 100 in
  let r := h mod 100 in
  if r =? 0 then Js.decimal q
  else if r mod 10 =? 0 then Js.decimal q +:+ "." +:+ Js.decimal (r / 10)
  else Js.decimal q +:+ "." +:+ Js.decimal (r / 10) +:+ Js.decimal (r mod 10).

Definition formatFileSize (bytes : Js.value) : string :=
  if Js.strict_eq_zero bytes then "0 Bytes"
  else
    match Js.ToNumber bytes with
    | Some n =>
        if n <=? 0 then "NaN undefined"
        else
          let k := 1024 in
          let i := Z.log2 n / 10 in
          let h := (2 * 100 * n + k ^ i) / (2 * k ^ i) in
          hundredths h +:+ " " +:+ nth (Z.to_nat i) sizes "undefined"
    | None => "NaN undefined"
    end.


(** ** Shared types (shared/src/types.ts) *)

Inductive DocumentType : Type :=
| LAB_REPORT | PRESCRIPTION | MEDICAL_CERTIFICATE | XRAY | CT_SCAN | MRI | OTHER.

Inductive DocumentStatus : Type :=
| PENDING_PROCESSING | PROCESSED | FAILED.

(** The values of the column [documents.ocr_status] (its CHECK constraint). *)
Inductive OcrStatus : Type :=
| OcrPending | OcrProcessing | OcrCompleted | OcrFailed.

Inductive ErrorCode : Type :=
| UNAUTHORIZED | FORBIDDEN | NOT_FOUND | VALIDATION_ERROR | SERVER_ERROR
| DUPLICATE_EMAIL | DUPLICATE_PHONE | INVALID_CREDENTIALS | WEAK_PASSWORD
| FILE_TOO_LARGE | UNSUPPORTED_FILE_TYPE | STORAGE_QUOTA_EXCEEDED
| OCR_PROCESSING_FAILED | OCR_QUOTA_EXCEEDED | OCR_TIMEOUT.

(** [ApiResponse<T>]: [{success: true, data}] or [{success: false, error}]. *)
Inductive ApiResponse (T : Type) : Type :=
| Success (data : T)
| Failure (code : ErrorCode) (message : string).
Arguments Success {T} data.
Arguments Failure {T} code message.

Module Shared.

Record AiAnalysis : Type := {
  extractedText : option string;
  summary : option string;
  insights : list (option string);
  processedAt : Z;
}.

Record Document : Type := {
  id : string;
  userId : string;
  type : DocumentType;
  title : option string;
  description : option string;
  notes : option string;
  fileUrl : string;
  thumbnailUrl : option string;
  fileSize : Z;
  mimeType : string;
  status : DocumentStatus;
  ocrStatus : option OcrStatus;
  uploadedAt : Z;
  aiAnalysis : option AiAnalysis;
}.

(** The request keeps [undefined] apart from a value: [None] is an absent
    field. *)
Record UploadDocumentRequest : Type := {
  upload_type : option DocumentType;
  upload_title : option string;
  upload_description : option string;
  processWithAI : bool;
  processWithOCR : bool;
}.

Record UpdateDocumentRequest : Type := {
  update_title : option string;
  update_description : option string;
  update_notes : option string;
  update_type : option DocumentType;
}.

Record User : Type := {
  user_id : string;
  email : string;
  phoneNumber : string;
  fullName : string;
  country : string;
  profileComplete : bool;
}.

Record AuthResponse : Type := { user : User; token : string }.

Record RegisterData : Type := {
  reg_phoneNumber : string;
  reg_password : string;
  reg_fullName : string;
}.

End Shared.

(** [Express.Multer.File], the fields the service reads. *)
Record MulterFile : Type := {
  size : Z;
  mimetype : string;
  buffer : list Byte.byte;
}.

(** ** The database (schema.sql and its migrations)

    A table with a primary or unique key is a finite map from that key to the
    rest of the row.  [document_ai_analysis] is keyed by its unique
    [document_id], [user_profiles] by its unique [user_id].  Of the
    constraints, the keys and the references are modelled, and the length
    limits of the VARCHAR columns that receive text of the caller:
    [users.phone_number], [users.password_hash], [users.full_name] and
    [documents.title].  A text is a sequence of characters, and a value with
    more characters than its column takes is refused.  (PostgreSQL cuts such
    a value instead when all that exceeds is spaces; the routes trim the name
    and the title and match the phone number before they pass them on, so no
    such value reaches a statement, and the model refuses it like the
    others.)

    Two things of the schema are outside the tables below.  The ids are UUID
    columns.  An id below is the text of a UUID, as the ids that the code
    generates and the ids that the token carries are; a query whose id
    parameter is another text fails in PostgreSQL, where the maps answer that
    there is no such row, so a property about an id that the caller chooses
    is stated for the id of a row.  The columns [created_at] and
    [updated_at], with the trigger that sets [users.updated_at] on every
    UPDATE, are not rows' fields: a property about a row of [users] is about
    the columns that are. *)

Module Db.

Record UserRow : Type := {
  phone_number : string;
  password_hash : string;
  full_name : string;
  email : option string;
  country : option string;
  profile_complete : bool;
  storage_used : Z;
  storage_quota : Z;
}.

Record DocumentRow : Type := {
  user_id : string;
  type : DocumentType;
  title : option string;
  description : option string;
  notes : option string;
  file_url : string;
  thumbnail_url : option string;
  file_size : Z;
  mime_type : string;
  status : DocumentStatus;
  ocr_status : option OcrStatus;
  uploaded_at : Z;
}.

Record AnalysisRow : Type := {
  extracted_text : option string;
  summary : option string;
  insights : option (list (option string));
  processed_at : Z;
}.

Record Database : Type := {
  users : gmap string UserRow;
  user_profiles : gset string;
  documents : gmap string DocumentRow;
  document_ai_analysis : gmap string AnalysisRow;
}.

Definition empty : Database :=
  {| users := ∅; user_profiles := ∅; documents := ∅; document_ai_analysis := ∅ |}.

Definition with_users (f : gmap string UserRow → gmap string UserRow) (d : Database) : Database :=
  {| users := f (users d); user_profiles := user_profiles d;
     documents := documents d; document_ai_analysis := document_ai_analysis d |}.

Definition with_user_profiles (f : gset string → gset string) (d : Database) : Database :=
  {| users := users d; user_profiles := f (user_profiles d);
     documents := documents d; document_ai_analysis := document_ai_analysis d |}.

Definition with_documents (f : gmap string DocumentRow → gmap string DocumentRow) (d : Database) : Database :=
  {| users := users d; user_profiles := user_profiles d;
     documents := f (documents d); document_ai_analysis := document_ai_analysis d |}.

Definition with_analysis (f : gmap string AnalysisRow → gmap string AnalysisRow) (d : Database) : Database :=
  {| users := users d; user_profiles := user_profiles d;
     documents := documents d; document_ai_analysis := f (document_ai_analysis d) |}.

Definition set_storage_used (n : Z) (u : UserRow) : UserRow :=
  {| phone_number := phone_number u; password_hash := password_hash u;
     full_name := full_name u; email := email u; country := country u;
     profile_complete := profile_complete u;
     storage_used := n; storage_quota := storage_quota u |}.

Definition set_status (s : DocumentStatus) (d : DocumentRow) : DocumentRow :=
  {| user_id := user_id d; type := type d; title := title d;
     description := description d; notes := notes d; file_url := file_url d;
     thumbnail_url := thumbnail_url d; file_size := file_size d;
     mime_type := mime_type d; status := s; ocr_status := ocr_status d;
     uploaded_at := uploaded_at d |}.

Definition set_ocr_status (s : option OcrStatus) (d : DocumentRow) : DocumentRow :=
  {| user_id := user_id d; type := type d; title := title d;
     description := description d; notes := notes d; file_url := file_url d;
     thumbnail_url := thumbnail_url d; file_size := file_size d;
     mime_type := mime_type d; status := status d; ocr_status := s;
     uploaded_at := uploaded_at d |}.

(** The SET list of [updateDocument]: a column is assigned when its value
    is given. *)
Definition set_fields (t d n : option (option string)) (ty : option DocumentType)
    (r : DocumentRow) : DocumentRow :=
  {| user_id := user_id r;
     type := default (type r) ty;
     title := default (title r) t;
     description := default (description r) d;
     notes := default (notes r) n;
     file_url := file_url r; thumbnail_url := thumbnail_url r;
     file_size := file_size r; mime_type := mime_type r; status := status r;
     ocr_status := ocr_status r; uploaded_at := uploaded_at r |}.

End Db.

(** ** The world the services act on, and the monad of their effects *)

(** An object of the bucket, as [PutObjectCommand] writes it. *)
Record S3Object : Type := {
  Body : list Byte.byte;
  ContentType : string;
  ACL : string;
}.

(** The calls into bcrypt, in the order they were made, latest first. *)
Inductive BcryptCall : Type :=
| BcryptHash (password : string)
| BcryptCompare (password hash : string).

Record World : Type := {
  db : Db.Database;
  (** the database as it was at BEGIN, while a transaction of a checked-out
      client is open *)
  tx : option Db.Database;
  bucket : gmap string S3Object;
  bcrypt_calls : list BcryptCall;
}.

Definition with_db (f : Db.Database → Db.Database) (w : World) : World :=
  {| db := f (db w); tx := tx w; bucket := bucket w; bcrypt_calls := bcrypt_calls w |}.

Definition with_bucket (f : gmap string S3Object → gmap string S3Object) (w : World) : World :=
  {| db := db w; tx := tx w; bucket := f (bucket w); bcrypt_calls := bcrypt_calls w |}.

(** A thrown JavaScript error, with its message. *)
Inductive Exn : Type :=
| Error (message : string).

Inductive Outcome (A : Type) : Type :=
| Returned (a : A)
| Thrown (e : Exn).
Arguments Returned {A} a.
Arguments Thrown {A} e.

Definition M (A : Type) : Type := World → Outcome A * World.

Global Instance M_ret : MRet M := λ A a w, (Returned a, w).

Global Instance M_bind : MBind M := λ A B f m w,
  match m w with
  | (Returned a, w') => f a w'
  | (Thrown e, w') => (Thrown e, w')
  end.

Global Instance M_fmap : FMap M := λ A B f m w,
  match m w with
  | (Returned a, w') => (Returned (f a), w')
  | (Thrown e, w') => (Thrown e, w')
  end.

Definition throw {A} (e : Exn) : M A := λ w, (Thrown e, w).

(** [try { body } catch (e) { handler e }] *)
Definition try_catch {A} (body : M A) (handler : Exn → M A) : M A := λ w,
  match body w with
  | (Returned a, w') => (Returned a, w')
  | (Thrown e, w') => handler e w'
  end.

(** A computation that reads and writes nothing. *)
Definition lift {A} (o : Outcome A) : M A := λ w, (o, w).

Definition get_db : M Db.Database := λ w, (Returned (db w), w).

Definition modify_db (f : Db.Database → Db.Database) : M unit := λ w,
  (Returned tt, with_db f w).

Definition modify_bucket (f : gmap string S3Object → gmap string S3Object) : M unit := λ w,
  (Returned tt, with_bucket f w).

(** ** SQL statements *)

Module Sql.

(** BEGIN, COMMIT and ROLLBACK on a client checked out of the pool. *)
Definition BEGIN : M unit := λ w,
  (Returned tt, {| db := db w; tx := Some (db w); bucket := bucket w;
                   bcrypt_calls := bcrypt_calls w |}).

Definition COMMIT : M unit := λ w,
  (Returned tt, {| db := db w; tx := None; bucket := bucket w;
                   bcrypt_calls := bcrypt_calls w |}).

Definition ROLLBACK : M unit := λ w,
  (Returned tt, {| db := default (db w) (tx w); tx := None; bucket := bucket w;
                   bcrypt_calls := bcrypt_calls w |}).

(** [SELECT storage_used, storage_quota FROM users WHERE id = $1] and
    [SELECT * FROM users WHERE id = $1] *)
Definition select_user (id : string) : M (option Db.UserRow) :=
  d ← get_db; mret (Db.users d !! id).

(** [SELECT ... FROM documents WHERE id = $1 AND user_id = $2]; the two ids
    are texts of UUIDs, as said of the database above. *)
Definition select_document (id userId : string) : M (option Db.DocumentRow) :=
  d ← get_db;
  mret (r ← Db.documents d !! id;
        if decide (Db.user_id r = userId) then Some r else None).

(** [SELECT ... FROM document_ai_analysis WHERE document_id = $1] *)
Definition select_analysis (documentId : string) : M (option Db.AnalysisRow) :=
  d ← get_db; mret (Db.document_ai_analysis d !! documentId).

(** A value for a VARCHAR(n) column: its length is at most [n]. *)
Definition fits (n : nat) (s : string) : bool := (String.length s <=? n)%nat.

Definition too_long (n : string) : Exn :=
  Error ("value too long for type character varying(" +:+ n +:+ ")").

(** [INSERT INTO documents (...) VALUES (...) RETURNING *]: the title is a
    VARCHAR(255), the primary key must be new and the owner must exist.  The
    other VARCHAR columns receive the type, the MIME type and the status,
    which the service has checked or chosen. *)
Definition insert_document (id : string) (r : Db.DocumentRow) : M Db.DocumentRow :=
  d ← get_db;
  if negb (from_option (fits 255) true (Db.title r)) then throw (too_long "255")
  else if decide (is_Some (Db.documents d !! id)) then
    throw (Error "duplicate key value violates unique constraint documents_pkey")
  else if decide (Db.users d !! Db.user_id r = None) then
    throw (Error "insert on table documents violates foreign key constraint")
  else
    modify_db (Db.with_documents (insert id r));; mret r.

(** [UPDATE users SET storage_used = storage_used + $1 WHERE id = $2] *)
Definition add_storage_used (n : Z) (userId : string) : M unit :=
  modify_db (Db.with_users
    (alter (λ u, Db.set_storage_used (Db.storage_used u + n) u) userId)).

(** [UPDATE users SET storage_used = GREATEST(storage_used - $1, 0) WHERE id = $2] *)
Definition release_storage_used (n : Z) (userId : string) : M unit :=
  modify_db (Db.with_users
    (alter (λ u, Db.set_storage_used (Z.max (Db.storage_used u - n) 0) u) userId)).

(** [DELETE FROM documents WHERE id = $1]; the analysis row goes with it
    (ON DELETE CASCADE). *)
Definition delete_document (id : string) : M unit :=
  modify_db (λ d, Db.with_analysis (delete id) (Db.with_documents (delete id) d)).

(** [UPDATE documents SET ... WHERE id = $1 AND user_id = $2]; [title] is
    the value of the SET list for the title, a VARCHAR(255), when it has
    one. *)
Definition update_document (id userId : string) (title : option string)
    (f : Db.DocumentRow → Db.DocumentRow) : M unit :=
  if negb (from_option (fits 255) true title) then throw (too_long "255")
  else
    modify_db (Db.with_documents
      (alter (λ r, if decide (Db.user_id r = userId) then f r else r) id)).

(** [UPDATE documents SET status = $1 WHERE id = $2] *)
Definition update_status (s : DocumentStatus) (id : string) : M unit :=
  modify_db (Db.with_documents (alter (Db.set_status s) id)).

(** [UPDATE documents SET ocr_status = $1 WHERE id = $2] *)
Definition update_ocr_status (s : OcrStatus) (id : string) : M unit :=
  modify_db (Db.with_documents (alter (Db.set_ocr_status (Some s)) id)).

(** [INSERT INTO document_ai_analysis (document_id, ...) VALUES (...)]:
    [document_id] is UNIQUE and references [documents]. *)
Definition insert_analysis (documentId : string) (r : Db.AnalysisRow) : M unit :=
  d ← get_db;
  if decide (is_Some (Db.document_ai_analysis d !! documentId)) then
    throw (Error "duplicate key value violates unique constraint document_ai_analysis_document_id_key")
  else if decide (Db.documents d !! documentId = None) then
    throw (Error "insert on table document_ai_analysis violates foreign key constraint")
  else
    modify_db (Db.with_analysis (insert documentId r)).

(** [UPDATE document_ai_analysis SET extracted_text = $1,
     processed_at = CURRENT_TIMESTAMP WHERE document_id = $2] *)
Definition update_extracted_text (text : option string) (now : Z) (documentId : string) : M unit :=
  modify_db (Db.with_analysis
    (alter (λ r, {| Db.extracted_text := text; Db.summary := Db.summary r;
                    Db.insights := Db.insights r; Db.processed_at := now |})
           documentId)).

(** [SELECT ... FROM users WHERE phone_number = $1], with the ids. *)
Definition select_users_by_phone (phoneNumber : string) : M (list (string * Db.UserRow)) :=
  d ← get_db;
  mret (map_to_list (filter (λ kv, Db.phone_number kv.2 = phoneNumber) (Db.users d))).

(** [INSERT INTO users (id, phone_number, password_hash, full_name, country)
     VALUES (...) RETURNING *]: [phone_number] is a VARCHAR(20),
    [password_hash] and [full_name] are VARCHAR(255) and [country] a
    VARCHAR(100), [id] is the primary key, [phone_number] is UNIQUE, the
    other columns take their defaults. *)
Definition insert_user (id phoneNumber passwordHash fullName country : string)
    : M Db.UserRow :=
  d ← get_db;
  if negb (fits 20 phoneNumber) then throw (too_long "20")
  else if negb (fits 255 passwordHash && fits 255 fullName) then throw (too_long "255")
  else if negb (fits 100 country) then throw (too_long "100")
  else if decide (is_Some (Db.users d !! id)) then
    throw (Error "duplicate key value violates unique constraint users_pkey")
  else if decide (filter (λ kv, Db.phone_number kv.2 = phoneNumber) (Db.users d) ≠ ∅) then
    throw (Error "duplicate key value violates unique constraint users_phone_number_key")
  else
    let row := {| Db.phone_number := phoneNumber; Db.password_hash := passwordHash;
                  Db.full_name := fullName; Db.email := None;
                  Db.country := Some country; Db.profile_complete := false;
                  Db.storage_used := 0; Db.storage_quota := 104857600 |} in
    modify_db (Db.with_users (insert id row));; mret row.

(** [INSERT INTO user_profiles (user_id) VALUES ($1)] *)
Definition insert_profile (userId : string) : M unit :=
  d ← get_db;
  if decide (userId ∈ Db.user_profiles d) then
    throw (Error "duplicate key value violates unique constraint user_profiles_user_id_key")
  else if decide (Db.users d !! userId = None) then
    throw (Error "insert on table user_profiles violates foreign key constraint")
  else
    modify_db (Db.with_user_profiles (λ s, {[userId]} ∪ s)).

(** [ORDER BY d.uploaded_at DESC] *)
Definition newer_first (a b : string * Db.DocumentRow) : Prop :=
  Db.uploaded_at b.2 ≤ Db.uploaded_at a.2.

Global Instance newer_first_dec a b : Decision (newer_first a b) :=
  decide (Db.uploaded_at b.2 ≤ Db.uploaded_at a.2).

(** [SELECT d.*, d.ocr_status, da.extracted_text, da.summary, da.insights,
     da.processed_at FROM documents d LEFT JOIN document_ai_analysis da
     ON d.id = da.document_id WHERE d.user_id = $1 ORDER BY d.uploaded_at DESC];
    the order among rows of one [uploaded_at] is that of the sort. *)
Definition select_user_documents (userId : string)
    : M (list (string * Db.DocumentRow * option Db.AnalysisRow)) :=
  d ← get_db;
  mret ((λ kv, (kv.1, kv.2, Db.document_ai_analysis d !! kv.1)) <$>
        merge_sort newer_first
          (map_to_list (filter (λ kv, Db.user_id kv.2 = userId) (Db.documents d)))).

End Sql.

(** ** What the services take from their runtime

    The parts of the Node.js runtime and of the libraries whose results the
    services only pass on: the int8 decoding of the driver, the process
    environment read by s3.service.ts, [JSON.parse], the driver's text for a
    parameter that is not a string, bcrypt and the token signature. *)

Inductive Json : Type :=
| JNull
| JBool (b : bool)
| JNumber (f : float)
| JString (s : string)
| JArray (items : list Json)
| JObject (fields : list (string * Json)).

Class Runtime : Type := {
  int8 : Int8Parser;
  AWS_REGION : option string;
  AWS_S3_BUCKET_NAME : option string;
  (** [JSON.parse]; [None] when it throws a SyntaxError *)
  JSON_parse : string → option Json;
  (** the text node-postgres sends for a parameter that is neither a string
      nor null *)
  pg_text_of : Json → string;
  (** how PostgreSQL reads, as a TEXT[] value, a parameter that is not a flat
      array of scalars; [None] when it rejects it *)
  pg_array_of : Json → option (list (option string));
  bcrypt_hash : string → string;
  bcrypt_compare : string → string → bool;
  jwt_sign : string → string;
}.

(** ** [S3Service] (s3.service.ts) *)

Module S3Service.

(** What a call of [uploadDocument] meets outside the program. *)
Record UploadEnv : Type := {
  file_uuid : string;
  thumbnail_uuid : string;
  (** whether [s3Client.send] of the original resolves *)
  put_original : bool;
  (** the JPEG that sharp produces, [None] when it throws *)
  sharp_thumbnail : option (list Byte.byte);
  put_thumbnail : bool;
}.

Record DeleteEnv : Type := {
  delete_original : bool;
  delete_thumbnail : bool;
}.

Record UploadResult : Type := {
  fileUrl : string;
  thumbnailUrl : option string;
  fileSize : Z;
}.

Section WithRuntime.
Context `{Runtime}.

Definition BUCKET_NAME : string := Js.or_else AWS_S3_BUCKET_NAME "swasthyasathi-documents".
Definition REGION : string := Js.or_else AWS_REGION "ap-south-1".

Definition object_url (key : string) : string :=
  "https://" +:+ BUCKET_NAME +:+ ".s3." +:+ REGION +:+ ".amazonaws.com/" +:+ key.

Definition getFileExtension (mimeType : string) : string :=
  if decide (mimeType = "image/jpeg") then ".jpg"
  else if decide (mimeType = "image/jpg") then ".jpg"
  else if decide (mimeType = "image/png") then ".png"
  else if decide (mimeType = "image/gif") then ".gif"
  else if decide (mimeType = "image/webp") then ".webp"
  else if decide (mimeType = "application/pdf") then ".pdf"
  else ".bin".

Definition isImageType (mimeType : string) : bool := String.prefix "image/" mimeType.

(** [s3Client.send(new PutObjectCommand(...))] *)
Definition send_put (resolves : bool) (key : string) (o : S3Object) : M unit :=
  if resolves then modify_bucket (insert key o)
  else throw (Error "PutObject failed").

(** [s3Client.send(new DeleteObjectCommand(...))] *)
Definition send_delete (resolves : bool) (key : string) : M unit :=
  if resolves then modify_bucket (delete key)
  else throw (Error "DeleteObject failed").

Definition generateAndUploadThumbnail (env : UploadEnv) (originalBuffer : list Byte.byte)
    (thumbnailName mimeType : string) : M string :=
  try_catch
    (thumbnailBuffer ←
       match sharp_thumbnail env with
       | Some b => mret b
       | None => throw (Error "sharp failed")
       end;
     send_put (put_thumbnail env) thumbnailName
       {| Body := thumbnailBuffer; ContentType := "image/jpeg"; ACL := "private" |};;
     mret (object_url thumbnailName))
    (λ _, mret "").

Definition uploadDocument (env : UploadEnv) (buffer : list Byte.byte)
    (mimeType userId : string) : M UploadResult :=
  try_catch
    (let fileExtension := getFileExtension mimeType in
     let fileName := userId +:+ "/" +:+ file_uuid env +:+ fileExtension in
     let thumbnailName :=
       userId +:+ "/thumbnails/" +:+ thumbnail_uuid env +:+ "_thumb" +:+ fileExtension in
     send_put (put_original env) fileName
       {| Body := buffer; ContentType := mimeType; ACL := "private" |};;
     let fileUrl := object_url fileName in
     let fileSize := Z.of_nat (length buffer) in
     thumbnailUrl ←
       (if isImageType mimeType
        then Some <$> generateAndUploadThumbnail env buffer thumbnailName mimeType
        else mret None);
     mret {| fileUrl := fileUrl; thumbnailUrl := thumbnailUrl; fileSize := fileSize |})
    (λ _, throw (Error "Failed to upload file to S3")).

(** [s.split(sep)] up to the first separator: what is before it and what
    is after it, [None] when [sep] does not occur. *)
Fixpoint split_once (sep s : string) {struct s} : option (string * string) :=
  if String.prefix sep s
  then Some ("", String.substring (String.length sep) (String.length s) s)
  else
    match s with
    | EmptyString => None
    | String c s' =>
        match split_once sep s' with
        | Some (a, b) => Some (String c a, b)
        | None => None
        end
    end.

(** [url.split(...)[1].split('/').slice(1).join('/')] *)
Definition extractFileNameFromUrl (url : string) : Outcome string :=
  let sep := BUCKET_NAME +:+ ".s3." in
  match split_once sep url with
  | None => Thrown (Error "Invalid S3 URL")
  | Some (_, rest) =>
      let part1 := match split_once sep rest with
                   | Some (a, _) => a
                   | None => rest
                   end in
      Returned match split_once "/" part1 with
               | Some (_, pathPart) => pathPart
               | None => ""
               end
  end.

Definition deleteDocument (env : DeleteEnv) (fileUrl : string) : M unit :=
  try_catch
    (fileName ← lift (extractFileNameFromUrl fileUrl);
     send_delete (delete_original env) fileName)
    (λ _, throw (Error "Failed to delete file from S3")).

Definition deleteThumbnail (env : DeleteEnv) (thumbnailUrl : string) : M unit :=
  try_catch
    (thumbnailName ← lift (extractFileNameFromUrl thumbnailUrl);
     send_delete (delete_thumbnail env) thumbnailName)
    (λ _, mret tt).

End WithRuntime.

End S3Service.

(** ** [OcrService] (ocr.service.ts) *)

Module OcrService.

Inductive ErrCode : Type :=
| CodeNumber (n : Z)
| CodeString (s : string).

(** An error object of the Vision client: [message] and [code]. *)
Record JsError : Type := {
  err_message : option string;
  err_code : option ErrCode;
}.

Record Annotation : Type := {
  description : option string;
  confidence : option float;
  locale : option string;
  vertices : option (list (Z * Z));
}.

(** How the race between [textDetection] and the ten-second timer ends. *)
Inductive VisionOutcome : Type :=
| VisionResolved (error : option JsError) (textAnnotations : option (list Annotation))
| VisionRejected (e : JsError).

(** The rejection of [createTimeout]. *)
Definition OCR_TIMEOUT_error : JsError :=
  {| err_message := Some "OCR_TIMEOUT"; err_code := None |}.

Record OcrResult : Type := {
  text : string;
  confidence_percent : float;
  language : string;
  boundingBoxes : list (string * list (Z * Z));
}.

Record OcrError : Type := {
  code : string;
  message : string;
  retryable : bool;
}.

Inductive Response : Type :=
| OcrSuccess (data : OcrResult)
| OcrFailure (error : OcrError).

Definition isSupportedImageType (mimeType : string) : bool :=
  bool_decide (mimeType ∈ ["image/jpeg"; "image/jpg"; "image/png"; "image/gif";
                           "image/webp"; "image/bmp"; "image/tiff"]).

Definition isRetryableError (error : JsError) : bool :=
  match err_code error with
  | Some (CodeString c) =>
      bool_decide (c ∈ ["UNAVAILABLE"; "DEADLINE_EXCEEDED"; "RESOURCE_EXHAUSTED"])
  | _ => false
  end.

(** [a.confidence || 0] *)
Definition confidence_or_zero (c : option float) : float :=
  match c with
  | Some f => if (PrimFloat.eqb f 0 || PrimFloat.is_nan f)%bool then 0%float else f
  | None => 0%float
  end.

Definition calculateAverageConfidence (annotations : list Annotation) : float :=
  if decide (length annotations = 0%nat) then 100%float
  else
    let confidences :=
      filter (λ c, PrimFloat.ltb 0 c = true)
             (map (λ a, confidence_or_zero (confidence a)) annotations) in
    if decide (length confidences = 0%nat) then 100%float
    else
      let sum := fold_left PrimFloat.add confidences 0%float in
      PrimFloat.mul
        (PrimFloat.div sum (PrimFloat.of_uint63 (Uint63.of_Z (Z.of_nat (length confidences)))))
        100%float.

Definition extractText (vision : VisionOutcome) (buffer : list Byte.byte)
    (mimeType : string) : Response :=
  if negb (isSupportedImageType mimeType) then
    OcrFailure {| code := "UNSUPPORTED_TYPE";
                  message := "OCR not supported for " +:+ mimeType +:+ ". Only images are supported.";
                  retryable := false |}
  else
    match vision with
    | VisionResolved (Some error) _ =>
        OcrFailure {| code := "API_ERROR";
                      message := Js.or_else (err_message error) "Vision API returned an error";
                      retryable := isRetryableError error |}
    | VisionResolved None annotations =>
        let textAnnotations := default [] annotations in
        match textAnnotations with
        | [] =>
            OcrSuccess {| text := ""; confidence_percent := 0%float;
                          language := "en"; boundingBoxes := [] |}
        | fullTextAnnotation :: rest =>
            let extractedText := Js.or_else (description fullTextAnnotation) "" in
            let confidence := calculateAverageConfidence rest in
            let detectedLanguage := Js.or_else (locale fullTextAnnotation) "en" in
            let boundingBoxes :=
              map (λ a, (Js.or_else (description a) "", default [] (vertices a))) rest in
            OcrSuccess {| text := extractedText; confidence_percent := confidence;
                          language := detectedLanguage; boundingBoxes := boundingBoxes |}
        end
    | VisionRejected error =>
        if decide (err_message error = Some "OCR_TIMEOUT") then
          OcrFailure {| code := "TIMEOUT";
                        message := "OCR processing timed out after 10 seconds";
                        retryable := true |}
        else if (match err_code error with Some (CodeNumber 8) => true | _ => false end
                 || from_option (Js.includes "quota") false (err_message error))%bool then
          OcrFailure {| code := "QUOTA_EXCEEDED";
                        message := "Google Vision API quota exceeded";
                        retryable := false |}
        else
          OcrFailure {| code := "INTERNAL_ERROR";
                        message := Js.or_else (err_message error) "Failed to extract text from image";
                        retryable := true |}
    end.

End OcrService.

(** ** [DocumentService] (document.service.ts) *)

Module DocumentService.

Definition MAX_FILE_SIZE : Z := 5 * 1024 * 1024.
Definition STORAGE_QUOTA : Z := 100 * 1024 * 1024.

Definition allowedTypes : list string :=
  ["image/jpeg"; "image/jpg"; "image/png"; "image/gif"; "application/pdf"].

(** A background call that [uploadDocument] starts and does not await.  A
    call runs up to its first [await] when it is started: for the OCR path
    that is its first statement, which sets [ocr_status] to [processing] and
    is a part of [uploadDocument] below; for the analysis path it is the
    request to the language model.  The rest of a call runs later, and a
    task stands for the call in flight. *)
Inductive Task : Type :=
| OcrTask (documentId : string) (fileBuffer : list Byte.byte) (mimeType : string)
| AiTask (documentId : string) (fileBuffer : list Byte.byte) (mimeType : string).

Record UploadEnv : Type := {
  (** the [uuidv4()] of the document *)
  documentId : string;
  (** CURRENT_TIMESTAMP *)
  now : Z;
  storage : S3Service.UploadEnv;
}.

Record QuotaCheck : Type := {
  allowed : bool;
  message : option string;
}.

(** A content block of the reply of the language model. *)
Inductive ContentBlock : Type :=
| TextBlock (text : string)
| OtherBlock.

Record OcrEnv : Type := {
  vision : OcrService.VisionOutcome;
  ocr_now : Z;
}.

Record AiEnv : Type := {
  (** the content of the message, [None] when [messages.create] rejects *)
  reply : option (list ContentBlock);
  ai_now : Z;
}.

(** One entry of the SET list that [updateDocument] builds. *)
Inductive Assignment : Type :=
| SetTitle (v : string)
| SetDescription (v : string)
| SetNotes (v : string)
| SetType (v : DocumentType).

Definition assign (r : Db.DocumentRow) (a : Assignment) : Db.DocumentRow :=
  match a with
  | SetTitle v => Db.set_fields (Some (Some v)) None None None r
  | SetDescription v => Db.set_fields None (Some (Some v)) None None r
  | SetNotes v => Db.set_fields None None (Some (Some v)) None r
  | SetType v => Db.set_fields None None None (Some v) r
  end.

(** The row of [documents LEFT JOIN document_ai_analysis] as a [Document]. *)
Definition mapDbDocumentToDocument (id : string) (dbDoc : Db.DocumentRow)
    (da : option Db.AnalysisRow) : Shared.Document :=
  {| Shared.id := id;
     Shared.userId := Db.user_id dbDoc;
     Shared.type := Db.type dbDoc;
     Shared.title := Db.title dbDoc;
     Shared.description := Db.description dbDoc;
     Shared.notes := Db.notes dbDoc;
     Shared.fileUrl := Db.file_url dbDoc;
     Shared.thumbnailUrl := Db.thumbnail_url dbDoc;
     Shared.fileSize := Db.file_size dbDoc;
     Shared.mimeType := Db.mime_type dbDoc;
     Shared.status := Db.status dbDoc;
     Shared.ocrStatus := Db.ocr_status dbDoc;
     Shared.uploadedAt := Db.uploaded_at dbDoc;
     Shared.aiAnalysis :=
       a ← da;
       if (bool_decide (is_Some (Js.or_null (Db.extracted_text a)))
           || bool_decide (is_Some (Js.or_null (Db.summary a))))%bool
       then Some {| Shared.extractedText := Db.extracted_text a;
                    Shared.summary := Db.summary a;
                    Shared.insights := default [] (Db.insights a);
                    Shared.processedAt := Db.processed_at a |}
       else None |}.

(** Truthiness of a property read, [None] being [undefined]. *)
Definition truthy (v : option Json) : bool :=
  match v with
  | None | Some JNull => false
  | Some (JBool b) => b
  | Some (JNumber f) => negb (PrimFloat.eqb f 0 || PrimFloat.is_nan f)
  | Some (JString s) => negb (bool_decide (s = ""))
  | Some (JArray _) | Some (JObject _) => true
  end.

(** [analysis.name]: a TypeError on [null], [undefined] on a value that has
    no such property. *)
Definition get_property (v : Json) (name : string) : Outcome (option Json) :=
  match v with
  | JNull => Thrown (Error "TypeError: Cannot read properties of null")
  | JObject fields => Returned (snd <$> List.find (λ kv, bool_decide (kv.1 = name)) fields)
  | _ => Returned None
  end.

Section WithRuntime.
Context `{Runtime}.

(** [v || null] as the driver sends it for a TEXT column. *)
Definition text_param (v : option Json) : option string :=
  if truthy v then
    match v with
    | Some (JString s) => Some s
    | Some j => Some (pg_text_of j)
    | None => None
    end
  else None.

Definition scalar_text (v : Json) : option (option string) :=
  match v with
  | JNull => Some None
  | JString s => Some (Some s)
  | JArray _ => None
  | _ => Some (Some (pg_text_of v))
  end.

(** [v || []] as PostgreSQL reads it for a TEXT[] column, [None] when it
    rejects the value. *)
Definition text_array_param (v : option Json) : option (list (option string)) :=
  if truthy v then
    match v with
    | Some (JArray items) =>
        match mapM scalar_text items with
        | Some l => Some l
        | None => pg_array_of (JArray items)
        end
    | Some j => pg_array_of j
    | None => Some []
    end
  else Some [].

Definition checkStorageQuota (userId : string) (fileSize : Z) : M QuotaCheck :=
  try_catch
    (result ← Sql.select_user userId;
     match result with
     | None => mret {| allowed := false; message := Some "User not found" |}
     | Some row =>
         let storage_used := pg_int8 int8 (Db.storage_used row) in
         let storage_quota := pg_int8 int8 (Db.storage_quota row) in
         let newStorageUsed := Js.add storage_used (Js.Num fileSize) in
         if Js.gt newStorageUsed storage_quota then
           let remaining := Js.sub storage_quota storage_used in
           mret {| allowed := false;
                   message := Some ("Storage quota exceeded. You have "
                                    +:+ formatFileSize remaining
                                    +:+ " remaining of your "
                                    +:+ formatFileSize storage_quota
                                    +:+ " quota.") |}
         else mret {| allowed := true; message := None |}
     end)
    (λ _, mret {| allowed := false; message := Some "Failed to check storage quota" |}).

Definition uploadDocument (env : UploadEnv) (userId : string) (file : MulterFile)
    (metadata : Shared.UploadDocumentRequest)
    : M (ApiResponse Shared.Document * list Task) :=
  try_catch
    (if MAX_FILE_SIZE <? size file then
       mret (Failure FILE_TOO_LARGE
               ("File size (" +:+ formatFileSize (Js.Num (size file))
                +:+ ") exceeds 5 MB limit"), [])
     else if negb (bool_decide (mimetype file ∈ allowedTypes)) then
       mret (Failure UNSUPPORTED_FILE_TYPE
               "Only JPEG, PNG, GIF, and PDF files are supported", [])
     else
       quotaCheck ← checkStorageQuota userId (size file);
       if negb (allowed quotaCheck) then
         mret (Failure STORAGE_QUOTA_EXCEEDED
                 (Js.or_else (message quotaCheck) "Storage quota exceeded"), [])
       else
         Sql.BEGIN;;
         uploadResult ← S3Service.uploadDocument (storage env) (buffer file)
                          (mimetype file) userId;
         result ← Sql.insert_document (documentId env)
           {| Db.user_id := userId;
              Db.type := default OTHER (Shared.upload_type metadata);
              Db.title := Some (Js.or_else (Shared.upload_title metadata) "Untitled Document");
              Db.description := Js.or_null (Shared.upload_description metadata);
              Db.notes := None;
              Db.file_url := S3Service.fileUrl uploadResult;
              Db.thumbnail_url := Js.or_null (S3Service.thumbnailUrl uploadResult);
              Db.file_size := S3Service.fileSize uploadResult;
              Db.mime_type := mimetype file;
              Db.status := PENDING_PROCESSING;
              Db.ocr_status := None;
              Db.uploaded_at := now env |};
         Sql.add_storage_used (S3Service.fileSize uploadResult) userId;;
         Sql.COMMIT;;
         let document := mapDbDocumentToDocument (documentId env) result None in
         let ocr := if Shared.processWithOCR metadata
                    then [OcrTask (documentId env) (buffer file) (mimetype file)]
                    else [] in
         let ai := if Shared.processWithAI metadata
                   then [AiTask (documentId env) (buffer file) (mimetype file)]
                   else [] in
         (if Shared.processWithOCR metadata
          then Sql.update_ocr_status OcrProcessing (documentId env)
          else mret tt);;
         mret (Success document, (ocr ++ ai)%list))
    (λ _, Sql.ROLLBACK;;
          mret (Failure SERVER_ERROR "Failed to upload document", [])).

Definition getDocument (documentId userId : string) : M (ApiResponse Shared.Document) :=
  try_catch
    (row ← Sql.select_document documentId userId;
     match row with
     | None => mret (Failure NOT_FOUND "Document not found")
     | Some d =>
         da ← Sql.select_analysis documentId;
         mret (Success (mapDbDocumentToDocument documentId d da))
     end)
    (λ _, mret (Failure SERVER_ERROR "Failed to retrieve document")).

Definition updateDocument (documentId userId : string)
    (updateData : Shared.UpdateDocumentRequest) : M (ApiResponse Shared.Document) :=
  try_catch
    (checkResult ← Sql.select_document documentId userId;
     match checkResult with
     | None => mret (Failure NOT_FOUND "Document not found")
     | Some _ =>
         let updates :=
           (from_option (λ v, [SetTitle v]) [] (Shared.update_title updateData)
            ++ from_option (λ v, [SetDescription v]) [] (Shared.update_description updateData)
            ++ from_option (λ v, [SetNotes v]) [] (Shared.update_notes updateData)
            ++ from_option (λ v, [SetType v]) [] (Shared.update_type updateData))%list in
         if decide (length updates = 0%nat) then getDocument documentId userId
         else
           Sql.update_document documentId userId (Shared.update_title updateData)
             (λ r, fold_left assign updates r);;
           getDocument documentId userId
     end)
    (λ _, mret (Failure SERVER_ERROR "Failed to update document")).

Definition deleteDocument (env : S3Service.DeleteEnv) (documentId userId : string)
    : M (ApiResponse unit) :=
  try_catch
    (result ← Sql.select_document documentId userId;
     match result with
     | None => mret (Failure NOT_FOUND "Document not found")
     | Some document =>
         Sql.BEGIN;;
         S3Service.deleteDocument env (Db.file_url document);;
         match Js.or_null (Db.thumbnail_url document) with
         | Some thumbnail_url => S3Service.deleteThumbnail env thumbnail_url
         | None => mret tt
         end;;
         Sql.delete_document documentId;;
         Sql.release_storage_used (Db.file_size document) userId;;
         Sql.COMMIT;;
         mret (Success tt)
     end)
    (λ _, Sql.ROLLBACK;;
          mret (Failure SERVER_ERROR "Failed to delete document")).

(** The statements of the two background paths go through [pool.query],
    the BEGIN and the COMMIT too, so their transaction is one of the client
    that the pool hands out, one call after the other, and three things can
    happen to it.  When every statement succeeds, the COMMIT ends it.  When a
    statement fails, the pool destroys the client, which ends the transaction
    without its effects; in both paths the statement that can fail is the
    first that writes, so there are none, and the statement of the [catch]
    block runs on another client and is committed.  When JavaScript throws
    between the BEGIN and a statement, the client goes back to the pool with
    the transaction open: the statement of the [catch] block joins that
    transaction, and nothing commits it.  [db] is the database as committed,
    which such a statement leaves as it is; what the open transaction holds,
    and what later statements on that client see of it, is not a part of the
    world. *)
Definition uncommitted {A} (statement : M A) : M A := λ w,
  match statement w with
  | (o, w') => (o, with_db (λ _, db w) w')
  end.

(** [pool.query('BEGIN')] and [pool.query('COMMIT')]: the first opens the
    transaction on the client it gets, the second ends the transaction of
    statements that have all succeeded; the database as committed is then
    the one these statements have made. *)
Definition pool_BEGIN : M unit := mret tt.
Definition pool_COMMIT : M unit := mret tt.

(** In the OCR path only statements follow the BEGIN, so the first two cases
    are the only ones. *)
Definition processDocumentWithOCR (env : OcrEnv) (documentId : string)
    (fileBuffer : list Byte.byte) (mimeType : string) : M unit :=
  try_catch
    (Sql.update_ocr_status OcrProcessing documentId;;
     match OcrService.extractText (vision env) fileBuffer mimeType with
     | OcrService.OcrFailure _ =>
         Sql.update_ocr_status OcrFailed documentId
     | OcrService.OcrSuccess data =>
         let text := OcrService.text data in
         pool_BEGIN;;
         existingAnalysis ← Sql.select_analysis documentId;
         match existingAnalysis with
         | Some _ => Sql.update_extracted_text (Some text) (ocr_now env) documentId
         | None =>
             Sql.insert_analysis documentId
               {| Db.extracted_text := Some text; Db.summary := None;
                  Db.insights := None; Db.processed_at := ocr_now env |}
         end;;
         Sql.update_ocr_status OcrCompleted documentId;;
         pool_COMMIT
     end)
    (λ error, Sql.update_ocr_status OcrFailed documentId;; throw error).

(** [message.content[0].type === 'text' ? message.content[0].text : ''] *)
Definition responseText_of (content : list ContentBlock) : Outcome string :=
  match content with
  | [] => Thrown (Error "TypeError: Cannot read properties of undefined")
  | TextBlock t :: _ => Returned t
  | OtherBlock :: _ => Returned ""
  end.

(** The inner [try { JSON.parse } catch { ... }]. *)
Definition parse_analysis (responseText : string) : Json :=
  match JSON_parse responseText with
  | Some analysis => analysis
  | None =>
      JObject [("extractedText", JString "");
               ("summary", JString responseText);
               ("insights", JArray [])]
  end.

(** The reads of [analysis.extractedText], [analysis.summary] and
    [analysis.insights] for the parameters of the INSERT. *)
Definition analysis_fields (analysis : Json)
    : Outcome (option Json * option Json * option Json) :=
  match get_property analysis "extractedText" with
  | Thrown error => Thrown error
  | Returned extractedText =>
      match get_property analysis "summary" with
      | Thrown error => Thrown error
      | Returned summary =>
          match get_property analysis "insights" with
          | Thrown error => Thrown error
          | Returned insights => Returned (extractedText, summary, insights)
          end
      end
  end.

(** The one [try] block of the analysis path, in the three stretches that
    differ in what its [catch] block does to the database: up to
    [pool.query('BEGIN')], the evaluation of the parameters of the INSERT
    with the transaction open, and the statements up to
    [pool.query('COMMIT')]. *)
Definition processDocumentWithAI (env : AiEnv) (documentId : string)
    (fileBuffer : list Byte.byte) (mimeType : string) : M unit :=
  analysis ←
    try_catch
      (content ←
         match reply env with
         | Some c => mret c
         | None => throw (Error "messages.create rejected")
         end;
       responseText ← lift (responseText_of content);
       let analysis := parse_analysis responseText in
       pool_BEGIN;;
       mret analysis)
      (λ error, Sql.update_status FAILED documentId;; throw error);
  match analysis_fields analysis with
  | Thrown error =>
      uncommitted (Sql.update_status FAILED documentId);; throw error
  | Returned (extractedText, summary, insights) =>
      try_catch
        (match text_array_param insights with
         | None => throw (Error "malformed array literal")
         | Some l =>
             Sql.insert_analysis documentId
               {| Db.extracted_text := text_param extractedText;
                  Db.summary := text_param summary;
                  Db.insights := Some l;
                  Db.processed_at := ai_now env |}
         end;;
         Sql.update_status PROCESSED documentId;;
         pool_COMMIT)
        (λ error, Sql.update_status FAILED documentId;; throw error)
  end.

Definition getUserDocuments (userId : string) : M (ApiResponse (list Shared.Document)) :=
  try_catch
    (rows ← Sql.select_user_documents userId;
     let documents :=
       map (λ row, mapDbDocumentToDocument row.1.1 row.1.2 row.2) rows in
     mret (Success documents))
    (λ _, mret (Failure SERVER_ERROR "Failed to retrieve documents")).

(** The [data] of [getStorageInfo]; [used] and [quota] are the columns as
    the driver gives them. *)
Record StorageInfo : Type := {
  used : Js.value;
  quota : Js.value;
  remaining : Js.value;
  usedPercentage : float;
}.

(** [ToNumber] as a double, for an integer of the range of BIGINT. *)
Definition to_double (v : Js.value) : float :=
  match Js.ToNumber v with
  | Some n =>
      if n <? 0 then PrimFloat.opp (PrimFloat.of_uint63 (Uint63.of_Z (- n)))
      else PrimFloat.of_uint63 (Uint63.of_Z n)
  | None => PrimFloat.nan
  end.

Definition getStorageInfo (userId : string) : M (ApiResponse StorageInfo) :=
  try_catch
    (result ← Sql.select_user userId;
     match result with
     | None => mret (Failure NOT_FOUND "User not found")
     | Some row =>
         let storage_used := pg_int8 int8 (Db.storage_used row) in
         let storage_quota := pg_int8 int8 (Db.storage_quota row) in
         let remaining := Js.sub storage_quota storage_used in
         let usedPercentage :=
           PrimFloat.mul
             (PrimFloat.div (to_double storage_used) (to_double storage_quota))
             100%float in
         mret (Success {| used := storage_used; quota := storage_quota;
                          remaining := remaining; usedPercentage := usedPercentage |})
     end)
    (λ _, mret (Failure SERVER_ERROR "Failed to retrieve storage information")).

End WithRuntime.

End DocumentService.

(** ** [AuthService] (auth.service.ts)

    A string is a sequence of code units; the model has those below 256. *)

Module AuthService.

Record Validation : Type := {
  valid : bool;
  message : option string;
}.

Inductive AuthResult : Type :=
| AuthSuccess (data : Shared.AuthResponse)
| AuthFailure (code : ErrorCode) (message : option string).

Record RegisterEnv : Type := {
  (** the [uuidv4()] of the user *)
  userId : string;
}.

(** [\d] *)
Definition is_digit (c : ascii) : bool :=
  let n := nat_of_ascii c in ((48 <=? n) && (n <=? 57))%nat.

(** [\s] *)
Definition is_space (c : ascii) : bool :=
  let n := nat_of_ascii c in
  (((9 <=? n) && (n <=? 13)) || (n =? 32) || (n =? 160))%nat.

Fixpoint remove_chars (p : ascii → bool) (s : string) : string :=
  match s with
  | EmptyString => EmptyString
  | String c s' => if p c then remove_chars p s' else String c (remove_chars p s')
  end.

(** [/^\+977\d{10}$/] *)
Definition phone_pattern (s : string) : bool :=
  (String.prefix "+977" s
   && (String.length s =? 14)%nat
   && forallb is_digit (list_ascii_of_string (String.substring 4 10 s)))%bool.

Definition validatePassword (password : string) : Validation :=
  if (String.length password <? 8)%nat then
    {| valid := false; message := Some "Password must be at least 8 characters long" |}
  else if negb (existsb is_digit (list_ascii_of_string password)) then
    {| valid := false; message := Some "Password must contain at least one number" |}
  else {| valid := true; message := None |}.

(** [phoneNumber.replace(/[\s-]/g, '')] *)
Definition cleanPhone (phoneNumber : string) : string :=
  remove_chars (λ c, is_space c || bool_decide (c = "-"%char)) phoneNumber.

Definition validatePhoneNumber (phoneNumber : string) : Validation :=
  if negb (phone_pattern (cleanPhone phoneNumber)) then
    {| valid := false;
       message := Some "Phone number must be in format +977XXXXXXXXXX (Nepal)" |}
  else {| valid := true; message := None |}.

(** The fields of [User] that a row holds right after registration; the
    profile columns are all NULL then. *)
Definition mapDbUserToUser (id : string) (dbUser : Db.UserRow) : Shared.User :=
  {| Shared.user_id := id;
     Shared.email := Js.or_else (Db.email dbUser) "";
     Shared.phoneNumber := Db.phone_number dbUser;
     Shared.fullName := Db.full_name dbUser;
     Shared.country := Js.or_else (Db.country dbUser) "Nepal";
     Shared.profileComplete := Db.profile_complete dbUser |}.

Section WithRuntime.
Context `{Runtime}.

Definition hash (password : string) : M string := λ w,
  (Returned (bcrypt_hash password),
   {| db := db w; tx := tx w; bucket := bucket w;
      bcrypt_calls := BcryptHash password :: bcrypt_calls w |}).

Definition compare (password passwordHash : string) : M bool := λ w,
  (Returned (bcrypt_compare password passwordHash),
   {| db := db w; tx := tx w; bucket := bucket w;
      bcrypt_calls := BcryptCompare password passwordHash :: bcrypt_calls w |}).

Definition generateToken (userId : string) : string := jwt_sign userId.

Definition register (env : RegisterEnv) (data : Shared.RegisterData) : M AuthResult :=
  try_catch
    (let passwordValidation := validatePassword (Shared.reg_password data) in
     if negb (valid passwordValidation) then
       mret (AuthFailure WEAK_PASSWORD (message passwordValidation))
     else
       let phoneValidation := validatePhoneNumber (Shared.reg_phoneNumber data) in
       if negb (valid phoneValidation) then
         mret (AuthFailure VALIDATION_ERROR (message phoneValidation))
       else
         Sql.BEGIN;;
         existingUser ← Sql.select_users_by_phone (Shared.reg_phoneNumber data);
         if (0 <? length existingUser)%nat then
           Sql.ROLLBACK;;
           mret (AuthFailure DUPLICATE_PHONE (Some "Phone number already registered"))
         else
           passwordHash ← hash (Shared.reg_password data);
           row ← Sql.insert_user (userId env) (Shared.reg_phoneNumber data)
                   passwordHash (Shared.reg_fullName data) "Nepal";
           Sql.insert_profile (userId env);;
           Sql.COMMIT;;
           let user := mapDbUserToUser (userId env) row in
           let token := generateToken (userId env) in
           mret (AuthSuccess {| Shared.user := user; Shared.token := token |}))
    (λ error, Sql.ROLLBACK;; throw error).

Definition login (phoneNumber password : string) : M AuthResult :=
  try_catch
    (let phoneValidation := validatePhoneNumber phoneNumber in
     if negb (valid phoneValidation) then
       mret (AuthFailure INVALID_CREDENTIALS (Some "Invalid phone number or password"))
     else
       result ← Sql.select_users_by_phone phoneNumber;
       match result with
       | [] =>
           mret (AuthFailure INVALID_CREDENTIALS (Some "Invalid phone number or password"))
       | (id, dbUser) :: _ =>
           isValidPassword ← compare password (Db.password_hash dbUser);
           if negb isValidPassword then
             mret (AuthFailure INVALID_CREDENTIALS (Some "Invalid phone number or password"))
           else
             let user := mapDbUserToUser id dbUser in
             let token := generateToken (Shared.user_id user) in
             mret (AuthSuccess {| Shared.user := user; Shared.token := token |})
       end)
    (λ error, throw error).

End WithRuntime.

End AuthService.

(** ** The authentication routes (the router that follows the middleware in
    middleware/auth.ts)

    The two handlers with their express-validator chains, which run before
    them on [req.body].  A field of the body is its text, an absent one the
    empty text, which is how the validators read it. *)

Module AuthRoutes.

(** An entry of [errors.array()]: its field and its message. *)
Record ValidationError : Type := {
  path : string;
  msg : string;
}.

(** The JSON of a response: a result in the shape of the service's, or
    [{success: false, error: {code: VALIDATION_ERROR,
      message: 'Validation failed', details}}]. *)
Inductive Body : Type :=
| Result (result : AuthService.AuthResult)
| ValidationFailed (details : list ValidationError).

Record HttpResponse : Type := {
  statusCode : Z;
  json : Body;
}.

Definition respond (code : Z) (b : Body) : HttpResponse :=
  {| statusCode := code; json := b |}.

(** [error.code] of a response. *)
Definition error_code (b : Body) : option ErrorCode :=
  match b with
  | Result (AuthService.AuthSuccess _) => None
  | Result (AuthService.AuthFailure code _) => Some code
  | ValidationFailed _ => Some VALIDATION_ERROR
  end.

Definition internal_server_error : HttpResponse :=
  respond 500 (Result (AuthService.AuthFailure SERVER_ERROR (Some "Internal server error"))).

Record RegisterBody : Type := {
  phoneNumber : string;
  password : string;
  fullName : string;
}.

Record LoginBody : Type := {
  login_phoneNumber : string;
  login_password : string;
}.

(** [trim()]: the text without the white space at its two ends. *)
Fixpoint ltrim (s : list ascii) : list ascii :=
  match s with
  | [] => []
  | c :: s' => if AuthService.is_space c then ltrim s' else s
  end.

Definition trim (s : string) : string :=
  string_of_list_ascii (rev (ltrim (rev (ltrim (list_ascii_of_string s))))).

(** [body('phoneNumber').trim().matches(/^\+977\d{10}$/)] *)
Definition phone_error : ValidationError :=
  {| path := "phoneNumber"; msg := "Phone number must be in format +977XXXXXXXXXX" |}.

Definition phoneValidation (phoneNumber : string) : list ValidationError :=
  if AuthService.phone_pattern (trim phoneNumber) then [] else [phone_error].

(** [body('password').isLength({ min: 8 }).matches(/\d/)]: every validator
    of a chain runs, and each one that fails adds its entry. *)
Definition passwordValidation (password : string) : list ValidationError :=
  ((if (String.length password <? 8)%nat
    then [{| path := "password"; msg := "Password must be at least 8 characters" |}]
    else [])
   ++ (if existsb AuthService.is_digit (list_ascii_of_string password)
       then []
       else [{| path := "password"; msg := "Password must contain at least one number" |}]))%list.

(** [body('fullName').trim().notEmpty()] *)
Definition fullNameValidation (fullName : string) : list ValidationError :=
  if decide (trim fullName = "")
  then [{| path := "fullName"; msg := "Full name is required" |}]
  else [].

(** [body('password').notEmpty()] *)
Definition passwordRequired (password : string) : list ValidationError :=
  if decide (password = "")
  then [{| path := "password"; msg := "Password is required" |}]
  else [].

Section WithRuntime.
Context `{Runtime}.

(** [POST /register]; the service is given the body as the sanitizers left
    it. *)
Definition register (env : AuthService.RegisterEnv) (body : RegisterBody) : M HttpResponse :=
  match (phoneValidation (phoneNumber body) ++ passwordValidation (password body)
         ++ fullNameValidation (fullName body))%list with
  | error :: errors => mret (respond 400 (ValidationFailed (error :: errors)))
  | [] =>
      try_catch
        (result ← AuthService.register env
                    {| Shared.reg_phoneNumber := trim (phoneNumber body);
                       Shared.reg_password := password body;
                       Shared.reg_fullName := trim (fullName body) |};
         match result with
         | AuthService.AuthFailure DUPLICATE_PHONE _ => mret (respond 409 (Result result))
         | AuthService.AuthFailure _ _ => mret (respond 400 (Result result))
         | AuthService.AuthSuccess _ => mret (respond 201 (Result result))
         end)
        (λ _, mret internal_server_error)
  end.

(** [POST /login] *)
Definition login (body : LoginBody) : M HttpResponse :=
  match (phoneValidation (login_phoneNumber body)
         ++ passwordRequired (login_password body))%list with
  | error :: errors => mret (respond 400 (ValidationFailed (error :: errors)))
  | [] =>
      try_catch
        (result ← AuthService.login (trim (login_phoneNumber body)) (login_password body);
         match result with
         | AuthService.AuthFailure _ _ => mret (respond 401 (Result result))
         | AuthService.AuthSuccess _ => mret (respond 200 (Result result))
         end)
        (λ _, mret internal_server_error)
  end.

End WithRuntime.

End AuthRoutes.

(** ** The document routes (document.routes.ts)

    A handler is modelled from the point where Express calls it:
    [authenticateToken] has set [req.userId], multer has filled [req.file],
    and express-validator has run, [errors] being what [validationResult]
    holds and the body fields being what the validators leave. *)

Module DocumentRoutes.

(** The JSON of a response: an [ApiResponse], or the validation failure with
    its [details]. *)
Inductive Body (T : Type) : Type :=
| Plain (result : ApiResponse T)
| ValidationFailed (details : list string).
Arguments Plain {T} result.
Arguments ValidationFailed {T} details.

Record HttpResponse (T : Type) : Type := {
  statusCode : Z;
  json : Body T;
}.
Arguments statusCode {T} _.
Arguments json {T} _.

Definition respond {T} (code : Z) (b : Body T) : HttpResponse T :=
  {| statusCode := code; json := b |}.

Definition internal_server_error {T} : HttpResponse T :=
  respond 500 (Plain (Failure SERVER_ERROR "Internal server error")).

Record UploadRequest : Type := {
  upload_errors : list string;
  upload_userId : string;
  upload_file : option MulterFile;
  body_type : option DocumentType;
  body_title : option string;
  body_description : option string;
  body_processWithAI : option string;
  body_processWithOCR : option string;
}.

Record UpdateRequest : Type := {
  update_errors : list string;
  update_userId : string;
  update_id : string;
  update_body : Shared.UpdateDocumentRequest;
}.

(** [code === FILE_TOO_LARGE || code === UNSUPPORTED_FILE_TYPE
     || code === STORAGE_QUOTA_EXCEEDED ? 400 : 500] *)
Definition upload_status (code : ErrorCode) : Z :=
  match code with
  | FILE_TOO_LARGE | UNSUPPORTED_FILE_TYPE | STORAGE_QUOTA_EXCEEDED => 400
  | _ => 500
  end.

(** [code === NOT_FOUND ? 404 : 500] *)
Definition not_found_status (code : ErrorCode) : Z :=
  match code with
  | NOT_FOUND => 404
  | _ => 500
  end.

Section WithRuntime.
Context `{Runtime}.

(** [POST /upload] *)
Definition upload (env : DocumentService.UploadEnv) (req : UploadRequest)
    : M (HttpResponse Shared.Document * list DocumentService.Task) :=
  if negb (bool_decide (upload_errors req = [])) then
    mret (respond 400 (ValidationFailed (upload_errors req)), [])
  else
    match upload_file req with
    | None => mret (respond 400 (Plain (Failure VALIDATION_ERROR "No file provided")), [])
    | Some file =>
        try_catch
          (r ← DocumentService.uploadDocument env (upload_userId req) file
                 {| Shared.upload_type := body_type req;
                    Shared.upload_title := body_title req;
                    Shared.upload_description := body_description req;
                    Shared.processWithAI := bool_decide (body_processWithAI req = Some "true");
                    Shared.processWithOCR := bool_decide (body_processWithOCR req = Some "true") |};
           match r.1 with
           | Failure code message =>
               mret (respond (upload_status code) (Plain (Failure code message)), r.2)
           | Success document => mret (respond 201 (Plain (Success document)), r.2)
           end)
          (λ _, mret (internal_server_error, []))
    end.

(** [GET /:id] *)
Definition get (id userId : string) : M (HttpResponse Shared.Document) :=
  try_catch
    (result ← DocumentService.getDocument id userId;
     match result with
     | Failure code message =>
         mret (respond (not_found_status code) (Plain (Failure code message)))
     | Success document => mret (respond 200 (Plain (Success document)))
     end)
    (λ _, mret internal_server_error).

(** [PUT /:id] *)
Definition put (req : UpdateRequest) : M (HttpResponse Shared.Document) :=
  if negb (bool_decide (update_errors req = [])) then
    mret (respond 400 (ValidationFailed (update_errors req)))
  else
    try_catch
      (result ← DocumentService.updateDocument (update_id req) (update_userId req)
                  (update_body req);
       match result with
       | Failure code message =>
           mret (respond (not_found_status code) (Plain (Failure code message)))
       | Success document => mret (respond 200 (Plain (Success document)))
       end)
      (λ _, mret internal_server_error).

(** [DELETE /:id] *)
Definition delete (env : S3Service.DeleteEnv) (id userId : string) : M (HttpResponse unit) :=
  try_catch
    (result ← DocumentService.deleteDocument env id userId;
     match result with
     | Failure code message =>
         mret (respond (not_found_status code) (Plain (Failure code message)))
     | Success _ => mret (respond 200 (Plain (Success tt)))
     end)
    (λ _, mret internal_server_error).

End WithRuntime.

End DocumentRoutes.

(** ** Vocabulary of the properties *)

(** [UPDATE users SET storage_used = storage_used + n WHERE id = userId] on
    the database. *)
Definition charge (n : Z) (userId : string) (d : Db.Database) : Db.Database :=
  Db.with_users (alter (λ u, Db.set_storage_used (Db.storage_used u + n) u) userId) d.

(** [UPDATE users SET storage_used = GREATEST(storage_used - n, 0) WHERE id = userId] *)
Definition release (n : Z) (userId : string) (d : Db.Database) : Db.Database :=
  Db.with_users (alter (λ u, Db.set_storage_used (Z.max (Db.storage_used u - n) 0) u) userId) d.

(** The database without a document and its analysis. *)
Definition removed (documentId : string) (d : Db.Database) : Db.Database :=
  Db.with_analysis (delete documentId) (Db.with_documents (delete documentId) d).

(** The document with this id, when it belongs to this user. *)
Definition owned_document (documentId userId : string) (d : Db.Database) : option Db.DocumentRow :=
  r ← Db.documents d !! documentId;
  if decide (Db.user_id r = userId) then Some r else None.

(** The storage service deletes the original: the URL names a key of the
    bucket and the request resolves. *)
Definition storage_delete_succeeds `{Runtime} (env : S3Service.DeleteEnv) (url : string) : Prop :=
  S3Service.delete_original env = true
  ∧ ∃ key, S3Service.extractFileNameFromUrl url = Returned key.

(** The documents of a user, and the sum of their sizes. *)
Definition documents_of (userId : string) (d : Db.Database) : gmap string Db.DocumentRow :=
  filter (λ kv, Db.user_id kv.2 = userId) (Db.documents d).

Definition total_file_size (m : gmap string Db.DocumentRow) : Z :=
  map_fold (λ _ r acc, Db.file_size r + acc) 0 m.

Definition freshly_registered (userId : string) (d : Db.Database) : Prop :=
  Db.storage_used <$> Db.users d !! userId = Some 0 ∧ documents_of userId d = ∅.

(** The user's counter is the sum of the sizes of the user's documents. *)
Definition accounted (userId : string) (d : Db.Database) : Prop :=
  ∃ row, Db.users d !! userId = Some row
       ∧ Db.storage_used row = total_file_size (documents_of userId d).

(** The invariant carried along a run: the counter is the sum, and no
    document of the user has a negative size. *)
Definition balanced (userId : string) (d : Db.Database) : Prop :=
  accounted userId d
  ∧ map_Forall (λ _ r, 0 ≤ Db.file_size r) (documents_of userId d).

(** Uploads and deletions, each run to completion before the next. *)
Inductive Operation : Type :=
| Upload (env : DocumentService.UploadEnv) (userId : string) (file : MulterFile)
         (metadata : Shared.UploadDocumentRequest)
| Delete (env : S3Service.DeleteEnv) (documentId userId : string).

Definition step `{Runtime} (w : World) (op : Operation) : World :=
  match op with
  | Upload env userId file metadata =>
      (DocumentService.uploadDocument env userId file metadata w).2
  | Delete env documentId userId =>
      (DocumentService.deleteDocument env documentId userId w).2
  end.

Definition run `{Runtime} (ops : list Operation) (w : World) : World :=
  fold_left step ops w.


(** The object that [processDocumentWithAI] builds when the reply is not
    JSON. *)
Definition fallback_analysis (responseText : string) : Json :=
  JObject [("extractedText", JString ""); ("summary", JString responseText);
           ("insights", JArray [])].

(** An upload that was accepted. *)
Definition accepted {T} (o : Outcome (ApiResponse T * list DocumentService.Task)) : bool :=
  match o with
  | Returned (Success _, _) => true
  | _ => false
  end.

(** The message of [checkStorageQuota]. *)
Definition quota_message (used quota : Js.value) : string :=
  "Storage quota exceeded. You have " +:+ formatFileSize (Js.sub quota used)
  +:+ " remaining of your " +:+ formatFileSize quota +:+ " quota.".

(** ** More vocabulary *)

(** The row that [uploadDocument] inserts, given what the storage service
    returned. *)
Definition uploaded_row (env : DocumentService.UploadEnv) (userId : string)
    (file : MulterFile) (metadata : Shared.UploadDocumentRequest)
    (uploadResult : S3Service.UploadResult) : Db.DocumentRow :=
  {| Db.user_id := userId;
     Db.type := default OTHER (Shared.upload_type metadata);
     Db.title := Some (Js.or_else (Shared.upload_title metadata) "Untitled Document");
     Db.description := Js.or_null (Shared.upload_description metadata);
     Db.notes := None;
     Db.file_url := S3Service.fileUrl uploadResult;
     Db.thumbnail_url := Js.or_null (S3Service.thumbnailUrl uploadResult);
     Db.file_size := S3Service.fileSize uploadResult;
     Db.mime_type := mimetype file;
     Db.status := PENDING_PROCESSING;
     Db.ocr_status := None;
     Db.uploaded_at := DocumentService.now env |}.

(** The row of a new document once [uploadDocument] has returned: the OCR
    call, when one was started, has set its [ocr_status]. *)
Definition started (metadata : Shared.UploadDocumentRequest) (row : Db.DocumentRow)
    : Db.DocumentRow :=
  if Shared.processWithOCR metadata
  then Db.set_ocr_status (Some OcrProcessing) row
  else row.



(** The reply of the language model is text that parses to [null]. *)
Definition parsed_null `{Runtime} (env : DocumentService.AiEnv) : bool :=
  match DocumentService.reply env with
  | Some content =>
      match DocumentService.responseText_of content with
      | Returned responseText =>
          match DocumentService.parse_analysis responseText with
          | JNull => true
          | _ => false
          end
      | Thrown _ => false
      end
  | None => false
  end.

(** The key under which [S3Service.uploadDocument] stores the original. *)
Definition file_key (env : S3Service.UploadEnv) (mimeType userId : string) : string :=
  userId +:+ "/" +:+ S3Service.file_uuid env +:+ S3Service.getFileExtension mimeType.

Definition thumbnail_key (env : S3Service.UploadEnv) (mimeType userId : string) : string :=
  userId +:+ "/thumbnails/" +:+ S3Service.thumbnail_uuid env +:+ "_thumb"
  +:+ S3Service.getFileExtension mimeType.

(** The text that [extractFileNameFromUrl] splits a URL at. *)
Definition bucket_marker `{Runtime} : string := S3Service.BUCKET_NAME +:+ ".s3.".


(** An upload whose file is as multer's memory storage builds it. *)
Definition well_formed (op : Operation) : Prop :=
  match op with
  | Upload _ _ file _ => size file = Z.of_nat (length (buffer file))
  | Delete _ _ _ => True
  end.

(** The user's counter is within the user's quota. *)
Definition within_quota (userId : string) (d : Db.Database) : Prop :=
  ∃ row, Db.users d !! userId = Some row
       ∧ Db.storage_used row ≤ Db.storage_quota row.

(** No two users have the same phone number. *)
Definition phones_unique (d : Db.Database) : Prop :=
  ∀ i j u v, Db.users d !! i = Some u → Db.users d !! j = Some v →
             Db.phone_number u = Db.phone_number v → i = j.

(** The row that [register] inserts. *)
Definition registered_row `{Runtime} (data : Shared.RegisterData) : Db.UserRow :=
  {| Db.phone_number := Shared.reg_phoneNumber data;
     Db.password_hash := bcrypt_hash (Shared.reg_password data);
     Db.full_name := Shared.reg_fullName data; Db.email := None;
     Db.country := Some "Nepal"; Db.profile_complete := false;
     Db.storage_used := 0; Db.storage_quota := 104857600 |}.

(** The one answer of [login] to a request it refuses. *)
Definition invalid_credentials : AuthService.AuthResult :=
  AuthService.AuthFailure INVALID_CREDENTIALS (Some "Invalid phone number or password").

(** The world after a registration that was committed. *)
Definition committed_registration `{Runtime} (env : AuthService.RegisterEnv) (data : Shared.RegisterData)
    (w : World) : World :=
  {| db := Db.with_user_profiles (λ s, {[AuthService.userId env]} ∪ s)
             (Db.with_users (insert (AuthService.userId env) (registered_row data)) (db w));
     tx := None; bucket := bucket w;
     bcrypt_calls := BcryptHash (Shared.reg_password data) :: bcrypt_calls w |}.

(** The answer of the routes to a request for a document that the user
    does not have. *)
Definition document_not_found {T} : DocumentRoutes.HttpResponse T :=
  DocumentRoutes.respond 404
    (DocumentRoutes.Plain (Failure NOT_FOUND "Document not found")).
(** ** A runtime and worlds for the examples *)

Module Examples.

(** The driver as pool.ts configures it, the default bucket and region, a
    [JSON.parse] that knows the three literal names, and stand-ins for
    bcrypt and the token signature. *)
Definition node_runtime : Runtime := {|
  int8 := Int8AsText;
  AWS_REGION := None;
  AWS_S3_BUCKET_NAME := None;
  JSON_parse := λ s,
    if decide (s = "null") then Some JNull
    else if decide (s = "true") then Some (JBool true)
    else if decide (s = "false") then Some (JBool false)
    else None;
  pg_text_of := λ j, match j with JBool true => "true" | JBool false => "false" | _ => "" end;
  pg_array_of := λ _, None;
  bcrypt_hash := λ p, "$2b$10$" +:+ p;
  bcrypt_compare := λ p h, bool_decide (h = "$2b$10$" +:+ p);
  jwt_sign := λ u, "jwt." +:+ u;
|}.

Definition empty_world : World :=
  {| db := Db.empty; tx := None; bucket := ∅; bcrypt_calls := [] |}.

Definition test_user (password : string) : Shared.RegisterData :=
  {| Shared.reg_phoneNumber := "+9779811111111";
     Shared.reg_password := password;
     Shared.reg_fullName := "Test User" |}.

(** The world after the registration of [+9779811111111] as user [u1]. *)
Definition registered : World :=
  (@AuthService.register node_runtime {| AuthService.userId := "u1" |}
     (test_user "Password123") empty_world).2.

Definition png3 : MulterFile :=
  {| size := 3; mimetype := "image/png"; buffer := [Byte.x41; Byte.x42; Byte.x43] |}.

Definition upload_env (d : string) : DocumentService.UploadEnv :=
  {| DocumentService.documentId := d;
     DocumentService.now := 5;
     DocumentService.storage :=
       {| S3Service.file_uuid := "f-" +:+ d;
          S3Service.thumbnail_uuid := "t-" +:+ d;
          S3Service.put_original := true;
          S3Service.sharp_thumbnail := Some [Byte.x41];
          S3Service.put_thumbnail := true |} |}.

Definition delete_env : S3Service.DeleteEnv :=
  {| S3Service.delete_original := true; S3Service.delete_thumbnail := true |}.

Definition plain : Shared.UploadDocumentRequest :=
  {| Shared.upload_type := None; Shared.upload_title := None;
     Shared.upload_description := None;
     Shared.processWithAI := false; Shared.processWithOCR := false |}.

(** The world after [u1] uploaded [png3] as document [d1], the row of the
    document and the document returned. *)
Definition uploaded : World :=
  (@DocumentService.uploadDocument node_runtime (upload_env "d1") "u1" png3 plain
     registered).2.

Definition d1_row : Db.DocumentRow :=
  {| Db.user_id := "u1"; Db.type := OTHER; Db.title := Some "Untitled Document";
     Db.description := None; Db.notes := None;
     Db.file_url :=
       "https://swasthyasathi-documents.s3.ap-south-1.amazonaws.com/u1/f-d1.png";
     Db.thumbnail_url :=
       Some "https://swasthyasathi-documents.s3.ap-south-1.amazonaws.com/u1/thumbnails/t-d1_thumb.png";
     Db.file_size := 3; Db.mime_type := "image/png";
     Db.status := PENDING_PROCESSING; Db.ocr_status := None; Db.uploaded_at := 5 |}.

Definition d1_document : Shared.Document :=
  DocumentService.mapDbDocumentToDocument "d1" d1_row None.

(** A JPEG of [n] zero bytes. *)
Definition jpeg_of_size (n : Z) : MulterFile :=
  {| size := n; mimetype := "image/jpeg"; buffer := repeat Byte.x00 (Z.to_nat n) |}.

Definition sixty_mb_jpeg : MulterFile := jpeg_of_size (60 * 1024 * 1024).

(** A row of [documents] for a file of [n] bytes of [u1]. *)
Definition stored (n : Z) (i : nat) : string * Db.DocumentRow :=
  let key := "u1/file-" +:+ Js.decimal (Z.of_nat i) +:+ ".jpg" in
  ("doc-" +:+ Js.decimal (Z.of_nat i),
   {| Db.user_id := "u1"; Db.type := OTHER; Db.title := Some "Untitled Document";
      Db.description := None; Db.notes := None;
      Db.file_url := @S3Service.object_url node_runtime key;
      Db.thumbnail_url := None; Db.file_size := n; Db.mime_type := "image/jpeg";
      Db.status := PENDING_PROCESSING; Db.ocr_status := None; Db.uploaded_at := 5 |}).

(** [u1] with the default quota of 104857600 bytes, one byte short of it:
    nineteen documents of 5 MB and one of 5 MB less a byte. *)
Definition nearly_full : World :=
  with_db (λ d,
    Db.with_users (alter (Db.set_storage_used 104857599) "u1")
      (Db.with_documents
         (λ _, list_to_map (stored 5242879 0 :: map (stored 5242880) (seq 1 19))) d))
    registered.

Definition two_bytes : MulterFile :=
  {| size := 2; mimetype := "image/png"; buffer := [Byte.x41; Byte.x42] |}.

Definition ocr_env : DocumentService.OcrEnv :=
  {| DocumentService.vision :=
       OcrService.VisionResolved None
         (Some [ {| OcrService.description := Some "Hb 13.5";
                    OcrService.confidence := None;
                    OcrService.locale := Some "en";
                    OcrService.vertices := None |} ]);
     DocumentService.ocr_now := 7 |}.

(** The world after the OCR path has run on document [d1]. *)
Definition ocr_done : World :=
  (DocumentService.processDocumentWithOCR ocr_env "d1" (buffer png3)
     (mimetype png3) uploaded).2.

Definition ai_env : DocumentService.AiEnv :=
  {| DocumentService.reply := Some [DocumentService.TextBlock "A blood test report."];
     DocumentService.ai_now := 8 |}.

(** The same runtime with a driver that parses int8. *)
Definition number_runtime : Runtime := {|
  int8 := Int8AsNumber;
  AWS_REGION := None;
  AWS_S3_BUCKET_NAME := None;
  JSON_parse := @JSON_parse node_runtime;
  pg_text_of := @pg_text_of node_runtime;
  pg_array_of := @pg_array_of node_runtime;
  bcrypt_hash := @bcrypt_hash node_runtime;
  bcrypt_compare := @bcrypt_compare node_runtime;
  jwt_sign := @jwt_sign node_runtime;
|}.

(** The same runtime after the bucket was renamed. *)
Definition renamed_bucket_runtime : Runtime := {|
  int8 := Int8AsText;
  AWS_REGION := None;
  AWS_S3_BUCKET_NAME := Some "health-records";
  JSON_parse := @JSON_parse node_runtime;
  pg_text_of := @pg_text_of node_runtime;
  pg_array_of := @pg_array_of node_runtime;
  bcrypt_hash := @bcrypt_hash node_runtime;
  bcrypt_compare := @bcrypt_compare node_runtime;
  jwt_sign := @jwt_sign node_runtime;
|}.

(** The row of [u1] with [used] bytes stored. *)
Definition u1_row (used : Z) : Db.UserRow :=
  {| Db.phone_number := "+9779811111111"; Db.password_hash := "$2b$10$Password123";
     Db.full_name := "Test User"; Db.email := None; Db.country := Some "Nepal";
     Db.profile_complete := false; Db.storage_used := used;
     Db.storage_quota := 104857600 |}.

(** The bodies of requests that give the number of [test_user] with a space
    before it. *)
Definition padded_registration (password : string) : AuthRoutes.RegisterBody :=
  {| AuthRoutes.phoneNumber := " +9779811111111";
     AuthRoutes.password := password;
     AuthRoutes.fullName := "Test User" |}.

Definition padded_login (password : string) : AuthRoutes.LoginBody :=
  {| AuthRoutes.login_phoneNumber := " +9779811111111";
     AuthRoutes.login_password := password |}.

(** A second user. *)
Definition second_user : Shared.RegisterData :=
  {| Shared.reg_phoneNumber := "+9779822222222";
     Shared.reg_password := "Password456";
     Shared.reg_fullName := "Second User" |}.

Definition pdf3 : MulterFile :=
  {| size := 3; mimetype := "application/pdf"; buffer := [Byte.x25; Byte.x50; Byte.x44] |}.

Definition with_ocr : Shared.UploadDocumentRequest :=
  {| Shared.upload_type := None; Shared.upload_title := None;
     Shared.upload_description := None;
     Shared.processWithAI := false; Shared.processWithOCR := true |}.


(** A deletion during which the thumbnail cannot be deleted. *)
Definition thumbnail_stays_env : S3Service.DeleteEnv :=
  {| S3Service.delete_original := true; S3Service.delete_thumbnail := false |}.

Definition d1_thumbnail_url : string :=
  "https://swasthyasathi-documents.s3.ap-south-1.amazonaws.com/u1/thumbnails/t-d1_thumb.png".

(** The world after the analysis path has run on document [d1], and the
    row it has inserted. *)
Definition ai_done : World :=
  (@DocumentService.processDocumentWithAI node_runtime ai_env "d1" (buffer png3)
     (mimetype png3) uploaded).2.

Definition d1_analysis : Db.AnalysisRow :=
  {| Db.extracted_text := None; Db.summary := Some "A blood test report.";
     Db.insights := Some []; Db.processed_at := 8 |}.

(** What [extractText] returns under [ocr_env]. *)
Definition ocr_data : OcrService.OcrResult :=
  {| OcrService.text := "Hb 13.5"; OcrService.confidence_percent := 100%float;
     OcrService.language := "en"; OcrService.boundingBoxes := [] |}.

(** A reply that is the JSON literal [null]. *)
Definition null_reply_env : DocumentService.AiEnv :=
  {| DocumentService.reply := Some [DocumentService.TextBlock "null"];
     DocumentService.ai_now := 8 |}.

Definition word (t : string) : OcrService.Annotation :=
  {| OcrService.description := Some t; OcrService.confidence := None;
     OcrService.locale := None; OcrService.vertices := None |}.

Definition retitled : Shared.UpdateDocumentRequest :=
  {| Shared.update_title := Some "Blood test"; Shared.update_description := None;
     Shared.update_notes := Some "fasting"; Shared.update_type := None |}.



End Examples.
(** * Properties *)

Ltac unfold_monad :=
  unfold DocumentService.pool_BEGIN, DocumentService.pool_COMMIT in *;
  unfold mbind, M_bind, mret, M_ret, fmap, M_fmap, try_catch, throw,
    get_db, modify_db, modify_bucket, lift in *.

(** ** What each service call does to the world *)

Section Calls.
Context `{Runtime}.

(** The storage upload touches the bucket only, and the size it reports is
    the length of the buffer it was given. *)
Lemma S3_uploadDocument_spec env buffer mimeType userId w :
  ∃ o b, S3Service.uploadDocument env buffer mimeType userId w = (o, with_bucket (λ _, b) w)
    ∧ match o with
      | Returned r => S3Service.fileSize r = Z.of_nat (length buffer)
      | Thrown e => e = Error "Failed to upload file to S3"
      end.
Proof.
  unfold S3Service.uploadDocument, S3Service.generateAndUploadThumbnail, S3Service.send_put.
  unfold_monad.
  destruct w as [d t b c]. unfold with_bucket. simpl.
  destruct (S3Service.put_original env); simpl; [|by eexists _, _].
  destruct (S3Service.isImageType mimeType); simpl; [|by eexists _, _].
  destruct (S3Service.sharp_thumbnail env); simpl; [|by eexists _, _].
  destruct (S3Service.put_thumbnail env); simpl; by eexists _, _.
Qed.

Lemma S3_deleteDocument_spec env url w :
  ∃ o b, S3Service.deleteDocument env url w = (o, with_bucket (λ _, b) w)
    ∧ (storage_delete_succeeds env url → o = Returned tt).
Proof.
  unfold storage_delete_succeeds, S3Service.deleteDocument, S3Service.send_delete.
  unfold_monad.
  destruct w as [d t b c]. unfold with_bucket. simpl.
  destruct (S3Service.extractFileNameFromUrl url) as [key|e]; simpl.
  - destruct (S3Service.delete_original env); simpl.
    + by eexists _, _.
    + eexists _, _. split; [done|]. intros [? _]; discriminate.
  - eexists _, _. split; [done|]. intros [_ [key ?]]. discriminate.
Qed.

Lemma S3_deleteThumbnail_spec env url w :
  ∃ b, S3Service.deleteThumbnail env url w = (Returned tt, with_bucket (λ _, b) w).
Proof.
  unfold S3Service.deleteThumbnail, S3Service.send_delete. unfold_monad.
  destruct w as [d t b c]. unfold with_bucket. simpl.
  destruct (S3Service.extractFileNameFromUrl url) as [key|e]; simpl; [|by eexists].
  destruct (S3Service.delete_thumbnail env); simpl; by eexists.
Qed.

Lemma checkStorageQuota_world userId fileSize w :
  ∃ q, DocumentService.checkStorageQuota userId fileSize w = (Returned q, w)
     ∧ (DocumentService.allowed q = true → is_Some (Db.users (db w) !! userId)).
Proof.
  unfold DocumentService.checkStorageQuota, Sql.select_user. unfold_monad. simpl.
  destruct (Db.users (db w) !! userId) as [row|]; simpl.
  - destruct (Js.gt _ _); simpl; eexists; (split; [done|]); eauto.
  - eexists; split; [done|]. simpl. discriminate.
Qed.

Lemma started_user_id metadata row : Db.user_id (started metadata row) = Db.user_id row.
Proof. unfold started. by destruct (Shared.processWithOCR metadata). Qed.

Lemma started_file_size metadata row : Db.file_size (started metadata row) = Db.file_size row.
Proof. unfold started. by destruct (Shared.processWithOCR metadata). Qed.

Lemma started_file_url metadata row : Db.file_url (started metadata row) = Db.file_url row.
Proof. unfold started. by destruct (Shared.processWithOCR metadata). Qed.

Lemma started_thumbnail_url metadata row :
  Db.thumbnail_url (started metadata row) = Db.thumbnail_url row.
Proof. unfold started. by destruct (Shared.processWithOCR metadata). Qed.

(** An upload is refused with the world as it was, or rolled back, or
    committed with one new row and the owner charged for it; the row is then
    as the OCR call, if one was started, has marked it. *)
Lemma uploadDocument_cases env userId file metadata w :
  let r := DocumentService.uploadDocument env userId file metadata w in
  (∃ code msg, r = (Returned (Failure code msg, []), w))
  ∨ (∃ b, r = (Returned (Failure SERVER_ERROR "Failed to upload document", []),
               {| db := db w; tx := None; bucket := b; bcrypt_calls := bcrypt_calls w |}))
  ∨ (∃ b row tasks,
       r = (Returned (Success (DocumentService.mapDbDocumentToDocument
                                 (DocumentService.documentId env) row None), tasks),
            {| db := charge (Z.of_nat (length (buffer file))) userId
                       (Db.with_documents
                          (insert (DocumentService.documentId env) (started metadata row))
                          (db w));
               tx := None; bucket := b; bcrypt_calls := bcrypt_calls w |})
       ∧ Db.user_id row = userId
       ∧ Db.file_size row = Z.of_nat (length (buffer file))
       ∧ Db.status row = PENDING_PROCESSING
       ∧ Db.documents (db w) !! DocumentService.documentId env = None
       ∧ is_Some (Db.users (db w) !! userId)
       ∧ size file ≤ DocumentService.MAX_FILE_SIZE
       ∧ mimetype file ∈ DocumentService.allowedTypes).
Proof.
  intros r. pose proof (eq_refl r) as Hr. unfold r at 2 in Hr. clearbody r.
  unfold DocumentService.uploadDocument in Hr.
  unfold try_catch at 1 in Hr.
  destruct (Z.ltb_spec DocumentService.MAX_FILE_SIZE (size file)) as [Hbig|Hsmall].
  { left. eexists _, _. exact Hr. }
  destruct (bool_decide_reflect (mimetype file ∈ DocumentService.allowedTypes)) as [Hmime|Hmime];
    cbn [negb] in Hr; cbv beta iota in Hr.
  2:{ left. eexists _, _. exact Hr. }
  unfold mbind at 1, M_bind at 1 in Hr.
  destruct (checkStorageQuota_world userId (size file) w) as (q & Hq & Huser).
  rewrite Hq in Hr.
  destruct (DocumentService.allowed q); cbn [negb] in Hr; cbv beta iota in Hr.
  2:{ left. eexists _, _. exact Hr. }
  specialize (Huser eq_refl).
  unfold mbind at 1, M_bind at 1, Sql.BEGIN at 1 in Hr.
  unfold mbind at 1, M_bind at 1 in Hr.
  match type of Hr with context [S3Service.uploadDocument ?e ?b ?m ?u ?w'] =>
    destruct (S3_uploadDocument_spec e b m u w') as (o & bk & Hs3 & Ho) end.
  rewrite Hs3 in Hr.
  destruct o as [res|e].
  2:{ right; left. exists bk. exact Hr. }
  unfold Sql.insert_document, Sql.add_storage_used, Sql.update_ocr_status,
    Sql.COMMIT, Sql.ROLLBACK in Hr.
  unfold_monad. simpl in Hr.
  destruct (Sql.fits 255 _); simpl in Hr.
  2:{ right; left. exists bk. exact Hr. }
  destruct (decide (is_Some (Db.documents (db w) !! DocumentService.documentId env))) as [Hdup|Hnew];
    simpl in Hr.
  { right; left. exists bk. exact Hr. }
  destruct (decide (Db.users (db w) !! userId = None)) as [Hno|_]; simpl in Hr.
  { rewrite Hno in Huser. by destruct Huser. }
  assert (Hnone : Db.documents (db w) !! DocumentService.documentId env = None)
    by by apply eq_None_not_Some.
  destruct (Shared.processWithOCR metadata) eqn:Hocr; simpl in Hr;
    right; right; eexists bk, _, _;
    (split;
     [ rewrite Hr, <- Ho; unfold started, charge; rewrite Hocr;
       first [ reflexivity
             | unfold with_db, Db.with_documents, Db.with_users; simpl;
               by rewrite alter_insert_eq ]
     | simpl; repeat split; done ]).
Qed.

Lemma too_large_is_rejected env userId file metadata w :
  DocumentService.MAX_FILE_SIZE < size file →
  DocumentService.uploadDocument env userId file metadata w
    = (Returned (Failure FILE_TOO_LARGE
                   ("File size (" +:+ formatFileSize (Js.Num (size file))
                    +:+ ") exceeds 5 MB limit"), []), w).
Proof.
  intros Hbig. unfold DocumentService.uploadDocument, try_catch.
  destruct (Z.ltb_spec DocumentService.MAX_FILE_SIZE (size file)); [reflexivity|lia].
Qed.

Lemma owned_document_Some documentId userId d doc :
  owned_document documentId userId d = Some doc →
  Db.documents d !! documentId = Some doc ∧ Db.user_id doc = userId.
Proof.
  unfold owned_document. destruct (Db.documents d !! documentId) as [r|]; [|done].
  simpl. case_decide; [|done]. intros [= ->]. done.
Qed.

Lemma owned_document_lookup documentId userId d doc :
  Db.documents d !! documentId = Some doc → Db.user_id doc = userId →
  owned_document documentId userId d = Some doc.
Proof. intros Hdoc Hown. unfold owned_document. rewrite Hdoc. simpl. by rewrite decide_True. Qed.

Lemma deleteDocument_not_found env documentId userId w :
  owned_document documentId userId (db w) = None →
  DocumentService.deleteDocument env documentId userId w
  = (Returned (Failure NOT_FOUND "Document not found"), w).
Proof.
  unfold owned_document. intros Hnone.
  unfold DocumentService.deleteDocument, Sql.select_document. unfold_monad.
  simpl. rewrite Hnone. reflexivity.
Qed.

(** A deletion of an owned document commits or rolls back, and it commits
    when the storage service deletes the original. *)
Lemma deleteDocument_found env documentId userId w doc :
  owned_document documentId userId (db w) = Some doc →
  ∃ b,
    let committed :=
      (Returned (Success tt),
       {| db := release (Db.file_size doc) userId (removed documentId (db w));
          tx := None; bucket := b; bcrypt_calls := bcrypt_calls w |}) in
    let rolled_back :=
      (Returned (Failure SERVER_ERROR "Failed to delete document"),
       {| db := db w; tx := None; bucket := b; bcrypt_calls := bcrypt_calls w |}) in
    (DocumentService.deleteDocument env documentId userId w = committed
     ∨ DocumentService.deleteDocument env documentId userId w = rolled_back)
    ∧ (storage_delete_succeeds env (Db.file_url doc) →
       DocumentService.deleteDocument env documentId userId w = committed).
Proof.
  unfold owned_document. intros Hsome.
  set (r := DocumentService.deleteDocument env documentId userId w).
  pose proof (eq_refl r) as Hr. unfold r at 2 in Hr. clearbody r.
  unfold DocumentService.deleteDocument, Sql.select_document in Hr.
  unfold try_catch at 1 in Hr. unfold mbind at 1, M_bind at 1 in Hr.
  unfold get_db at 1 in Hr. unfold mbind at 1, M_bind at 1 in Hr.
  unfold mret at 1, M_ret at 1 in Hr.
  rewrite Hsome in Hr.
  unfold mbind at 1, M_bind at 1, Sql.BEGIN at 1 in Hr.
  unfold mbind at 1, M_bind at 1 in Hr.
  match type of Hr with context [S3Service.deleteDocument ?e ?u ?w'] =>
    destruct (S3_deleteDocument_spec e u w') as (o & bk & Hs3 & Ho) end.
  rewrite Hs3 in Hr.
  destruct o as [[]|e].
  2:{ exists bk. split; [right; exact Hr|].
      intros Hok. specialize (Ho Hok). discriminate. }
  unfold mbind at 1, M_bind at 1 in Hr.
  destruct (Js.or_null (Db.thumbnail_url doc)) as [thumb|].
  - match type of Hr with context [S3Service.deleteThumbnail ?e ?u ?w'] =>
      destruct (S3_deleteThumbnail_spec e u w') as (bk' & Hth) end.
    rewrite Hth in Hr. exists bk'. split; [left|intros _]; exact Hr.
  - exists bk. split; [left|intros _]; exact Hr.
Qed.

End Calls.

(** ** The storage counter *)

Section Accounting.

Lemma total_file_size_empty : total_file_size ∅ = 0.
Proof. apply map_fold_empty. Qed.

Lemma total_file_size_insert (m : gmap string Db.DocumentRow) i r :
  m !! i = None → total_file_size (<[i:=r]> m) = Db.file_size r + total_file_size m.
Proof.
  intros Hi. unfold total_file_size.
  rewrite map_fold_insert_L; [done| |done]. intros; lia.
Qed.

Lemma total_file_size_delete (m : gmap string Db.DocumentRow) i r :
  m !! i = Some r → total_file_size m = Db.file_size r + total_file_size (delete i m).
Proof.
  intros Hi. unfold total_file_size.
  rewrite (map_fold_delete_L _ _ i r m); [done| |done]. intros; lia.
Qed.

Lemma total_file_size_nonneg (m : gmap string Db.DocumentRow) :
  map_Forall (λ _ r, 0 ≤ Db.file_size r) m → 0 ≤ total_file_size m.
Proof.
  induction m as [|i r m Hi IH] using map_ind; intros Hall.
  - by rewrite total_file_size_empty.
  - rewrite total_file_size_insert by done.
    apply map_Forall_insert in Hall as [? ?]; [|done]. specialize (IH ltac:(done)). lia.
Qed.

Lemma balanced_fresh userId d : freshly_registered userId d → balanced userId d.
Proof.
  intros [Hused Hdocs]. unfold balanced, accounted. rewrite Hdocs.
  destruct (Db.users d !! userId) as [row|] eqn:Hrow; [|done].
  simpl in Hused. split.
  - exists row. split; [done|]. rewrite total_file_size_empty. congruence.
  - apply map_Forall_empty.
Qed.

Lemma balanced_charge userId d documentId row owner :
  Db.documents d !! documentId = None →
  Db.user_id row = owner →
  0 ≤ Db.file_size row →
  balanced userId d →
  balanced userId
    (charge (Db.file_size row) owner (Db.with_documents (insert documentId row) d)).
Proof.
  intros Hnew Howner Hsize [(u & Hu & Hsum) Hpos].
  unfold balanced, accounted, documents_of, charge in *. simpl.
  destruct (decide (owner = userId)) as [->|Hother].
  - rewrite map_filter_insert_True by done.
    assert (filter (λ kv, Db.user_id kv.2 = userId) (Db.documents d) !! documentId = None)
      as Hfresh by (apply map_lookup_filter_None; by left).
    split.
    + rewrite lookup_alter_eq, Hu. simpl. eexists. split; [done|]. simpl.
      rewrite total_file_size_insert by done. lia.
    + by apply map_Forall_insert_2.
  - rewrite map_filter_insert_not' ; [|simpl; congruence|intros y Hy; congruence].
    split; [|done].
    rewrite lookup_alter_ne by done. by exists u.
Qed.

Lemma balanced_release userId d documentId doc owner :
  Db.documents d !! documentId = Some doc →
  Db.user_id doc = owner →
  balanced userId d →
  balanced userId (release (Db.file_size doc) owner (removed documentId d)).
Proof.
  intros Hdoc Howner [(u & Hu & Hsum) Hpos].
  unfold balanced, accounted, documents_of, release, removed in *. simpl.
  destruct (decide (owner = userId)) as [->|Hother].
  - rewrite map_filter_delete.
    assert (filter (λ kv, Db.user_id kv.2 = userId) (Db.documents d) !! documentId = Some doc)
      as Hin by (by apply map_lookup_filter_Some).
    assert (map_Forall (λ _ r, 0 ≤ Db.file_size r)
              (delete documentId (filter (λ kv, Db.user_id kv.2 = userId) (Db.documents d))))
      as Hpos' by (by apply map_Forall_delete).
    split; [|done].
    rewrite lookup_alter_eq, Hu. simpl. eexists. split; [done|]. simpl.
    rewrite (total_file_size_delete _ _ _ Hin) in Hsum.
    apply total_file_size_nonneg in Hpos'. lia.
  - rewrite map_filter_delete_not; [|intros y Hy; simpl; congruence].
    split; [|done].
    rewrite lookup_alter_ne by done. by exists u.
Qed.

Context `{Runtime}.

Lemma balanced_step userId w op : balanced userId (db w) → balanced userId (db (step w op)).
Proof.
  intros Hbal. destruct op as [env owner file metadata|env documentId owner]; simpl.
  - destruct (uploadDocument_cases env owner file metadata w)
      as [(c & m & ->)|[(b & ->)|(b & row & tasks & -> & Howner & Hsize & _ & Hnew & _)]];
      simpl; try done.
    rewrite <- Hsize, <- (started_file_size metadata row).
    apply balanced_charge; rewrite ?started_user_id, ?started_file_size; try done. lia.
  - destruct (owned_document documentId owner (db w)) as [doc|] eqn:Hdoc.
    + destruct (deleteDocument_found env _ _ _ _ Hdoc) as (b & [-> | ->] & _); simpl; [|done].
      apply owned_document_Some in Hdoc as [? ?].
      by apply balanced_release.
    + by rewrite deleteDocument_not_found.
Qed.

Lemma balanced_run userId ops w : balanced userId (db w) → balanced userId (db (run ops w)).
Proof.
  revert w. induction ops as [|op ops IH]; intros w Hbal; simpl; [done|].
  apply IH. by apply balanced_step.
Qed.

(** C1. From a freshly registered user (counter at zero, no document), after
    any sequence of uploads and deletions run one after the other, of this
    user or of others, whatever the storage service does in each of them,
    the user's [storage_used] is the sum of [file_size] over the user's
    documents. *)
Theorem storage_used_is_sum_of_file_sizes userId w ops :
  freshly_registered userId (db w) →
  accounted userId (db (run ops w)).
Proof. intros Hfresh. apply balanced_run, balanced_fresh, Hfresh. Qed.

End Accounting.

(** ** Upload, deletion and update of a document *)

Section Documents.
Context `{Runtime}.

(** C10. When an upload succeeds, the size returned by the storage service
    is the length of the buffer it was given, the file passed the 5 MB
    check, and that length is the [fileSize] of the document returned, the
    [file_size] of the row and the amount added to the owner's
    [storage_used]; it is the [size] of the incoming file as soon as that is
    the length of its buffer, which is how multer's memory storage fills
    it. *)
Theorem upload_size_is_buffer_length env userId file metadata w document tasks w' :
  DocumentService.uploadDocument env userId file metadata w
    = (Returned (Success document, tasks), w') →
  (∀ w0 r w1,
      S3Service.uploadDocument (DocumentService.storage env) (buffer file) (mimetype file)
        userId w0 = (Returned r, w1) →
      S3Service.fileSize r = Z.of_nat (length (buffer file)))
  ∧ size file ≤ DocumentService.MAX_FILE_SIZE
  ∧ Shared.fileSize document = Z.of_nat (length (buffer file))
  ∧ Db.file_size <$> Db.documents (db w') !! DocumentService.documentId env
      = Some (Z.of_nat (length (buffer file)))
  ∧ (∃ row, Db.users (db w) !! userId = Some row
       ∧ Db.storage_used <$> Db.users (db w') !! userId
           = Some (Db.storage_used row + Z.of_nat (length (buffer file))))
  ∧ (size file = Z.of_nat (length (buffer file)) →
       Shared.fileSize document = size file).
Proof.
  intros Hup. split.
  { intros w0 r w1 Hs3.
    destruct (S3_uploadDocument_spec (DocumentService.storage env) (buffer file)
                (mimetype file) userId w0) as (o & b & Hs & Ho).
    rewrite Hs3 in Hs. injection Hs as <- _. exact Ho. }
  destruct (uploadDocument_cases env userId file metadata w)
    as [(c & m & Hr)|[(b & Hr)|(b & row & tasks' & Hr & _ & Hsize & _ & _ & [u Hu] & Hmax & _)]];
    rewrite Hr in Hup; try discriminate.
  injection Hup as <- <- <-. simpl.
  split; [done|]. split; [done|]. split.
  { rewrite lookup_insert_eq. simpl. by rewrite started_file_size, Hsize. }
  split.
  { exists u. split; [done|]. rewrite lookup_alter_eq, Hu. done. }
  intros ->. done.
Qed.

(** C3. For a document owned by the user, when the storage service deletes
    the original, [deleteDocument] succeeds, the row is gone, the owner's
    [storage_used] has gone down by the [file_size] of the row and not below
    zero, no other user's row has changed, and a second call for the same
    document returns NOT_FOUND and leaves the world as it is. *)
Theorem delete_releases_file_size env documentId userId w doc :
  Db.documents (db w) !! documentId = Some doc →
  Db.user_id doc = userId →
  storage_delete_succeeds env (Db.file_url doc) →
  ∃ w1,
    DocumentService.deleteDocument env documentId userId w = (Returned (Success tt), w1)
    ∧ Db.documents (db w1) !! documentId = None
    ∧ Db.users (db w1) !! userId
        = (λ u, Db.set_storage_used (Z.max (Db.storage_used u - Db.file_size doc) 0) u)
            <$> Db.users (db w) !! userId
    ∧ (∀ other, other ≠ userId → Db.users (db w1) !! other = Db.users (db w) !! other)
    ∧ (∀ env', DocumentService.deleteDocument env' documentId userId w1
               = (Returned (Failure NOT_FOUND "Document not found"), w1)).
Proof.
  intros Hdoc Hown Hs3.
  pose proof (owned_document_lookup _ _ _ _ Hdoc Hown) as Hfound.
  destruct (deleteDocument_found env _ _ _ _ Hfound) as (b & _ & Hok).
  specialize (Hok Hs3). cbv zeta in Hok. eexists. split; [exact Hok|]. simpl.
  split; [apply lookup_delete_eq|].
  split; [apply lookup_alter_eq|].
  split; [intros other Hne; by apply lookup_alter_ne|].
  intros env'. apply deleteDocument_not_found.
  unfold owned_document. simpl. by rewrite lookup_delete_eq.
Qed.


(** C6, as the code has it. A file of 60 MB is over the 5 MB limit: the
    upload is refused with FILE_TOO_LARGE and the world is as before, so the
    counter stays where it was; a second upload of 60 MB is refused in the
    same way, and the quota check is not reached. *)
Theorem sixty_megabytes_is_too_large env1 env2 userId mime1 buf1 mime2 buf2 metadata1 metadata2 w :
  let file1 := {| size := 60 * 1024 * 1024; mimetype := mime1; buffer := buf1 |} in
  let file2 := {| size := 60 * 1024 * 1024; mimetype := mime2; buffer := buf2 |} in
  let first := DocumentService.uploadDocument env1 userId file1 metadata1 w in
  let second := DocumentService.uploadDocument env2 userId file2 metadata2 first.2 in
  first = (Returned (Failure FILE_TOO_LARGE "File size (60 MB) exceeds 5 MB limit", []), w)
  ∧ second = (Returned (Failure FILE_TOO_LARGE "File size (60 MB) exceeds 5 MB limit", []), w).
Proof.
  intros file1 file2 first second.
  assert (first = (Returned (Failure FILE_TOO_LARGE "File size (60 MB) exceeds 5 MB limit", []), w))
    as Hfirst by (by apply too_large_is_rejected).
  split; [exact Hfirst|]. subst second. rewrite Hfirst. simpl.
  by apply too_large_is_rejected.
Qed.

(** With a driver that parses int8, the quota check is the comparison of
    numbers, and an upload over the quota is refused with the remaining and
    the total amount in the message and the world as it was. *)
Lemma quota_exceeded_with_number_parser env userId file metadata w row :
  int8 = Int8AsNumber →
  size file ≤ DocumentService.MAX_FILE_SIZE →
  mimetype file ∈ DocumentService.allowedTypes →
  Db.users (db w) !! userId = Some row →
  Db.storage_used row + size file > Db.storage_quota row →
  DocumentService.uploadDocument env userId file metadata w
    = (Returned (Failure STORAGE_QUOTA_EXCEEDED
                   (quota_message (Js.Num (Db.storage_used row))
                      (Js.Num (Db.storage_quota row))), []), w).
Proof.
  intros Hparser Hsize Hmime Hrow Hover.
  unfold DocumentService.uploadDocument, DocumentService.checkStorageQuota, Sql.select_user.
  unfold_monad. simpl.
  destruct (Z.ltb_spec DocumentService.MAX_FILE_SIZE (size file)); [lia|].
  rewrite bool_decide_true by done. simpl.
  rewrite Hrow, Hparser. simpl.
  destruct (Z.ltb_spec (Db.storage_quota row) (Db.storage_used row + size file)); [|lia].
  reflexivity.
Qed.

(** With the driver's default, it is the comparison of two texts. *)
Lemma quota_check_with_text_parser userId fileSize w row :
  int8 = Int8AsText →
  Db.users (db w) !! userId = Some row →
  ∃ q, DocumentService.checkStorageQuota userId fileSize w = (Returned q, w)
     ∧ DocumentService.allowed q
       = negb (String.ltb (Js.decimal (Db.storage_quota row))
                 (Js.decimal (Db.storage_used row) +:+ Js.decimal fileSize)).
Proof.
  intros Hparser Hrow.
  unfold DocumentService.checkStorageQuota, Sql.select_user. unfold_monad. simpl.
  rewrite Hrow, Hparser. simpl.
  destruct (String.ltb _ _); eexists; split; reflexivity.
Qed.

End Documents.

(** ** The two background paths *)

Section Enrichment.
Context `{Runtime}.

(** The analysis path inserts, and the insertion fails on a document that
    has an analysis row already. *)
Lemma processDocumentWithAI_existing_row env documentId fileBuffer mimeType w :
  is_Some (Db.document_ai_analysis (db w) !! documentId) →
  ∃ e w', DocumentService.processDocumentWithAI env documentId fileBuffer mimeType w
            = (Thrown e, w')
        ∧ Db.document_ai_analysis (db w') = Db.document_ai_analysis (db w).
Proof.
  intros Hrow.
  unfold DocumentService.processDocumentWithAI, Sql.insert_analysis, Sql.update_status.
  unfold_monad.
  destruct (DocumentService.reply env) as [content|]; simpl; [|by eexists _, _].
  destruct (DocumentService.responseText_of content) as [responseText|e]; simpl;
    [|by eexists _, _].
  destruct (DocumentService.analysis_fields _) as [[[extractedText summary] insights]|e];
    simpl; [|by eexists _, _].
  destruct (DocumentService.text_array_param _); simpl; [|by eexists _, _].
  rewrite decide_True by done. simpl. by eexists _, _.
Qed.

(** The OCR path writes its text whether or not the document has an
    analysis row. *)
Lemma processDocumentWithOCR_upserts env documentId fileBuffer mimeType w data :
  OcrService.extractText (DocumentService.vision env) fileBuffer mimeType
    = OcrService.OcrSuccess data →
  is_Some (Db.documents (db w) !! documentId) →
  ∃ w', DocumentService.processDocumentWithOCR env documentId fileBuffer mimeType w
          = (Returned tt, w')
      ∧ Db.extracted_text <$> Db.document_ai_analysis (db w') !! documentId
          = Some (Some (OcrService.text data))
      ∧ Db.ocr_status <$> Db.documents (db w') !! documentId = Some (Some OcrCompleted).
Proof.
  intros Hocr [doc Hdoc].
  unfold DocumentService.processDocumentWithOCR, Sql.insert_analysis, Sql.update_ocr_status,
    Sql.select_analysis, Sql.update_extracted_text.
  unfold_monad. rewrite Hocr. simpl.
  destruct (Db.document_ai_analysis (db w) !! documentId) as [row|] eqn:Hrow; simpl.
  - eexists. split; [reflexivity|]. simpl.
    rewrite !lookup_alter_eq, Hrow, Hdoc. done.
  - rewrite Hrow. rewrite decide_False by (by intros [? ?]).
    rewrite decide_False by (rewrite lookup_alter_eq, Hdoc; done). simpl.
    eexists. split; [reflexivity|]. simpl.
    rewrite lookup_insert_eq, !lookup_alter_eq, Hdoc. done.
Qed.

(** C8. When the reply of the language model is not valid JSON, parsing does
    not raise: the analysis is the object with the raw reply as [summary],
    the empty string as [extractedText] and the empty array as [insights],
    and reading the three properties returns them.  On a document without an
    analysis row the path then returns normally and the row it inserts has
    the raw reply as summary (NULL when the reply is empty), no extracted
    text and no insight, and the document is marked processed. *)
Theorem freeform_reply_becomes_summary responseText :
  JSON_parse responseText = None →
  DocumentService.parse_analysis responseText = fallback_analysis responseText
  ∧ DocumentService.get_property (DocumentService.parse_analysis responseText) "extractedText"
      = Returned (Some (JString ""))
  ∧ DocumentService.get_property (DocumentService.parse_analysis responseText) "summary"
      = Returned (Some (JString responseText))
  ∧ DocumentService.get_property (DocumentService.parse_analysis responseText) "insights"
      = Returned (Some (JArray []))
  ∧ ∀ env documentId fileBuffer mimeType w rest,
      DocumentService.reply env = Some (DocumentService.TextBlock responseText :: rest) →
      is_Some (Db.documents (db w) !! documentId) →
      Db.document_ai_analysis (db w) !! documentId = None →
      ∃ w', DocumentService.processDocumentWithAI env documentId fileBuffer mimeType w
              = (Returned tt, w')
          ∧ Db.document_ai_analysis (db w') !! documentId
              = Some {| Db.extracted_text := None;
                        Db.summary := Js.or_null (Some responseText);
                        Db.insights := Some [];
                        Db.processed_at := DocumentService.ai_now env |}
          ∧ Db.status <$> Db.documents (db w') !! documentId = Some PROCESSED.
Proof.
  intros Hparse.
  assert (DocumentService.parse_analysis responseText = fallback_analysis responseText) as Hfb.
  { unfold DocumentService.parse_analysis. by rewrite Hparse. }
  rewrite Hfb. do 4 (split; [reflexivity|]).
  intros env documentId fileBuffer mimeType w rest Hreply [doc Hdoc] Hnone.
  unfold DocumentService.processDocumentWithAI, Sql.insert_analysis, Sql.update_status.
  unfold_monad. rewrite Hreply. simpl. rewrite Hfb. simpl.
  rewrite decide_False by (rewrite Hnone; by intros [? ?]).
  rewrite decide_False by (by rewrite Hdoc). simpl.
  eexists. split; [reflexivity|]. simpl.
  rewrite lookup_insert_eq, lookup_alter_eq, Hdoc. split; [|done].
  do 2 f_equal. unfold Js.or_null. destruct (decide (responseText = "")) as [->|Hne].
  - done.
  - unfold DocumentService.text_param. simpl. by rewrite bool_decide_false.
Qed.

End Enrichment.

(** ** Text extraction *)

Section Ocr.

(** C4, as the code has it. On a supported image for which the engine
    returns no text annotation (an empty list or none at all), the result is
    a success with the empty text and the confidence 0. *)
Theorem no_text_detected_has_confidence_zero buffer mimeType annotations :
  OcrService.isSupportedImageType mimeType = true →
  default [] annotations = [] →
  OcrService.extractText (OcrService.VisionResolved None annotations) buffer mimeType
    = OcrService.OcrSuccess
        {| OcrService.text := ""; OcrService.confidence_percent := 0%float;
           OcrService.language := "en"; OcrService.boundingBoxes := [] |}.
Proof.
  intros Hsupported Hempty. unfold OcrService.extractText.
  rewrite Hsupported, Hempty. reflexivity.
Qed.

(** The confidence 100 is that of a result with the full-text annotation
    and no annotation of a word. *)
Lemma full_text_only_has_confidence_hundred buffer mimeType a :
  OcrService.isSupportedImageType mimeType = true →
  ∃ data, OcrService.extractText (OcrService.VisionResolved None (Some [a])) buffer mimeType
            = OcrService.OcrSuccess data
        ∧ OcrService.confidence_percent data = 100%float.
Proof.
  intros Hsupported. unfold OcrService.extractText. rewrite Hsupported. simpl.
  eexists. split; reflexivity.
Qed.

End Ocr.

(** ** Registration and login *)

Section Auth.
Context `{Runtime}.

(** The phone check of the service, which the routes call with numbers that
    have passed their own: for a number that, once whitespace and dashes are
    removed, does not match, [login] answers INVALID_CREDENTIALS and
    [register] answers after its password check. *)
Lemma service_refuses_malformed_phone env phoneNumber password fullName w :
  AuthService.phone_pattern (AuthService.cleanPhone phoneNumber) = false →
  AuthService.login phoneNumber password w
    = (Returned (AuthService.AuthFailure INVALID_CREDENTIALS
                   (Some "Invalid phone number or password")), w)
  ∧ AuthService.register env
      {| Shared.reg_phoneNumber := phoneNumber; Shared.reg_password := password;
         Shared.reg_fullName := fullName |} w
    = (Returned
         (if AuthService.valid (AuthService.validatePassword password)
          then AuthService.AuthFailure VALIDATION_ERROR
                 (Some "Phone number must be in format +977XXXXXXXXXX (Nepal)")
          else AuthService.AuthFailure WEAK_PASSWORD
                 (AuthService.message (AuthService.validatePassword password))), w).
Proof.
  intros Hphone.
  unfold AuthService.login, AuthService.register, AuthService.validatePhoneNumber.
  unfold try_catch. cbn [Shared.reg_phoneNumber Shared.reg_password].
  rewrite Hphone. simpl.
  split; [reflexivity|].
  destruct (AuthService.valid (AuthService.validatePassword password)); reflexivity.
Qed.

(** C7, as the code has it. For a phone number that, once the white space
    at its two ends is removed, does not match [+977] and ten digits, the
    two routes answer 400 with the code VALIDATION_ERROR, whatever the
    password and the name: the service is not called, so the database is not
    read and bcrypt is not called, and the world is as before.  The
    [details] of the answer begin with the entry of the phone number; the
    entries that follow are those of the other fields, which for the
    registration are the two format checks of the password. *)
Theorem malformed_phone_is_refused_by_the_routes env phoneNumber password fullName w :
  AuthService.phone_pattern (AuthRoutes.trim phoneNumber) = false →
  AuthRoutes.register env
    {| AuthRoutes.phoneNumber := phoneNumber; AuthRoutes.password := password;
       AuthRoutes.fullName := fullName |} w
    = (Returned
         (AuthRoutes.respond 400
            (AuthRoutes.ValidationFailed
               (AuthRoutes.phone_error
                  :: AuthRoutes.passwordValidation password
                  ++ AuthRoutes.fullNameValidation fullName))), w)
  ∧ AuthRoutes.login
      {| AuthRoutes.login_phoneNumber := phoneNumber;
         AuthRoutes.login_password := password |} w
    = (Returned
         (AuthRoutes.respond 400
            (AuthRoutes.ValidationFailed
               (AuthRoutes.phone_error :: AuthRoutes.passwordRequired password))), w)
  ∧ AuthRoutes.error_code
      (AuthRoutes.ValidationFailed
         (AuthRoutes.phone_error
            :: AuthRoutes.passwordValidation password
            ++ AuthRoutes.fullNameValidation fullName))
    = Some VALIDATION_ERROR.
Proof.
  intros Hphone.
  unfold AuthRoutes.register, AuthRoutes.login, AuthRoutes.phoneValidation.
  cbn [AuthRoutes.phoneNumber AuthRoutes.password AuthRoutes.fullName
       AuthRoutes.login_phoneNumber AuthRoutes.login_password].
  rewrite Hphone. split; [reflexivity|]. split; reflexivity.
Qed.

(** A registration that succeeds leaves a freshly registered user, when no
    document refers to the new id. *)
Lemma register_is_fresh env data w response w' :
  AuthService.register env data w = (Returned (AuthService.AuthSuccess response), w') →
  documents_of (AuthService.userId env) (db w) = ∅ →
  freshly_registered (AuthService.userId env) (db w').
Proof.
  intros Hreg Hdocs.
  unfold AuthService.register, AuthService.hash, Sql.select_users_by_phone, Sql.insert_user,
    Sql.insert_profile, Sql.BEGIN, Sql.COMMIT, Sql.ROLLBACK in Hreg.
  unfold_monad.
  destruct (negb (AuthService.valid (AuthService.validatePassword _))); [discriminate|].
  destruct (negb (AuthService.valid (AuthService.validatePhoneNumber _))); [discriminate|].
  simpl in Hreg.
  destruct (0 <? length _)%nat; [discriminate|]. simpl in Hreg.
  destruct (Sql.fits 20 _); [|discriminate]. simpl in Hreg.
  destruct (Sql.fits 255 _ && Sql.fits 255 _); [|discriminate]. simpl in Hreg.
  destruct (decide (is_Some (Db.users (db w) !! AuthService.userId env))); [discriminate|].
  simpl in Hreg.
  destruct (decide (filter _ (Db.users (db w)) ≠ ∅)); [discriminate|]. simpl in Hreg.
  destruct (decide (AuthService.userId env ∈ Db.user_profiles (db w))); [discriminate|].
  simpl in Hreg.
  destruct (decide (<[AuthService.userId env:=_]> (Db.users (db w)) !! AuthService.userId env = None));
    [discriminate|].
  simpl in Hreg. injection Hreg as _ <-. unfold freshly_registered, documents_of. simpl.
  split; [by rewrite lookup_insert_eq|exact Hdocs].
Qed.

End Auth.

(** ** The properties on the example worlds *)

Section Instances.
Import Examples.

Lemma storage_used_is_sum_of_file_sizes_witness :
  freshly_registered "u1" (db registered)
  ∧ accounted "u1"
      (db (@run node_runtime
             [Upload (upload_env "d1") "u1" png3 plain;
              Upload (upload_env "d2") "u1" png3 plain;
              Delete delete_env "d1" "u1"]
             registered)).
Proof.
  assert (freshly_registered "u1" (db registered)) as Hfresh
    by (split; vm_compute; reflexivity).
  split; [exact Hfresh|].
  exact (@storage_used_is_sum_of_file_sizes node_runtime "u1" registered _ Hfresh).
Defined.

(** C2. The user [u1] holds 104857599 bytes of a quota of 104857600, and
    uploads a PNG of two bytes: used plus size is over the quota.  The check
    reads the two BIGINT columns as the driver gives them, as texts, so
    [storage_used + fileSize] is the text ["1048575992"], which is below
    ["104857600"] in the order of texts: the upload is accepted, the object
    is stored, the row is inserted and [storage_used] becomes 104857601. *)
Theorem quota_check_compares_text :
  let w := nearly_full in
  let r := @DocumentService.uploadDocument node_runtime (upload_env "d-new") "u1"
             two_bytes plain w in
  total_file_size (documents_of "u1" (db w)) = 104857599
  ∧ (Db.storage_used <$> Db.users (db w) !! "u1") = Some 104857599
  ∧ (Db.storage_quota <$> Db.users (db w) !! "u1") = Some 104857600
  ∧ 104857599 + size two_bytes > 104857600
  ∧ Js.add (pg_int8 Int8AsText 104857599) (Js.Num (size two_bytes)) = Js.Str "1048575992"
  ∧ Js.gt (Js.Str "1048575992") (pg_int8 Int8AsText 104857600) = false
  ∧ accepted r.1 = true
  ∧ is_Some (bucket r.2 !! "u1/f-d-new.png")
  ∧ is_Some (Db.documents (db r.2) !! "d-new")
  ∧ (Db.storage_used <$> Db.users (db r.2) !! "u1") = Some 104857601.
Proof.
  cbv zeta. repeat split; try (vm_compute; reflexivity).
  - vm_compute. eexists. reflexivity.
  - vm_compute. eexists. reflexivity.
Qed.

Lemma delete_releases_file_size_witness :
  Db.documents (db uploaded) !! "d1" = Some d1_row
  ∧ Db.user_id d1_row = "u1"
  ∧ @storage_delete_succeeds node_runtime delete_env (Db.file_url d1_row)
  ∧ ∃ w1,
      @DocumentService.deleteDocument node_runtime delete_env "d1" "u1" uploaded
        = (Returned (Success tt), w1)
      ∧ Db.documents (db w1) !! "d1" = None
      ∧ Db.users (db w1) !! "u1"
          = (λ u, Db.set_storage_used (Z.max (Db.storage_used u - Db.file_size d1_row) 0) u)
              <$> Db.users (db uploaded) !! "u1"
      ∧ (∀ other, other ≠ "u1" → Db.users (db w1) !! other = Db.users (db uploaded) !! other)
      ∧ (∀ env', @DocumentService.deleteDocument node_runtime env' "d1" "u1" w1
                 = (Returned (Failure NOT_FOUND "Document not found"), w1)).
Proof.
  assert (Db.documents (db uploaded) !! "d1" = Some d1_row) as Hdoc
    by (vm_compute; reflexivity).
  assert (@storage_delete_succeeds node_runtime delete_env (Db.file_url d1_row)) as Hs3
    by (split; [reflexivity|exists "u1/f-d1.png"; vm_compute; reflexivity]).
  split; [exact Hdoc|]. split; [reflexivity|]. split; [exact Hs3|].
  exact (@delete_releases_file_size node_runtime delete_env "d1" "u1" uploaded d1_row
           Hdoc eq_refl Hs3).
Defined.

(** C4, as stated, fails: no text annotation on a PNG gives a success with
    the empty text whose confidence is not 100. *)
Lemma no_text_detected_is_not_hundred :
  ∃ data,
    OcrService.isSupportedImageType "image/png" = true
    ∧ OcrService.extractText (OcrService.VisionResolved None (Some [])) [] "image/png"
        = OcrService.OcrSuccess data
    ∧ OcrService.text data = ""
    ∧ PrimFloat.eqb (OcrService.confidence_percent data) 100%float = false.
Proof. eexists. repeat split; vm_compute; reflexivity. Qed.

Lemma no_text_detected_has_confidence_zero_witness :
  OcrService.isSupportedImageType "image/png" = true
  ∧ default [] (Some (@nil OcrService.Annotation)) = []
  ∧ OcrService.extractText (OcrService.VisionResolved None (Some [])) [Byte.x41] "image/png"
      = OcrService.OcrSuccess
          {| OcrService.text := ""; OcrService.confidence_percent := 0%float;
             OcrService.language := "en"; OcrService.boundingBoxes := [] |}.
Proof.
  split; [reflexivity|]. split; [reflexivity|].
  exact (no_text_detected_has_confidence_zero [Byte.x41] "image/png" (Some [])
           eq_refl eq_refl).
Defined.

(** C5. Document [d1] has the analysis row that the OCR path wrote.  The
    analysis path then runs with a reply of the model: its INSERT violates
    the unique [document_id], the path throws, the row still holds the text
    of the OCR path and neither summary nor insights, and the document is
    marked failed. *)
Theorem ai_insert_fails_after_ocr :
  let r := @DocumentService.processDocumentWithAI node_runtime ai_env "d1" (buffer png3)
             (mimetype png3) ocr_done in
  Db.document_ai_analysis (db ocr_done) !! "d1"
    = Some {| Db.extracted_text := Some "Hb 13.5"; Db.summary := None;
              Db.insights := None; Db.processed_at := 7 |}
  ∧ r.1 = Thrown (Error "duplicate key value violates unique constraint document_ai_analysis_document_id_key")
  ∧ Db.document_ai_analysis (db r.2) !! "d1"
      = Some {| Db.extracted_text := Some "Hb 13.5"; Db.summary := None;
                Db.insights := None; Db.processed_at := 7 |}
  ∧ Db.status <$> Db.documents (db r.2) !! "d1" = Some FAILED.
Proof. cbv zeta. repeat split; vm_compute; reflexivity. Qed.

(** C6, as stated, fails: [u1] has a quota of 100 MB and nothing stored, and
    the first upload of a file of 60 MB is refused with FILE_TOO_LARGE. *)
Lemma first_sixty_megabyte_upload_fails :
  (Db.storage_quota <$> Db.users (db registered) !! "u1") = Some (100 * 1024 * 1024)
  ∧ (Db.storage_used <$> Db.users (db registered) !! "u1") = Some 0
  ∧ size sixty_mb_jpeg = 60 * 1024 * 1024
  ∧ Z.of_nat (length (buffer sixty_mb_jpeg)) = size sixty_mb_jpeg
  ∧ @DocumentService.uploadDocument node_runtime (upload_env "d1") "u1" sixty_mb_jpeg
      plain registered
    = (Returned (Failure FILE_TOO_LARGE "File size (60 MB) exceeds 5 MB limit", []),
       registered).
Proof.
  split; [vm_compute; reflexivity|]. split; [vm_compute; reflexivity|].
  split; [reflexivity|]. split.
  { unfold sixty_mb_jpeg, jpeg_of_size. cbn [buffer size].
    rewrite repeat_length. apply Z2Nat.id. discriminate. }
  rewrite (@too_large_is_rejected node_runtime) by reflexivity. reflexivity.
Qed.

(** C7, as stated, fails.  The phone number [" +9779811111111"], with a
    space before it, does not match [+977] and ten digits, and the routes do
    not refuse it: the registration answers 201 and stores the number without
    the space, and the login then answers 200 to the password of the
    registration and 401 to another one, each after a call of bcrypt.  And
    for the number [12345], which the registration refuses, what the answer
    lists depends on the password. *)
Lemma padded_phone_passes_the_routes :
  AuthService.phone_pattern " +9779811111111" = false
  ∧ (∃ result w',
       @AuthRoutes.register node_runtime {| AuthService.userId := "u1" |}
         (padded_registration "Password123") empty_world
         = (Returned (AuthRoutes.respond 201 (AuthRoutes.Result result)), w')
       ∧ Db.phone_number <$> Db.users (db w') !! "u1" = Some "+9779811111111"
       ∧ bcrypt_calls w' = [BcryptHash "Password123"])
  ∧ (∃ result w',
       @AuthRoutes.login node_runtime (padded_login "Password123") registered
         = (Returned (AuthRoutes.respond 200 (AuthRoutes.Result result)), w')
       ∧ bcrypt_calls w'
         = BcryptCompare "Password123" "$2b$10$Password123" :: bcrypt_calls registered)
  ∧ (∃ result w',
       @AuthRoutes.login node_runtime (padded_login "Password456") registered
         = (Returned (AuthRoutes.respond 401 (AuthRoutes.Result result)), w')
       ∧ AuthRoutes.error_code (AuthRoutes.Result result) = Some INVALID_CREDENTIALS
       ∧ bcrypt_calls w'
         = BcryptCompare "Password456" "$2b$10$Password123" :: bcrypt_calls registered)
  ∧ AuthService.phone_pattern "12345" = false
  ∧ (@AuthRoutes.register node_runtime {| AuthService.userId := "u1" |}
       {| AuthRoutes.phoneNumber := "12345"; AuthRoutes.password := "short";
          AuthRoutes.fullName := "Test User" |} empty_world).1
    ≠ (@AuthRoutes.register node_runtime {| AuthService.userId := "u1" |}
         {| AuthRoutes.phoneNumber := "12345"; AuthRoutes.password := "Password123";
            AuthRoutes.fullName := "Test User" |} empty_world).1.
Proof.
  split; [reflexivity|].
  split; [vm_compute; eexists _, _; repeat split; reflexivity|].
  split; [vm_compute; eexists _, _; repeat split; reflexivity|].
  split; [vm_compute; eexists _, _; repeat split; reflexivity|].
  split; [reflexivity|].
  vm_compute. discriminate.
Qed.

Lemma malformed_phone_is_refused_by_the_routes_witness :
  AuthService.phone_pattern (AuthRoutes.trim "12345") = false
  ∧ @AuthRoutes.register node_runtime {| AuthService.userId := "u2" |}
      {| AuthRoutes.phoneNumber := "12345"; AuthRoutes.password := "Password123";
         AuthRoutes.fullName := "Test User" |} registered
    = (Returned
         (AuthRoutes.respond 400
            (AuthRoutes.ValidationFailed
               (AuthRoutes.phone_error
                  :: AuthRoutes.passwordValidation "Password123"
                  ++ AuthRoutes.fullNameValidation "Test User"))), registered)
  ∧ @AuthRoutes.login node_runtime
      {| AuthRoutes.login_phoneNumber := "12345";
         AuthRoutes.login_password := "Password123" |} registered
    = (Returned
         (AuthRoutes.respond 400
            (AuthRoutes.ValidationFailed
               (AuthRoutes.phone_error :: AuthRoutes.passwordRequired "Password123"))),
       registered)
  ∧ AuthRoutes.error_code
      (AuthRoutes.ValidationFailed
         (AuthRoutes.phone_error
            :: AuthRoutes.passwordValidation "Password123"
            ++ AuthRoutes.fullNameValidation "Test User"))
    = Some VALIDATION_ERROR.
Proof.
  split; [reflexivity|].
  exact (@malformed_phone_is_refused_by_the_routes node_runtime
           {| AuthService.userId := "u2" |} "12345" "Password123" "Test User" registered
           eq_refl).
Defined.

Lemma freeform_reply_becomes_summary_witness :
  @JSON_parse node_runtime "A blood test report." = None
  ∧ @DocumentService.parse_analysis node_runtime "A blood test report."
      = fallback_analysis "A blood test report."
  ∧ ∃ w', @DocumentService.processDocumentWithAI node_runtime ai_env "d1" (buffer png3)
            (mimetype png3) uploaded = (Returned tt, w')
        ∧ Db.document_ai_analysis (db w') !! "d1"
            = Some {| Db.extracted_text := None;
                      Db.summary := Js.or_null (Some "A blood test report.");
                      Db.insights := Some [];
                      Db.processed_at := DocumentService.ai_now ai_env |}
        ∧ Db.status <$> Db.documents (db w') !! "d1" = Some PROCESSED.
Proof.
  split; [reflexivity|].
  destruct (@freeform_reply_becomes_summary node_runtime "A blood test report." eq_refl)
    as (Hfallback & _ & _ & _ & Hpath).
  split; [exact Hfallback|].
  apply (Hpath ai_env "d1" (buffer png3) (mimetype png3) uploaded []).
  - reflexivity.
  - exists d1_row. vm_compute. reflexivity.
  - vm_compute. reflexivity.
Defined.


Lemma upload_size_is_buffer_length_witness :
  @DocumentService.uploadDocument node_runtime (upload_env "d1") "u1" png3 plain registered
    = (Returned (Success d1_document, []), uploaded)
  ∧ Shared.fileSize d1_document = Z.of_nat (length (buffer png3))
  ∧ Db.file_size <$> Db.documents (db uploaded) !! "d1" = Some (Z.of_nat (length (buffer png3)))
  ∧ (∃ row, Db.users (db registered) !! "u1" = Some row
       ∧ Db.storage_used <$> Db.users (db uploaded) !! "u1"
           = Some (Db.storage_used row + Z.of_nat (length (buffer png3)))).
Proof.
  assert (@DocumentService.uploadDocument node_runtime (upload_env "d1") "u1" png3 plain
            registered = (Returned (Success d1_document, []), uploaded)) as Hup
    by (vm_compute; reflexivity).
  split; [exact Hup|].
  destruct (@upload_size_is_buffer_length node_runtime _ _ _ _ _ _ _ _ Hup)
    as (_ & _ & Hdoc & Hrow & Huser & _).
  split; [exact Hdoc|]. split; [exact Hrow|]. exact Huser.
Defined.

End Instances.
(** * Further properties

    Properties of the same services beyond the ones above, with the listing,
    the storage information and the route handlers.  As before, the database
    answers every statement, and a statement fails only by violating a key, a
    reference or a length of schema.sql. *)

(** ** Uploads *)

Section Storage.
Context `{Runtime}.

(** What [S3Service.uploadDocument] has done when it returns. *)
Lemma S3_uploadDocument_returned env buffer mimeType userId w r w' :
  S3Service.uploadDocument env buffer mimeType userId w = (Returned r, w') →
  S3Service.put_original env = true
  ∧ S3Service.fileUrl r = S3Service.object_url (file_key env mimeType userId)
  ∧ S3Service.fileSize r = Z.of_nat (length buffer)
  ∧ db w' = db w ∧ tx w' = tx w ∧ bcrypt_calls w' = bcrypt_calls w
  ∧ let original := {| Body := buffer; ContentType := mimeType; ACL := "private" |} in
    if S3Service.isImageType mimeType then
      match S3Service.sharp_thumbnail env with
      | Some jpeg =>
          if S3Service.put_thumbnail env then
            S3Service.thumbnailUrl r
              = Some (S3Service.object_url (thumbnail_key env mimeType userId))
            ∧ bucket w'
              = <[thumbnail_key env mimeType userId :=
                    {| Body := jpeg; ContentType := "image/jpeg"; ACL := "private" |}]>
                  (<[file_key env mimeType userId := original]> (bucket w))
          else S3Service.thumbnailUrl r = Some ""
               ∧ bucket w' = <[file_key env mimeType userId := original]> (bucket w)
      | None => S3Service.thumbnailUrl r = Some ""
                ∧ bucket w' = <[file_key env mimeType userId := original]> (bucket w)
      end
    else S3Service.thumbnailUrl r = None
         ∧ bucket w' = <[file_key env mimeType userId := original]> (bucket w).
Proof.
  unfold S3Service.uploadDocument, S3Service.generateAndUploadThumbnail, S3Service.send_put,
    file_key, thumbnail_key.
  unfold_monad. unfold with_bucket. simpl.
  destruct (S3Service.put_original env); simpl; [|discriminate].
  destruct (S3Service.isImageType mimeType); simpl.
  - destruct (S3Service.sharp_thumbnail env); simpl.
    + destruct (S3Service.put_thumbnail env); simpl; intros [= <- <-]; simpl; done.
    + intros [= <- <-]; simpl; done.
  - intros [= <- <-]; simpl; done.
Qed.

(** What [uploadDocument] has done when it answers with a document. *)
Lemma uploadDocument_succeeded env userId file metadata w document tasks w' :
  DocumentService.uploadDocument env userId file metadata w
    = (Returned (Success document, tasks), w') →
  ∃ q res ws,
    DocumentService.checkStorageQuota userId (size file) w = (Returned q, w)
    ∧ DocumentService.allowed q = true
    ∧ S3Service.uploadDocument (DocumentService.storage env) (buffer file) (mimetype file)
        userId (Sql.BEGIN w).2 = (Returned res, ws)
    ∧ size file ≤ DocumentService.MAX_FILE_SIZE
    ∧ mimetype file ∈ DocumentService.allowedTypes
    ∧ Db.documents (db w) !! DocumentService.documentId env = None
    ∧ is_Some (Db.users (db w) !! userId)
    ∧ document = DocumentService.mapDbDocumentToDocument (DocumentService.documentId env)
                   (uploaded_row env userId file metadata res) None
    ∧ tasks = ((if Shared.processWithOCR metadata
                then [DocumentService.OcrTask (DocumentService.documentId env) (buffer file)
                        (mimetype file)]
                else [])
               ++ (if Shared.processWithAI metadata
                   then [DocumentService.AiTask (DocumentService.documentId env) (buffer file)
                           (mimetype file)]
                   else []))%list
    ∧ w' = {| db := charge (S3Service.fileSize res) userId
                      (Db.with_documents
                         (insert (DocumentService.documentId env)
                            (started metadata (uploaded_row env userId file metadata res)))
                         (db w));
              tx := None; bucket := bucket ws; bcrypt_calls := bcrypt_calls w |}
    ∧ Sql.fits 255 (Js.or_else (Shared.upload_title metadata) "Untitled Document") = true.
Proof.
  intros Hup. unfold DocumentService.uploadDocument in Hup.
  unfold try_catch at 1 in Hup.
  destruct (Z.ltb_spec DocumentService.MAX_FILE_SIZE (size file)) as [Hbig|Hsmall];
    [discriminate|].
  destruct (bool_decide_reflect (mimetype file ∈ DocumentService.allowedTypes)) as [Hmime|Hmime];
    cbn [negb] in Hup; cbv beta iota in Hup; [|discriminate].
  unfold mbind at 1, M_bind at 1 in Hup.
  destruct (checkStorageQuota_world userId (size file) w) as (q & Hq & Huser).
  rewrite Hq in Hup.
  destruct (DocumentService.allowed q) eqn:Hallowed; cbn [negb] in Hup; cbv beta iota in Hup;
    [|discriminate].
  specialize (Huser eq_refl).
  unfold mbind at 1, M_bind at 1 in Hup.
  change (Sql.BEGIN w) with (Returned tt, (Sql.BEGIN w).2) in Hup. cbv beta iota in Hup.
  unfold mbind at 1, M_bind at 1 in Hup.
  destruct (S3Service.uploadDocument (DocumentService.storage env) (buffer file)
              (mimetype file) userId (Sql.BEGIN w).2) as [[res|e] ws] eqn:Hs3.
  2:{ unfold Sql.ROLLBACK in Hup. unfold_monad. discriminate. }
  destruct (S3_uploadDocument_returned _ _ _ _ _ _ _ Hs3) as (_ & _ & _ & Hdb & Htx & Hcalls & _).
  unfold Sql.insert_document, Sql.add_storage_used, Sql.update_ocr_status, Sql.COMMIT,
    Sql.ROLLBACK in Hup.
  unfold_monad. simpl in Hup. rewrite Hdb in Hup. simpl in Hup.
  destruct (Sql.fits 255 _) eqn:Hfits; simpl in Hup; [|discriminate].
  destruct (decide (is_Some (Db.documents (db w) !! DocumentService.documentId env))) as [Hdup|Hnew];
    simpl in Hup; [discriminate|].
  destruct (decide (Db.users (db w) !! userId = None)) as [Hno|_]; simpl in Hup;
    [discriminate|].
  assert (Hnone : Db.documents (db w) !! DocumentService.documentId env = None)
    by by apply eq_None_not_Some.
  unfold started.
  destruct (Shared.processWithOCR metadata) eqn:Hocr; simpl in Hup;
    injection Hup as <- <- <-;
    exists q, res, ws; rewrite Hcalls, ?Hdb; simpl; repeat split; try done.
  all: unfold with_db, charge, Db.with_documents, Db.with_users; simpl.
  all: by rewrite ?alter_insert_eq, ?Hdb.
Qed.

End Storage.

Section DocumentExtras.
Context `{Runtime}.

(** X1. [uploadDocument] returns a response, and when the response is
    a failure the database is as it was before the call and no background
    task is started; unless the failure is SERVER_ERROR nothing at all has
    changed, the bucket included. *)
Theorem refused_upload_changes_nothing env userId file metadata w :
  ∃ response tasks w',
    DocumentService.uploadDocument env userId file metadata w = (Returned (response, tasks), w')
    ∧ ∀ code message, response = Failure code message →
        db w' = db w ∧ tasks = []
        ∧ (code ≠ SERVER_ERROR → w' = w).
Proof.
  destruct (uploadDocument_cases env userId file metadata w)
    as [(c & m & Hr)|[(b & Hr)|(b & row & tasks & Hr & _)]]; cbv zeta in Hr; rewrite Hr.
  - eexists _, _, _. split; [done|]. intros code message [= <- <-].
    done.
  - eexists _, _, _. split; [done|]. intros code message [= <- <-]. done.
  - eexists _, _, _. split; [done|]. intros code message [=].
Qed.

(** X2. An acceptable file uploaded for a user id that has no row in
    [users] is refused with STORAGE_QUOTA_EXCEEDED and the message
    [User not found], and nothing is changed. *)
Theorem unknown_user_is_quota_exceeded env userId file metadata w :
  size file ≤ DocumentService.MAX_FILE_SIZE →
  mimetype file ∈ DocumentService.allowedTypes →
  Db.users (db w) !! userId = None →
  DocumentService.uploadDocument env userId file metadata w
    = (Returned (Failure STORAGE_QUOTA_EXCEEDED "User not found", []), w).
Proof.
  intros Hsize Hmime Huser.
  unfold DocumentService.uploadDocument, DocumentService.checkStorageQuota, Sql.select_user.
  unfold_monad. simpl.
  destruct (Z.ltb_spec DocumentService.MAX_FILE_SIZE (size file)); [lia|].
  rewrite bool_decide_true by done. simpl. rewrite Huser. reflexivity.
Qed.

Lemma stored_original env buffer mimeType userId w r w' :
  S3Service.uploadDocument env buffer mimeType userId w = (Returned r, w') →
  is_Some (bucket w' !! file_key env mimeType userId).
Proof.
  intros Hs3.
  destruct (S3_uploadDocument_returned _ _ _ _ _ _ _ Hs3)
    as (_ & _ & _ & _ & _ & _ & Hbucket). cbv zeta in Hbucket.
  destruct (S3Service.isImageType mimeType).
  - destruct (S3Service.sharp_thumbnail env).
    + destruct (S3Service.put_thumbnail env); destruct Hbucket as [_ ->].
      * destruct (decide (thumbnail_key env mimeType userId = file_key env mimeType userId))
          as [->|Hne].
        -- rewrite lookup_insert_eq. done.
        -- rewrite lookup_insert_ne by done. rewrite lookup_insert_eq. done.
      * rewrite lookup_insert_eq. done.
    + destruct Hbucket as [_ ->]. rewrite lookup_insert_eq. done.
  - destruct Hbucket as [_ ->]. rewrite lookup_insert_eq. done.
Qed.

Lemma S3_uploadDocument_returns env buffer mimeType userId w :
  S3Service.put_original env = true →
  ∃ r w', S3Service.uploadDocument env buffer mimeType userId w = (Returned r, w').
Proof.
  intros Hput.
  unfold S3Service.uploadDocument, S3Service.generateAndUploadThumbnail, S3Service.send_put.
  unfold_monad. rewrite Hput. simpl.
  destruct (S3Service.isImageType mimeType); simpl; [|by eexists _, _].
  destruct (S3Service.sharp_thumbnail env); simpl; [|by eexists _, _].
  destruct (S3Service.put_thumbnail env); simpl; by eexists _, _.
Qed.

(** X3. When the storage service has stored the original and the
    upload then answers SERVER_ERROR, the database is the one from before the
    call, and the object is still in the bucket: the rollback does not reach
    the storage. *)
Theorem server_error_leaves_the_object env userId file metadata w message tasks w' :
  DocumentService.uploadDocument env userId file metadata w
    = (Returned (Failure SERVER_ERROR message, tasks), w') →
  S3Service.put_original (DocumentService.storage env) = true →
  db w' = db w
  ∧ is_Some (bucket w' !! file_key (DocumentService.storage env) (mimetype file) userId).
Proof.
  intros Hup Hput. unfold DocumentService.uploadDocument in Hup.
  unfold try_catch at 1 in Hup.
  destruct (Z.ltb_spec DocumentService.MAX_FILE_SIZE (size file)) as [Hbig|Hsmall];
    [discriminate|].
  destruct (bool_decide_reflect (mimetype file ∈ DocumentService.allowedTypes)) as [Hmime|Hmime];
    cbn [negb] in Hup; cbv beta iota in Hup; [|discriminate].
  unfold mbind at 1, M_bind at 1 in Hup.
  destruct (checkStorageQuota_world userId (size file) w) as (q & Hq & Huser).
  rewrite Hq in Hup.
  destruct (DocumentService.allowed q) eqn:Hallowed; cbn [negb] in Hup; cbv beta iota in Hup;
    [|discriminate].
  specialize (Huser eq_refl).
  unfold mbind at 1, M_bind at 1 in Hup.
  change (Sql.BEGIN w) with (Returned tt, (Sql.BEGIN w).2) in Hup. cbv beta iota in Hup.
  unfold mbind at 1, M_bind at 1 in Hup.
  destruct (S3_uploadDocument_returns (DocumentService.storage env) (buffer file)
              (mimetype file) userId (Sql.BEGIN w).2 Hput) as (res & ws & Hs3).
  rewrite Hs3 in Hup.
  pose proof (stored_original _ _ _ _ _ _ _ Hs3) as Hstored.
  destruct (S3_uploadDocument_returned _ _ _ _ _ _ _ Hs3) as (_ & _ & _ & Hdb & Htx & _).
  unfold Sql.insert_document, Sql.add_storage_used, Sql.update_ocr_status, Sql.COMMIT,
    Sql.ROLLBACK in Hup.
  unfold_monad. simpl in Hup. rewrite Hdb in Hup. simpl in Hup.
  destruct (Sql.fits 255 _); simpl in Hup.
  2:{ rewrite Htx in Hup. simpl in Hup. injection Hup as _ _ <-. simpl. done. }
  destruct (decide (is_Some (Db.documents (db w) !! DocumentService.documentId env))) as [Hdup|Hnew];
    simpl in Hup.
  - rewrite Htx in Hup. simpl in Hup. injection Hup as _ _ <-. simpl. done.
  - destruct (decide (Db.users (db w) !! userId = None)) as [Hno|_]; simpl in Hup.
    + rewrite Hno in Huser. by destruct Huser.
    + destruct (Shared.processWithOCR metadata); discriminate.
Qed.

End DocumentExtras.

Section QuotaExtras.
Context `{Runtime}.

Lemma quota_allowed_with_number_parser userId n w q :
  int8 = Int8AsNumber →
  DocumentService.checkStorageQuota userId n w = (Returned q, w) →
  DocumentService.allowed q = true →
  ∃ row, Db.users (db w) !! userId = Some row
       ∧ Db.storage_used row + n ≤ Db.storage_quota row.
Proof.
  intros Hparser. unfold DocumentService.checkStorageQuota, Sql.select_user. unfold_monad. simpl.
  destruct (Db.users (db w) !! userId) as [row|]; simpl.
  - rewrite Hparser. simpl.
    destruct (Z.ltb_spec (Db.storage_quota row) (Db.storage_used row + n)); simpl.
    + intros [= <-]. discriminate.
    + intros _ _. exists row. split; [done|lia].
  - intros [= <-]. discriminate.
Qed.

(** The invariant of a run with a driver that parses int8. *)
Lemma solvent_step userId w op :
  int8 = Int8AsNumber →
  well_formed op →
  balanced userId (db w) ∧
    (∃ row, Db.users (db w) !! userId = Some row
          ∧ 0 ≤ Db.storage_used row ≤ Db.storage_quota row) →
  balanced userId (db (step w op)) ∧
    (∃ row, Db.users (db (step w op)) !! userId = Some row
          ∧ 0 ≤ Db.storage_used row ≤ Db.storage_quota row).
Proof.
  intros Hparser Hwf [Hbal (row & Hrow & Hused)].
  split; [by apply balanced_step|].
  destruct op as [env owner file metadata|env documentId owner]; simpl in *.
  - destruct (uploadDocument_cases env owner file metadata w)
      as [(c & m & Hr)|[(b & Hr)|(b & r & tasks & Hr & _)]]; cbv zeta in Hr.
    + rewrite Hr. simpl. by exists row.
    + rewrite Hr. simpl. by exists row.
    + destruct (uploadDocument_succeeded _ _ _ _ _ _ _ _ Hr)
        as (q & res & ws & Hq & Hallowed & Hs3 & _ & _ & _ & _ & _ & _ & Hw).
      destruct (quota_allowed_with_number_parser _ _ _ _ Hparser Hq Hallowed)
        as (orow & Horow & Hroom).
      destruct (S3_uploadDocument_returned _ _ _ _ _ _ _ Hs3) as (_ & _ & Hsize & _).
      rewrite Hr. simpl. unfold charge. simpl.
      destruct (decide (owner = userId)) as [->|Hne].
      * rewrite lookup_alter_eq, Hrow. simpl. eexists. split; [done|]. simpl.
        rewrite Hrow in Horow. injection Horow as <-. lia.
      * rewrite lookup_alter_ne by done. by exists row.
  - destruct (owned_document documentId owner (db w)) as [doc|] eqn:Hdoc.
    + destruct (deleteDocument_found env _ _ _ _ Hdoc) as (b & [-> | ->] & _); simpl;
        [|by exists row].
      unfold release, removed. simpl.
      destruct (decide (owner = userId)) as [->|Hne].
      * rewrite lookup_alter_eq, Hrow. simpl. eexists. split; [done|]. simpl.
        apply owned_document_Some in Hdoc as [Hdoc Hown].
        destruct Hbal as [_ Hpos].
        assert (0 ≤ Db.file_size doc).
        { apply (Hpos documentId doc). unfold documents_of.
          by apply map_lookup_filter_Some. }
        lia.
      * rewrite lookup_alter_ne by done. by exists row.
    + rewrite deleteDocument_not_found by done. by exists row.
Qed.

(** X4. With a driver that decodes int8 as a number, a user who starts
    with no document, a counter of zero and a quota that is not negative stays
    within the quota: after any sequence of uploads and deletions, the files
    being as multer builds them, [storage_used] is at most [storage_quota]. *)
Theorem quota_is_never_exceeded userId w ops :
  int8 = Int8AsNumber →
  freshly_registered userId (db w) →
  (∀ row, Db.users (db w) !! userId = Some row → 0 ≤ Db.storage_quota row) →
  Forall well_formed ops →
  within_quota userId (db (run ops w)).
Proof.
  intros Hparser Hfresh Hquota Hwf.
  assert (balanced userId (db (run ops w)) ∧
          (∃ row, Db.users (db (run ops w)) !! userId = Some row
                ∧ 0 ≤ Db.storage_used row ≤ Db.storage_quota row)) as [_ (row & Hrow & Hused)].
  { assert (balanced userId (db w) ∧
            (∃ row, Db.users (db w) !! userId = Some row
                  ∧ 0 ≤ Db.storage_used row ≤ Db.storage_quota row)) as Hinv.
    { split; [by apply balanced_fresh|].
      destruct Hfresh as [Hzero _].
      destruct (Db.users (db w) !! userId) as [row|] eqn:Hrow; [|done].
      exists row. split; [done|]. simpl in Hzero. injection Hzero as Hzero.
      specialize (Hquota row eq_refl). lia. }
    clear Hfresh Hquota. revert w Hinv.
    induction Hwf as [|op ops Hop Hops IH]; intros w Hinv; simpl; [done|].
    apply IH. by apply solvent_step. }
  exists row. split; [done|lia].
Qed.

(** X5. With the default decoding of the driver (int8 as text) and the
    default quota of 104857600 bytes, once the decimal text of [storage_used]
    begins with a digit above 1 every upload of an acceptable file is refused
    with STORAGE_QUOTA_EXCEEDED, whatever its size, and nothing is changed. *)
Theorem leading_digit_blocks_uploads env userId file metadata w row c rest :
  int8 = Int8AsText →
  size file ≤ DocumentService.MAX_FILE_SIZE →
  mimetype file ∈ DocumentService.allowedTypes →
  Db.users (db w) !! userId = Some row →
  Db.storage_quota row = 104857600 →
  Js.decimal (Db.storage_used row) = String c rest →
  Ascii.compare "1" c = Lt →
  DocumentService.uploadDocument env userId file metadata w
    = (Returned (Failure STORAGE_QUOTA_EXCEEDED
                   (quota_message (Js.Str (Js.decimal (Db.storage_used row)))
                      (Js.Str "104857600")), []), w).
Proof.
  intros Hparser Hsize Hmime Hrow Hquota Hdigits Hfirst.
  unfold DocumentService.uploadDocument, DocumentService.checkStorageQuota, Sql.select_user.
  unfold_monad. simpl.
  destruct (Z.ltb_spec DocumentService.MAX_FILE_SIZE (size file)); [lia|].
  rewrite bool_decide_true by done. simpl.
  rewrite Hrow, Hparser, Hquota. simpl.
  change (Js.decimal 104857600) with "104857600".
  rewrite Hdigits. unfold String.ltb. simpl. rewrite Hfirst. simpl.
  rewrite <- Hdigits. reflexivity.
Qed.

End QuotaExtras.

Section LifecycleExtras.
Context `{Runtime}.


(** X7. A successful [deleteDocument] removes the analysis row of the
    document with it, [getDocument] then answers NOT_FOUND for it, and the
    rows and analyses of all other documents are untouched. *)
Theorem delete_removes_the_analysis env documentId userId w doc :
  Db.documents (db w) !! documentId = Some doc →
  Db.user_id doc = userId →
  storage_delete_succeeds env (Db.file_url doc) →
  ∃ w1,
    DocumentService.deleteDocument env documentId userId w = (Returned (Success tt), w1)
    ∧ Db.document_ai_analysis (db w1) !! documentId = None
    ∧ DocumentService.getDocument documentId userId w1
        = (Returned (Failure NOT_FOUND "Document not found"), w1)
    ∧ (∀ other, other ≠ documentId →
         Db.documents (db w1) !! other = Db.documents (db w) !! other
         ∧ Db.document_ai_analysis (db w1) !! other = Db.document_ai_analysis (db w) !! other).
Proof.
  intros Hdoc Hown Hs3.
  pose proof (owned_document_lookup _ _ _ _ Hdoc Hown) as Hfound.
  destruct (deleteDocument_found env _ _ _ _ Hfound) as (b & _ & Hok).
  specialize (Hok Hs3). cbv zeta in Hok. eexists. split; [exact Hok|]. simpl.
  split; [apply lookup_delete_eq|]. split.
  - unfold DocumentService.getDocument, Sql.select_document. unfold_monad. simpl.
    by rewrite lookup_delete_eq.
  - intros other Hne. by rewrite !lookup_delete_ne.
Qed.


End LifecycleExtras.

(** ** Object keys and URLs *)

Section Urls.

Lemma substring_all s m : (String.length s ≤ m)%nat → String.substring 0 m s = s.
Proof.
  revert m. induction s as [|c s IH]; intros [|m] Hm; simpl in *; try done; try lia.
  f_equal. apply IH. lia.
Qed.

Lemma split_once_cons_ne sep c s :
  String.prefix sep (String c s) = false →
  S3Service.split_once sep (String c s)
  = match S3Service.split_once sep s with
    | Some (a, b) => Some (String c a, b)
    | None => None
    end.
Proof. intros Hne. cbn [S3Service.split_once]. by rewrite Hne. Qed.

Lemma split_once_prefix sep s :
  String.prefix sep s = true →
  S3Service.split_once sep s
  = Some ("", String.substring (String.length sep) (String.length s) s).
Proof. intros Hp. destruct s; cbn [S3Service.split_once]; by rewrite Hp. Qed.

Lemma split_once_char c s :
  S3Service.split_once (String c "") (String c s) = Some ("", s).
Proof.
  assert (String.prefix (String c "") (String c s) = true) as Hp.
  { simpl. destruct (ascii_dec c c); [|done]. by destruct s. }
  rewrite split_once_prefix by done.
  cbn [String.length String.substring]. by rewrite substring_all by lia.
Qed.

Context `{Runtime}.

Lemma default_url_key key :
  AWS_S3_BUCKET_NAME = None →
  AWS_REGION = None →
  S3Service.extractFileNameFromUrl (S3Service.object_url key)
  = Returned match S3Service.split_once bucket_marker key with
             | Some (before, _) => before
             | None => key
             end.
Proof.
  intros Hbucket Hregion.
  unfold S3Service.extractFileNameFromUrl, S3Service.object_url, bucket_marker,
    S3Service.BUCKET_NAME, S3Service.REGION.
  rewrite Hbucket, Hregion. cbn [Js.or_else].
  lazy beta iota fix delta [String.append].
  do 8 (rewrite split_once_cons_ne by reflexivity).
  rewrite split_once_prefix by reflexivity.
  cbn [String.length String.substring].
  rewrite substring_all by lia.
  do 25 (rewrite split_once_cons_ne by reflexivity).
  destruct (S3Service.split_once _ key) as [[before after]|].
  - cbv beta iota. do 24 (rewrite split_once_cons_ne by reflexivity).
    by rewrite split_once_char.
  - cbv beta iota. do 24 (rewrite split_once_cons_ne by reflexivity).
    by rewrite split_once_char.
Qed.

End Urls.

(** ** Deleting what was uploaded *)

Section RoundTrip.
Context `{Runtime}.

Lemma release_removed_charge n userId documentId row d :
  Db.documents d !! documentId = None →
  Db.document_ai_analysis d !! documentId = None →
  (∀ u, Db.users d !! userId = Some u → 0 ≤ Db.storage_used u) →
  release n userId
    (removed documentId (charge n userId (Db.with_documents (insert documentId row) d)))
  = d.
Proof.
  intros Hdoc Han Hused. destruct d as [us ps ds an].
  unfold release, removed, charge, Db.with_users, Db.with_documents, Db.with_analysis.
  simpl in *. f_equal.
  - rewrite alter_alter_eq. apply alter_id. intros u Hu. specialize (Hused u Hu).
    destruct u; unfold Db.set_storage_used; simpl in *. f_equal. lia.
  - by apply delete_insert_id.
  - by apply delete_id.
Qed.

(** The bucket after a deletion whose original is deleted. *)
Lemma deleteDocument_bucket denv documentId userId w doc fk :
  owned_document documentId userId (db w) = Some doc →
  S3Service.extractFileNameFromUrl (Db.file_url doc) = Returned fk →
  S3Service.delete_original denv = true →
  DocumentService.deleteDocument denv documentId userId w
  = (Returned (Success tt),
     {| db := release (Db.file_size doc) userId (removed documentId (db w));
        tx := None;
        bucket :=
          match Js.or_null (Db.thumbnail_url doc) with
          | Some turl =>
              match S3Service.extractFileNameFromUrl turl with
              | Returned tk =>
                  if S3Service.delete_thumbnail denv
                  then delete tk (delete fk (bucket w))
                  else delete fk (bucket w)
              | Thrown _ => delete fk (bucket w)
              end
          | None => delete fk (bucket w)
          end;
        bcrypt_calls := bcrypt_calls w |}).
Proof.
  unfold owned_document. intros Hsome Hfk Horig.
  unfold DocumentService.deleteDocument, Sql.select_document, Sql.BEGIN, Sql.COMMIT,
    Sql.delete_document, Sql.release_storage_used, S3Service.deleteDocument,
    S3Service.deleteThumbnail, S3Service.send_delete.
  unfold_monad. simpl. rewrite Hsome. simpl. rewrite Hfk, Horig. simpl.
  destruct (Js.or_null (Db.thumbnail_url doc)) as [turl|]; simpl; [|reflexivity].
  destruct (S3Service.extractFileNameFromUrl turl) as [tk|e]; simpl; [|reflexivity].
  destruct (S3Service.delete_thumbnail denv); reflexivity.
Qed.

(** X9. Deleting a document right after its upload undoes what the
    upload wrote: when the storage service deletes the original, no analysis
    row was waiting under the new id and the owner's counter was not
    negative, [deleteDocument] answers with success, the documents and the
    analyses are those from before the upload, the owner's [storage_used] is
    the one from before the upload, and the rows of the other users are
    untouched. *)
Theorem delete_after_upload_restores_the_database
    env denv userId file metadata w document tasks w1 :
  DocumentService.uploadDocument env userId file metadata w
    = (Returned (Success document, tasks), w1) →
  storage_delete_succeeds denv (Shared.fileUrl document) →
  Db.document_ai_analysis (db w) !! DocumentService.documentId env = None →
  (∀ u, Db.users (db w) !! userId = Some u → 0 ≤ Db.storage_used u) →
  ∃ w2,
    DocumentService.deleteDocument denv (DocumentService.documentId env) userId w1
      = (Returned (Success tt), w2)
    ∧ Db.documents (db w2) = Db.documents (db w)
    ∧ Db.document_ai_analysis (db w2) = Db.document_ai_analysis (db w)
    ∧ Db.storage_used <$> Db.users (db w2) !! userId
        = Db.storage_used <$> Db.users (db w) !! userId
    ∧ (∀ other, other ≠ userId → Db.users (db w2) !! other = Db.users (db w) !! other).
Proof.
  intros Hup Hs3 Han Hused.
  destruct (uploadDocument_succeeded _ _ _ _ _ _ _ _ Hup)
    as (q & res & ws & _ & _ & _ & _ & _ & Hnew & _ & -> & _ & -> & _).
  set (row := started metadata (uploaded_row env userId file metadata res)).
  assert (owned_document (DocumentService.documentId env) userId
            (charge (S3Service.fileSize res) userId
               (Db.with_documents (insert (DocumentService.documentId env) row) (db w)))
          = Some row) as Hfound.
  { apply owned_document_lookup; [|by unfold row; rewrite started_user_id].
    simpl. apply lookup_insert_eq. }
  destruct (deleteDocument_found denv (DocumentService.documentId env) userId
              {| db := charge (S3Service.fileSize res) userId
                         (Db.with_documents
                            (insert (DocumentService.documentId env) row) (db w));
                 tx := None; bucket := bucket ws; bcrypt_calls := bcrypt_calls w |}
              _ Hfound) as (b & _ & Hok).
  unfold row in Hok at 1. rewrite started_file_url in Hok.
  specialize (Hok Hs3). cbv zeta in Hok. eexists. split; [exact Hok|].
  assert (release (Db.file_size row) userId
            (removed (DocumentService.documentId env)
               (charge (S3Service.fileSize res) userId
                  (Db.with_documents (insert (DocumentService.documentId env) row) (db w))))
          = db w) as Hback.
  { unfold row at 1. rewrite started_file_size. by apply release_removed_charge. }
  cbn [db]. rewrite Hback. done.
Qed.

Lemma bucket_restored (b : gmap string S3Object) fk tk o t :
  b !! fk = None → b !! tk = None →
  delete tk (delete fk (<[tk:=t]> (<[fk:=o]> b))) = b.
Proof.
  intros Hfk Htk. apply map_eq. intros k.
  destruct (decide (k = tk)) as [->|Hne1].
  { by rewrite lookup_delete_eq. }
  rewrite lookup_delete_ne by done.
  destruct (decide (k = fk)) as [->|Hne2].
  { by rewrite lookup_delete_eq. }
  rewrite lookup_delete_ne by done.
  by rewrite !lookup_insert_ne by done.
Qed.

Lemma object_url_nonempty key : Js.or_null (Some (S3Service.object_url key))
                                = Some (S3Service.object_url key).
Proof. unfold Js.or_null. by destruct (decide _). Qed.

(** X10. With the default bucket and region, deleting a document right
    after its upload restores the bucket: when the two keys of the upload were
    free, do not contain the text [swasthyasathi-documents.s3.] and the
    storage deletes what it is asked to, the bucket after [deleteDocument] is
    the one from before the upload, whether or not a thumbnail had been
    stored. *)
Theorem delete_after_upload_restores_the_bucket
    env denv userId file metadata w document tasks w1 :
  AWS_S3_BUCKET_NAME = None →
  AWS_REGION = None →
  DocumentService.uploadDocument env userId file metadata w
    = (Returned (Success document, tasks), w1) →
  S3Service.split_once bucket_marker
    (file_key (DocumentService.storage env) (mimetype file) userId) = None →
  S3Service.split_once bucket_marker
    (thumbnail_key (DocumentService.storage env) (mimetype file) userId) = None →
  bucket w !! file_key (DocumentService.storage env) (mimetype file) userId = None →
  bucket w !! thumbnail_key (DocumentService.storage env) (mimetype file) userId = None →
  S3Service.delete_original denv = true →
  S3Service.delete_thumbnail denv = true →
  ∃ w2,
    DocumentService.deleteDocument denv (DocumentService.documentId env) userId w1
      = (Returned (Success tt), w2)
    ∧ bucket w2 = bucket w.
Proof.
  intros Hbucket Hregion Hup Hfm Htm Hfk Htk Horig Hthumb.
  destruct (uploadDocument_succeeded _ _ _ _ _ _ _ _ Hup)
    as (q & res & ws & _ & _ & Hs3 & _ & _ & Hnew & _ & -> & _ & -> & _).
  destruct (S3_uploadDocument_returned _ _ _ _ _ _ _ Hs3)
    as (_ & Hurl & _ & _ & _ & _ & Hobjects). cbv zeta in Hobjects.
  assert (S3Service.extractFileNameFromUrl
            (Db.file_url (started metadata (uploaded_row env userId file metadata res)))
          = Returned (file_key (DocumentService.storage env) (mimetype file) userId)) as Hkey.
  { rewrite started_file_url. simpl. rewrite Hurl, default_url_key by done. by rewrite Hfm. }
  erewrite deleteDocument_bucket; [| |exact Hkey|exact Horig].
  2:{ apply owned_document_lookup; [|by rewrite started_user_id].
      simpl. apply lookup_insert_eq. }
  eexists. split; [reflexivity|]. cbn [bucket]. rewrite started_thumbnail_url. simpl.
  destruct (S3Service.isImageType (mimetype file)).
  - destruct (S3Service.sharp_thumbnail (DocumentService.storage env)) as [jpeg|].
    + destruct (S3Service.put_thumbnail (DocumentService.storage env));
        destruct Hobjects as [-> ->].
      * unfold uploaded_row. cbn [Db.thumbnail_url].
        rewrite !object_url_nonempty, default_url_key, Htm, Hthumb by done.
        by apply bucket_restored.
      * simpl. by apply delete_insert_id.
    + destruct Hobjects as [-> ->]; simpl. by apply delete_insert_id.
  - destruct Hobjects as [-> ->]; simpl. by apply delete_insert_id.
Qed.

(** X11. A document whose [file_url] does not contain the name of the
    configured bucket followed by [.s3.] cannot be deleted: [deleteDocument]
    answers SERVER_ERROR, and the database and the bucket stay as they
    were. *)
Theorem foreign_url_cannot_be_deleted denv documentId userId w doc :
  Db.documents (db w) !! documentId = Some doc →
  Db.user_id doc = userId →
  S3Service.split_once bucket_marker (Db.file_url doc) = None →
  ∃ w',
    DocumentService.deleteDocument denv documentId userId w
      = (Returned (Failure SERVER_ERROR "Failed to delete document"), w')
    ∧ db w' = db w ∧ bucket w' = bucket w.
Proof.
  intros Hdoc Hown Hurl.
  unfold DocumentService.deleteDocument, Sql.select_document, Sql.BEGIN, Sql.ROLLBACK,
    S3Service.deleteDocument, S3Service.extractFileNameFromUrl.
  unfold bucket_marker in Hurl.
  unfold_monad. simpl. rewrite Hdoc. simpl. rewrite decide_True by done. simpl.
  rewrite Hurl. simpl. eexists. split; [reflexivity|]. done.
Qed.

(** X12. When the original is deleted but the deletion of the thumbnail
    fails, [deleteDocument] still answers with success: the row is gone, the
    original is gone, and the thumbnail stays in the bucket. *)
Theorem failed_thumbnail_deletion_is_silent denv documentId userId w doc fk turl tk :
  Db.documents (db w) !! documentId = Some doc →
  Db.user_id doc = userId →
  S3Service.extractFileNameFromUrl (Db.file_url doc) = Returned fk →
  S3Service.delete_original denv = true →
  Js.or_null (Db.thumbnail_url doc) = Some turl →
  S3Service.extractFileNameFromUrl turl = Returned tk →
  S3Service.delete_thumbnail denv = false →
  tk ≠ fk →
  ∃ w',
    DocumentService.deleteDocument denv documentId userId w = (Returned (Success tt), w')
    ∧ Db.documents (db w') !! documentId = None
    ∧ bucket w' !! fk = None
    ∧ bucket w' !! tk = bucket w !! tk.
Proof.
  intros Hdoc Hown Hfk Horig Hturl Htk Hthumb Hne.
  erewrite deleteDocument_bucket;
    [|by apply owned_document_lookup|exact Hfk|exact Horig].
  rewrite Hturl, Htk, Hthumb. eexists. split; [reflexivity|]. simpl.
  split; [apply lookup_delete_eq|]. split; [apply lookup_delete_eq|].
  by rewrite lookup_delete_ne.
Qed.

End RoundTrip.

(** ** The background paths, continued *)

Section EnrichmentExtras.
Context `{Runtime}.

Lemma alter_lookup {A} (f : A → A) (m : gmap string A) i x :
  m !! i = Some x → alter f i m = <[i := f x]> m.
Proof.
  intros Hx. apply map_eq; intros k; destruct (decide (k = i)) as [->|Hne].
  - by rewrite lookup_alter_eq, lookup_insert_eq, Hx.
  - by rewrite lookup_alter_ne, lookup_insert_ne by done.
Qed.

(** X13. On a document that exists [processDocumentWithOCR] returns, and
    leaves [ocr_status] at [completed] with the extracted text in the analysis
    row when the extraction succeeded, and at [failed] with the analysis table
    untouched when it did not; the rest of the row, the users and the bucket
    are unchanged. *)
Theorem ocr_path_settles_the_status env documentId fileBuffer mimeType w doc :
  Db.documents (db w) !! documentId = Some doc →
  ∃ w',
    DocumentService.processDocumentWithOCR env documentId fileBuffer mimeType w
      = (Returned tt, w')
    ∧ Db.users (db w') = Db.users (db w)
    ∧ bucket w' = bucket w
    ∧ match OcrService.extractText (DocumentService.vision env) fileBuffer mimeType with
      | OcrService.OcrSuccess data =>
          Db.documents (db w')
            = <[documentId := Db.set_ocr_status (Some OcrCompleted) doc]> (Db.documents (db w))
          ∧ Db.extracted_text <$> Db.document_ai_analysis (db w') !! documentId
              = Some (Some (OcrService.text data))
      | OcrService.OcrFailure _ =>
          Db.documents (db w')
            = <[documentId := Db.set_ocr_status (Some OcrFailed) doc]> (Db.documents (db w))
          ∧ Db.document_ai_analysis (db w') = Db.document_ai_analysis (db w)
      end.
Proof.
  intros Hdoc.
  unfold DocumentService.processDocumentWithOCR, Sql.insert_analysis, Sql.update_ocr_status,
    Sql.select_analysis, Sql.update_extracted_text.
  unfold_monad.
  destruct (OcrService.extractText (DocumentService.vision env) fileBuffer mimeType)
    as [data|error]; simpl.
  - destruct (Db.document_ai_analysis (db w) !! documentId) as [row|] eqn:Hrow; simpl.
    + eexists. split; [reflexivity|]. simpl. do 2 (split; [done|]). split.
      * rewrite alter_alter_eq. rewrite (alter_lookup _ _ _ _ Hdoc). done.
      * by rewrite lookup_alter_eq, Hrow.
    + rewrite Hrow. rewrite decide_False by (by intros [? ?]).
      rewrite decide_False by (rewrite lookup_alter_eq, Hdoc; done). simpl.
      eexists. split; [reflexivity|]. simpl. do 2 (split; [done|]). split.
      * rewrite alter_alter_eq. rewrite (alter_lookup _ _ _ _ Hdoc). done.
      * by rewrite lookup_insert_eq.
  - eexists. split; [reflexivity|]. simpl. do 2 (split; [done|]). split; [|done].
    rewrite alter_alter_eq. rewrite (alter_lookup _ _ _ _ Hdoc). done.
Qed.

(** X14. When the document already has an analysis row, a successful
    OCR run replaces its extracted text and its timestamp and keeps its
    summary and its insights. *)
Theorem ocr_after_analysis_keeps_the_summary
    env documentId fileBuffer mimeType w doc row data :
  Db.documents (db w) !! documentId = Some doc →
  Db.document_ai_analysis (db w) !! documentId = Some row →
  OcrService.extractText (DocumentService.vision env) fileBuffer mimeType
    = OcrService.OcrSuccess data →
  ∃ w',
    DocumentService.processDocumentWithOCR env documentId fileBuffer mimeType w
      = (Returned tt, w')
    ∧ Db.document_ai_analysis (db w')
      = <[documentId := {| Db.extracted_text := Some (OcrService.text data);
                           Db.summary := Db.summary row;
                           Db.insights := Db.insights row;
                           Db.processed_at := DocumentService.ocr_now env |}]>
          (Db.document_ai_analysis (db w)).
Proof.
  intros Hdoc Hrow Hocr.
  unfold DocumentService.processDocumentWithOCR, Sql.insert_analysis, Sql.update_ocr_status,
    Sql.select_analysis, Sql.update_extracted_text.
  unfold_monad. rewrite Hocr. simpl. rewrite Hrow. simpl.
  eexists. split; [reflexivity|]. simpl.
  by rewrite (alter_lookup _ _ _ _ Hrow).
Qed.

Lemma with_documents_alter_missing f documentId d :
  Db.documents d !! documentId = None →
  Db.with_documents (alter f documentId) d = d.
Proof.
  intros Hnone. destruct d as [us ps ds an]. unfold Db.with_documents. simpl in *.
  f_equal. by apply alter_id'.
Qed.

(** X15. When the document is gone before a background task runs, the
    task changes nothing: [processDocumentWithOCR] returns if the extraction
    failed and throws otherwise, [processDocumentWithAI] throws, and both leave
    the world as it was. *)
Theorem enrichment_of_a_deleted_document_changes_nothing
    oenv aenv documentId fileBuffer mimeType w :
  Db.documents (db w) !! documentId = None →
  Db.document_ai_analysis (db w) !! documentId = None →
  (∃ o, DocumentService.processDocumentWithOCR oenv documentId fileBuffer mimeType w
          = (o, w)
      ∧ (o = Returned tt ↔
         ∃ error, OcrService.extractText (DocumentService.vision oenv) fileBuffer mimeType
                  = OcrService.OcrFailure error))
  ∧ ∃ e, DocumentService.processDocumentWithAI aenv documentId fileBuffer mimeType w
           = (Thrown e, w).
Proof.
  intros Hdoc Han.
  assert (∀ f, with_db (Db.with_documents (alter f documentId)) w = w) as Hsame.
  { intros f. destruct w as [d t b c]. unfold with_db. simpl in *.
    by rewrite with_documents_alter_missing. }
  split.
  - unfold DocumentService.processDocumentWithOCR, Sql.insert_analysis, Sql.update_ocr_status,
      Sql.select_analysis, Sql.update_extracted_text.
    unfold_monad. rewrite !Hsame.
    destruct (OcrService.extractText (DocumentService.vision oenv) fileBuffer mimeType)
      as [data|error]; simpl.
    + rewrite Han. simpl. rewrite decide_False by (rewrite Han; by intros [? ?]).
      rewrite decide_True by done. simpl. rewrite Hsame.
      eexists. split; [reflexivity|]. split; [done|]. intros [? ?]. done.
    + rewrite !Hsame. eexists. split; [reflexivity|]. split; [|done]. by eexists.
  - assert (with_db (λ _, db w) w = w) as Hdb by (by destruct w).
    unfold DocumentService.processDocumentWithAI, DocumentService.uncommitted,
      Sql.insert_analysis, Sql.update_status.
    unfold_monad.
    destruct (DocumentService.reply aenv) as [content|]; simpl;
      [|rewrite Hsame; by eexists].
    destruct (DocumentService.responseText_of content) as [responseText|e]; simpl;
      [|rewrite Hsame; by eexists].
    destruct (DocumentService.analysis_fields _) as [[[extractedText summary] insights]|e];
      simpl; [|rewrite Hsame, Hdb; by eexists].
    destruct (DocumentService.text_array_param _); simpl;
      [|rewrite Hsame; by eexists].
    rewrite decide_False by (rewrite Han; by intros [? ?]).
    rewrite decide_True by done. simpl. rewrite Hsame. by eexists.
Qed.

(** X16. On a document that exists, [processDocumentWithAI] either
    returns, having inserted an analysis row where there was none and set the
    status to PROCESSED, or throws and leaves the analysis table as it was;
    when it throws the status is set to FAILED, except when the reply parsed
    to [null], where the documents are as before.  The users are unchanged
    either way. *)
Theorem analysis_path_settles_the_status env documentId fileBuffer mimeType w doc :
  Db.documents (db w) !! documentId = Some doc →
  ∃ o w',
    DocumentService.processDocumentWithAI env documentId fileBuffer mimeType w = (o, w')
    ∧ Db.users (db w') = Db.users (db w)
    ∧ match o with
      | Returned _ =>
          parsed_null env = false
          ∧ Db.documents (db w')
            = <[documentId := Db.set_status PROCESSED doc]> (Db.documents (db w))
          ∧ Db.document_ai_analysis (db w) !! documentId = None
          ∧ ∃ row, Db.document_ai_analysis (db w')
                   = <[documentId := row]> (Db.document_ai_analysis (db w))
      | Thrown _ =>
          Db.document_ai_analysis (db w') = Db.document_ai_analysis (db w)
          ∧ Db.documents (db w')
            = if parsed_null env then Db.documents (db w)
              else <[documentId := Db.set_status FAILED doc]> (Db.documents (db w))
      end.
Proof.
  intros Hdoc.
  assert (∀ s, alter (Db.set_status s) documentId (Db.documents (db w))
               = <[documentId := Db.set_status s doc]> (Db.documents (db w))) as Hset.
  { intros s. by apply alter_lookup. }
  unfold DocumentService.processDocumentWithAI, DocumentService.uncommitted,
    DocumentService.analysis_fields, Sql.insert_analysis, Sql.update_status, parsed_null.
  unfold_monad.
  destruct (DocumentService.reply env) as [content|]; simpl;
    [|eexists _, _; split; [reflexivity|]; simpl; by rewrite Hset].
  destruct (DocumentService.responseText_of content) as [responseText|e]; simpl;
    [|eexists _, _; split; [reflexivity|]; simpl; by rewrite Hset].
  destruct (DocumentService.parse_analysis responseText) as [|b|f|s|items|fields]; simpl.
  1:{ eexists _, _; split; [reflexivity|]; simpl; done. }
  all: try match goal with
           | |- context [DocumentService.text_array_param ?x] =>
               destruct (DocumentService.text_array_param x); simpl
           end.
  all: try match goal with
           | |- context [decide (is_Some ?x)] =>
               destruct (decide (is_Some x)) as [Hrow|Hrow]; simpl
           end.
  all: rewrite ?decide_False by (by rewrite Hdoc); simpl.
  all: eexists _, _; (split; [reflexivity|]); simpl; rewrite ?Hset.
  all: first [ done
             | split; [done|]; split; [done|]; split; [done|];
               split; [by apply eq_None_not_Some|]; by eexists ].
Qed.

(** X17. When the reply of the language model is the JSON literal
    [null], reading [extractedText] from it raises a TypeError after
    [pool.query('BEGIN')]: the analysis path throws it, and the statement of
    its [catch] block is not committed, so the database is as before and the
    status of the document is the one it had. *)
Theorem null_reply_fails_the_analysis env documentId fileBuffer mimeType w doc text rest :
  Db.documents (db w) !! documentId = Some doc →
  DocumentService.reply env = Some (DocumentService.TextBlock text :: rest) →
  JSON_parse text = Some JNull →
  ∃ w',
    DocumentService.processDocumentWithAI env documentId fileBuffer mimeType w
      = (Thrown (Error "TypeError: Cannot read properties of null"), w')
    ∧ db w' = db w
    ∧ Db.status <$> Db.documents (db w') !! documentId = Some (Db.status doc).
Proof.
  intros Hdoc Hreply Hparse.
  unfold DocumentService.processDocumentWithAI, DocumentService.uncommitted,
    Sql.update_status, DocumentService.parse_analysis.
  unfold_monad. rewrite Hreply. simpl. rewrite Hparse. simpl.
  eexists. split; [reflexivity|]. simpl. by rewrite Hdoc.
Qed.

(** X18. A PDF passes the upload but not the text extraction: when a
    PDF was uploaded with [processWithOCR], the OCR task is among the tasks
    started, and running it leaves the document's [ocr_status] at [failed]
    and writes no analysis, whatever the vision service would answer. *)
Theorem pdf_upload_fails_text_extraction
    env oenv userId file metadata w document tasks w1 :
  DocumentService.uploadDocument env userId file metadata w
    = (Returned (Success document, tasks), w1) →
  mimetype file = "application/pdf" →
  Shared.processWithOCR metadata = true →
  DocumentService.OcrTask (DocumentService.documentId env) (buffer file) (mimetype file)
    ∈ tasks
  ∧ ∃ w2,
      DocumentService.processDocumentWithOCR oenv (DocumentService.documentId env)
        (buffer file) (mimetype file) w1 = (Returned tt, w2)
      ∧ Db.ocr_status <$> Db.documents (db w2) !! DocumentService.documentId env
          = Some (Some OcrFailed)
      ∧ Db.document_ai_analysis (db w2) = Db.document_ai_analysis (db w).
Proof.
  intros Hup Hpdf Hocr.
  destruct (uploadDocument_succeeded _ _ _ _ _ _ _ _ Hup)
    as (q & res & ws & _ & _ & _ & _ & _ & Hnew & _ & _ & -> & -> & _).
  rewrite Hocr. split; [set_solver|].
  unfold DocumentService.processDocumentWithOCR, Sql.update_ocr_status,
    OcrService.extractText.
  unfold_monad. rewrite Hpdf. simpl.
  eexists. split; [reflexivity|]. simpl.
  by rewrite !lookup_alter_eq, lookup_insert_eq.
Qed.

End EnrichmentExtras.

(** ** Registration and login, continued *)

Section AuthExtras.
Context `{Runtime}.

Lemma users_by_phone_empty phoneNumber (users : gmap string Db.UserRow) :
  (∀ i u, users !! i = Some u → Db.phone_number u ≠ phoneNumber) →
  filter (λ kv, Db.phone_number kv.2 = phoneNumber) users = ∅.
Proof.
  intros Hnone. apply map_eq. intros i. rewrite (lookup_empty i).
  apply map_lookup_filter_None_2. right.
  intros u Hu. simpl. by apply (Hnone i).
Qed.

Lemma users_by_phone_nil phoneNumber (users : gmap string Db.UserRow) :
  (0 <? length (map_to_list (filter (λ kv, Db.phone_number kv.2 = phoneNumber) users)))%nat
    = false
  ↔ ∀ i u, users !! i = Some u → Db.phone_number u ≠ phoneNumber.
Proof.
  rewrite Nat.ltb_ge. split.
  - intros Hlen i u Hu Hphone.
    assert (map_to_list (filter (λ kv, Db.phone_number kv.2 = phoneNumber) users) = [])
      as Hnil.
    { destruct (map_to_list _); [done|simpl in Hlen; lia]. }
    apply map_to_list_empty_iff in Hnil.
    assert (filter (λ kv, Db.phone_number kv.2 = phoneNumber) users !! i = Some u) as Hin.
    { by apply map_lookup_filter_Some. }
    rewrite Hnil in Hin. done.
  - intros Hnone.
    rewrite users_by_phone_empty by done. by rewrite map_to_list_empty.
Qed.

(** What [register] does, case by case. *)
Lemma register_cases env data w :
  let r := AuthService.register env data w in
  (∃ code message, r = (Returned (AuthService.AuthFailure code message), w)
                   ∧ (code = WEAK_PASSWORD ∨ code = VALIDATION_ERROR))
  ∨ (r = (Returned (AuthService.AuthFailure DUPLICATE_PHONE
                      (Some "Phone number already registered")),
          {| db := db w; tx := None; bucket := bucket w; bcrypt_calls := bcrypt_calls w |})
     ∧ ∃ i u, Db.users (db w) !! i = Some u
            ∧ Db.phone_number u = Shared.reg_phoneNumber data)
  ∨ (∃ e, r = (Thrown e,
               {| db := db w; tx := None; bucket := bucket w;
                  bcrypt_calls := BcryptHash (Shared.reg_password data) :: bcrypt_calls w |}))
  ∨ (r = (Returned (AuthService.AuthSuccess
                      {| Shared.user := AuthService.mapDbUserToUser (AuthService.userId env)
                                          (registered_row data);
                         Shared.token := AuthService.generateToken (AuthService.userId env) |}),
          committed_registration env data w)
     ∧ AuthService.valid (AuthService.validatePassword (Shared.reg_password data)) = true
     ∧ AuthService.valid (AuthService.validatePhoneNumber (Shared.reg_phoneNumber data)) = true
     ∧ (∀ i u, Db.users (db w) !! i = Some u
               → Db.phone_number u ≠ Shared.reg_phoneNumber data)
     ∧ Db.users (db w) !! AuthService.userId env = None
     ∧ (AuthService.userId env ∉ Db.user_profiles (db w))
     ∧ Sql.fits 20 (Shared.reg_phoneNumber data) = true).
Proof.
  intros r. pose proof (eq_refl r) as Hr. unfold r at 2 in Hr. clearbody r.
  unfold AuthService.register, AuthService.hash, Sql.select_users_by_phone, Sql.insert_user,
    Sql.insert_profile, Sql.BEGIN, Sql.COMMIT, Sql.ROLLBACK in Hr.
  unfold_monad.
  destruct (AuthService.valid (AuthService.validatePassword _)) eqn:Hpw; simpl in Hr.
  2:{ left. eexists _, _. split; [exact Hr|by left]. }
  destruct (AuthService.valid (AuthService.validatePhoneNumber _)) eqn:Hphone; simpl in Hr.
  2:{ left. eexists _, _. split; [exact Hr|by right]. }
  destruct (0 <? length _)%nat eqn:Hexisting; simpl in Hr.
  { right; left. split; [exact Hr|].
    destruct (map_to_list _) as [|[i u] l] eqn:Hl; [done|].
    assert ((i, u) ∈ map_to_list
              (filter (λ kv, Db.phone_number kv.2 = Shared.reg_phoneNumber data)
                 (Db.users (db w)))) as Hin.
    { rewrite Hl. set_solver. }
    apply elem_of_map_to_list, map_lookup_filter_Some in Hin as [Hu Hp].
    by exists i, u. }
  pose proof (proj1 (users_by_phone_nil _ _) Hexisting) as Hfree; clear Hexisting;
    rename Hfree into Hexisting.
  destruct (Sql.fits 20 _) eqn:Hf20; simpl in Hr.
  2:{ right; right; left. eexists. exact Hr. }
  destruct (Sql.fits 255 _ && Sql.fits 255 _) eqn:Hf255; simpl in Hr.
  2:{ right; right; left. eexists. exact Hr. }
  destruct (decide (is_Some (Db.users (db w) !! AuthService.userId env))) as [Hdup|Hnew];
    simpl in Hr.
  { right; right; left. eexists. exact Hr. }
  rewrite decide_False in Hr by (rewrite users_by_phone_empty by done; by intros ?).
  simpl in Hr.
  destruct (decide (AuthService.userId env ∈ Db.user_profiles (db w))) as [Hprof|Hprof];
    simpl in Hr.
  { right; right; left. eexists. exact Hr. }
  rewrite decide_False in Hr by (by rewrite lookup_insert_eq). simpl in Hr.
  right; right; right. split; [exact Hr|].
  repeat split; try done. by apply eq_None_not_Some.
Qed.

(** X19. A registration with a valid password and a valid phone number
    that some user already has is refused with DUPLICATE_PHONE; the database
    is unchanged and the password is not hashed. *)
Theorem duplicate_phone_is_refused env data w i u :
  AuthService.valid (AuthService.validatePassword (Shared.reg_password data)) = true →
  AuthService.valid (AuthService.validatePhoneNumber (Shared.reg_phoneNumber data)) = true →
  Db.users (db w) !! i = Some u →
  Db.phone_number u = Shared.reg_phoneNumber data →
  ∃ w',
    AuthService.register env data w
      = (Returned (AuthService.AuthFailure DUPLICATE_PHONE
                     (Some "Phone number already registered")), w')
    ∧ db w' = db w
    ∧ bcrypt_calls w' = bcrypt_calls w.
Proof.
  intros Hpw Hphone Hu Hsame.
  destruct (register_cases env data w)
    as [(c & m & Hr & Hc)|[[Hr _]|[[e Hr]|(Hr & _ & _ & Hnone & _)]]]; cbv zeta in Hr.
  - exfalso. revert Hr.
    unfold AuthService.register, try_catch. rewrite Hpw, Hphone. simpl.
    unfold Sql.select_users_by_phone, Sql.BEGIN, Sql.ROLLBACK. unfold_monad. simpl.
    destruct (0 <? length _)%nat eqn:Hexisting; simpl.
    + intros [= <- _]. by destruct Hc.
    + pose proof (proj1 (users_by_phone_nil _ _) Hexisting) as Hfree; clear Hexisting;
    rename Hfree into Hexisting. by destruct (Hexisting i u Hu).
  - rewrite Hr. by eexists.
  - exfalso. revert Hr.
    unfold AuthService.register, try_catch. rewrite Hpw, Hphone. simpl.
    unfold Sql.select_users_by_phone, Sql.BEGIN, Sql.ROLLBACK. unfold_monad. simpl.
    destruct (0 <? length _)%nat eqn:Hexisting; simpl; [discriminate|].
    pose proof (proj1 (users_by_phone_nil _ _) Hexisting) as Hfree; clear Hexisting;
    rename Hfree into Hexisting. by destruct (Hexisting i u Hu).
  - by destruct (Hnone i u Hu).
Qed.

(** X20. [register] preserves the uniqueness of phone numbers: if no
    two users share a phone number before the call, none do after it,
    however the call ends. *)
Theorem register_keeps_phone_numbers_unique env data w :
  phones_unique (db w) →
  phones_unique (db (AuthService.register env data w).2).
Proof.
  intros Huniq.
  destruct (register_cases env data w)
    as [(c & m & Hr & Hc)|[[Hr _]|[[e Hr]|(Hr & _ & _ & Hnone & Hnew & _)]]];
    cbv zeta in Hr; rewrite Hr; simpl; try done.
  intros i j u v Hi Hj Hsame. simpl in Hi, Hj.
  destruct (decide (i = AuthService.userId env)) as [->|Hi'];
    destruct (decide (j = AuthService.userId env)) as [->|Hj']; [done| | |].
  - rewrite lookup_insert_eq in Hi. rewrite lookup_insert_ne in Hj by done.
    injection Hi as <-. simpl in Hsame. by destruct (Hnone j v Hj).
  - rewrite lookup_insert_eq in Hj. rewrite lookup_insert_ne in Hi by done.
    injection Hj as <-. simpl in Hsame. by destruct (Hnone i u Hi).
  - rewrite lookup_insert_ne in Hi, Hj by done. by apply (Huniq i j u v).
Qed.

(** What [login] does, case by case. *)
Lemma login_cases phoneNumber password w :
  let r := AuthService.login phoneNumber password w in
  r = (Returned invalid_credentials, w)
  ∨ (∃ i u, Db.users (db w) !! i = Some u
          ∧ Db.phone_number u = phoneNumber
          ∧ let w' := {| db := db w; tx := tx w; bucket := bucket w;
                         bcrypt_calls := BcryptCompare password (Db.password_hash u)
                                         :: bcrypt_calls w |} in
            (bcrypt_compare password (Db.password_hash u) = false
             ∧ r = (Returned invalid_credentials, w'))
            ∨ (bcrypt_compare password (Db.password_hash u) = true
               ∧ r = (Returned (AuthService.AuthSuccess
                                  {| Shared.user := AuthService.mapDbUserToUser i u;
                                     Shared.token := AuthService.generateToken i |}), w'))).
Proof.
  intros r. pose proof (eq_refl r) as Hr. unfold r at 2 in Hr. clearbody r.
  unfold AuthService.login, AuthService.compare, Sql.select_users_by_phone in Hr.
  unfold_monad.
  destruct (AuthService.valid (AuthService.validatePhoneNumber _)); simpl in Hr; [|by left].
  destruct (map_to_list _) as [|[i u] l] eqn:Hl; [by left|].
  assert ((i, u) ∈ map_to_list
            (filter (λ kv, Db.phone_number kv.2 = phoneNumber) (Db.users (db w)))) as Hin.
  { rewrite Hl. set_solver. }
  apply elem_of_map_to_list, map_lookup_filter_Some in Hin as [Hu Hp].
  right. exists i, u. split; [done|]. split; [done|]. cbv zeta.
  destruct (bcrypt_compare password (Db.password_hash u)); simpl in Hr.
  - right. done.
  - left. done.
Qed.

(** X21. [login] does not change the database or the bucket, and it has
    one answer for every request it refuses: it either succeeds, for a user
    stored under exactly that phone number whose hash bcrypt accepts, or
    answers INVALID_CREDENTIALS with the message
    [Invalid phone number or password]. *)
Theorem login_refusals_are_alike phoneNumber password w :
  ∃ response w',
    AuthService.login phoneNumber password w = (Returned response, w')
    ∧ db w' = db w ∧ bucket w' = bucket w
    ∧ (response = invalid_credentials
       ∨ ∃ i u, Db.users (db w) !! i = Some u
              ∧ Db.phone_number u = phoneNumber
              ∧ bcrypt_compare password (Db.password_hash u) = true
              ∧ response = AuthService.AuthSuccess
                             {| Shared.user := AuthService.mapDbUserToUser i u;
                                Shared.token := AuthService.generateToken i |}).
Proof.
  destruct (login_cases phoneNumber password w)
    as [Hr|(i & u & Hu & Hp & [[Hc Hr]|[Hc Hr]])]; cbv zeta in Hr; rewrite Hr.
  - eexists _, _. split; [done|]. split; [done|]. split; [done|]. by left.
  - eexists _, _. split; [done|]. split; [done|]. split; [done|]. by left.
  - eexists _, _. split; [done|]. split; [done|]. split; [done|]. right. by exists i, u.
Qed.

(** X22. After a successful registration, and provided bcrypt accepts a
    password against its own hash, [login] with the same phone number and
    password succeeds and returns the registered user, without changing the
    database. *)
Theorem registered_user_can_log_in env data w response w1 :
  AuthService.register env data w = (Returned (AuthService.AuthSuccess response), w1) →
  bcrypt_compare (Shared.reg_password data) (bcrypt_hash (Shared.reg_password data)) = true →
  ∃ token w2,
    AuthService.login (Shared.reg_phoneNumber data) (Shared.reg_password data) w1
      = (Returned (AuthService.AuthSuccess
                     {| Shared.user := Shared.user response; Shared.token := token |}), w2)
    ∧ db w2 = db w1
    ∧ Shared.user_id (Shared.user response) = AuthService.userId env
    ∧ Shared.phoneNumber (Shared.user response) = Shared.reg_phoneNumber data.
Proof.
  intros Hreg Hbcrypt.
  destruct (register_cases env data w)
    as [(c & m & Hr & Hc)|[[Hr _]|[[e Hr]|(Hr & _ & Hphone & Hnone & Hnew & _)]]];
    cbv zeta in Hr; rewrite Hr in Hreg; try discriminate.
  injection Hreg as <- <-.
  unfold AuthService.login, AuthService.compare, Sql.select_users_by_phone.
  unfold_monad. rewrite Hphone. simpl.
  rewrite map_filter_insert_True by done.
  rewrite users_by_phone_empty by done.
  rewrite insert_empty, map_to_list_singleton. simpl.
  rewrite Hbcrypt. simpl. eexists _, _. split; [reflexivity|]. done.
Qed.

Lemma register_succeeds env data w :
  AuthService.valid (AuthService.validatePassword (Shared.reg_password data)) = true →
  AuthService.valid (AuthService.validatePhoneNumber (Shared.reg_phoneNumber data)) = true →
  (∀ i u, Db.users (db w) !! i = Some u
          → Db.phone_number u ≠ Shared.reg_phoneNumber data) →
  Db.users (db w) !! AuthService.userId env = None →
  AuthService.userId env ∉ Db.user_profiles (db w) →
  Sql.fits 20 (Shared.reg_phoneNumber data) = true →
  Sql.fits 255 (bcrypt_hash (Shared.reg_password data)) = true →
  Sql.fits 255 (Shared.reg_fullName data) = true →
  AuthService.register env data w
  = (Returned (AuthService.AuthSuccess
                 {| Shared.user := AuthService.mapDbUserToUser (AuthService.userId env)
                                     (registered_row data);
                    Shared.token := AuthService.generateToken (AuthService.userId env) |}),
     committed_registration env data w).
Proof.
  intros Hpw Hphone Hnone Hnew Hprof Hf20 Hhash Hname.
  unfold AuthService.register, AuthService.hash, Sql.select_users_by_phone, Sql.insert_user,
    Sql.insert_profile, Sql.BEGIN, Sql.COMMIT, Sql.ROLLBACK.
  unfold_monad. rewrite Hpw, Hphone. simpl.
  rewrite (proj2 (users_by_phone_nil _ _) Hnone). simpl.
  rewrite Hf20, Hhash, Hname. simpl.
  rewrite decide_False by (rewrite Hnew; by intros [? ?]).
  rewrite decide_False by (rewrite users_by_phone_empty by done; by intros ?).
  simpl.
  rewrite decide_False by done.
  rewrite decide_False by (by rewrite lookup_insert_eq). reflexivity.
Qed.

(** A text that matches the pattern of phone numbers has neither white
    space nor a dash, and fits the column. *)
Lemma digit_is_kept c :
  AuthService.is_digit c = true →
  (AuthService.is_space c || bool_decide (c = "-"%char)) = false.
Proof. destruct c as [[] [] [] [] [] [] [] []]; vm_compute; congruence. Qed.

Lemma pattern_is_clean s :
  AuthService.phone_pattern s = true →
  AuthService.cleanPhone s = s ∧ Sql.fits 20 s = true.
Proof.
  unfold AuthService.phone_pattern. intros Hp.
  apply andb_prop in Hp as [Hp Hdigits]. apply andb_prop in Hp as [Hprefix Hlen].
  apply Nat.eqb_eq in Hlen.
  do 15 (destruct s as [|? s]; try discriminate Hlen).
  split; [|reflexivity].
  cbn [String.prefix] in Hprefix.
  repeat match type of Hprefix with
         | (if ascii_dec ?a ?b then _ else _) = true =>
             destruct (ascii_dec a b) as [<-|]; [|discriminate Hprefix]
         end.
  cbn in Hdigits.
  repeat match type of Hdigits with
         | (_ && _)%bool = true => apply andb_prop in Hdigits as [?%digit_is_kept Hdigits]
         end.
  unfold AuthService.cleanPhone. cbn [AuthService.remove_chars].
  repeat match goal with
         | Hk : (AuthService.is_space ?c || _) = false |- _ => rewrite Hk; clear Hk
         end.
  reflexivity.
Qed.

(** X23. What the registration route stores is a number in the one
    spelling of the pattern: when the route answers 201, the new user's
    [phone_number] is the number of the request without the white space at its
    ends, it matches [+977] and ten digits, it has no space or dash to remove,
    no user had it before, and the rows of the other users are untouched. *)
Theorem register_route_stores_the_pattern env body w result w' :
  AuthRoutes.register env body w
    = (Returned (AuthRoutes.respond 201 (AuthRoutes.Result result)), w') →
  ∃ row,
    Db.users (db w') !! AuthService.userId env = Some row
    ∧ Db.phone_number row = AuthRoutes.trim (AuthRoutes.phoneNumber body)
    ∧ AuthService.phone_pattern (Db.phone_number row) = true
    ∧ AuthService.cleanPhone (Db.phone_number row) = Db.phone_number row
    ∧ (∀ i u, Db.users (db w) !! i = Some u → Db.phone_number u ≠ Db.phone_number row)
    ∧ (∀ i, i ≠ AuthService.userId env → Db.users (db w') !! i = Db.users (db w) !! i).
Proof.
  unfold AuthRoutes.register, AuthRoutes.phoneValidation.
  destruct (AuthService.phone_pattern (AuthRoutes.trim (AuthRoutes.phoneNumber body)))
    eqn:Hpattern; [|discriminate].
  destruct (_ ++ _)%list; [|discriminate].
  unfold_monad.
  destruct (register_cases env
              {| Shared.reg_phoneNumber := AuthRoutes.trim (AuthRoutes.phoneNumber body);
                 Shared.reg_password := AuthRoutes.password body;
                 Shared.reg_fullName := AuthRoutes.trim (AuthRoutes.fullName body) |} w)
    as [(c & m & Hr & Hc)|[[Hr _]|[[e Hr]|(Hr & _ & _ & Hnone & Hnew & _)]]];
    cbv zeta in Hr; rewrite Hr.
  - destruct Hc as [-> | ->]; discriminate.
  - discriminate.
  - discriminate.
  - intros [= <- <-]. eexists. simpl. rewrite lookup_insert_eq. split; [reflexivity|].
    simpl. split; [done|]. split; [done|].
    split; [by apply pattern_is_clean|]. split; [exact Hnone|].
    intros i Hi. by rewrite lookup_insert_ne.
Qed.

End AuthExtras.

(** ** Listing, storage information and the routes *)

Section Reading.
Context `{Runtime}.

Lemma getDocument_spec documentId userId w :
  DocumentService.getDocument documentId userId w
  = (Returned match owned_document documentId userId (db w) with
              | Some row =>
                  Success (DocumentService.mapDbDocumentToDocument documentId row
                             (Db.document_ai_analysis (db w) !! documentId))
              | None => Failure NOT_FOUND "Document not found"
              end, w).
Proof.
  unfold DocumentService.getDocument, Sql.select_document, Sql.select_analysis, owned_document.
  unfold_monad. simpl.
  destruct (Db.documents (db w) !! documentId) as [row|]; simpl; [|done].
  by destruct (decide _).
Qed.

Lemma newer_first_total : Total Sql.newer_first.
Proof. intros a b. unfold Sql.newer_first. lia. Qed.

(** X24. [getUserDocuments] returns exactly the documents that
    [getDocument] serves to that user, each once, newest first. *)
Theorem listing_serves_the_users_documents userId w :
  ∃ documents,
    DocumentService.getUserDocuments userId w = (Returned (Success documents), w)
    ∧ (∀ d, d ∈ documents
            ↔ ∃ documentId,
                DocumentService.getDocument documentId userId w = (Returned (Success d), w))
    ∧ Sorted (λ a b, Shared.uploadedAt b ≤ Shared.uploadedAt a) documents
    ∧ length documents = base.size (documents_of userId (db w)).
Proof.
  unfold DocumentService.getUserDocuments, Sql.select_user_documents. unfold_monad. simpl.
  eexists. split; [reflexivity|].
  set (rows := merge_sort Sql.newer_first
                 (map_to_list (filter (λ kv, Db.user_id kv.2 = userId) (Db.documents (db w))))).
  assert (∀ kv, kv ∈ rows ↔ Db.documents (db w) !! kv.1 = Some kv.2
                            ∧ Db.user_id kv.2 = userId) as Hrows.
  { intros [i r]. unfold rows. rewrite merge_sort_Permutation.
    rewrite elem_of_map_to_list, map_lookup_filter_Some. done. }
  split; [|split].
  - intros d. rewrite <- list_fmap_compose. rewrite list_elem_of_fmap. split.
    + intros ([i r] & -> & Hin). apply Hrows in Hin as [Hdoc Hown]. simpl in *.
      exists i. rewrite getDocument_spec.
      by rewrite (owned_document_lookup _ _ _ _ Hdoc Hown).
    + intros [i Hget]. rewrite getDocument_spec in Hget.
      destruct (owned_document i userId (db w)) as [row|] eqn:Hrow; [|done].
      injection Hget as <-. apply owned_document_Some in Hrow as [Hdoc Hown].
      exists (i, row). split; [done|]. by apply Hrows.
  - rewrite <- list_fmap_compose.
    apply (Sorted_fmap _ Sql.newer_first); [|apply (@Sorted_merge_sort _ _ _ newer_first_total)].
    intros [i r] [j s] Hle. exact Hle.
  - rewrite !length_fmap. unfold rows. rewrite merge_sort_Permutation.
    by rewrite length_map_to_list.
Qed.

Lemma decimal_ToNumber n : Js.ToNumber (Js.Str (Js.decimal n)) = Some n.
Proof.
  unfold Js.ToNumber, Js.decimal. rewrite NilZero.isi.
  - simpl. by rewrite DecimalZ.of_to.
  - destruct n; simpl; try discriminate.
    intros [= Hnil]. by apply DecimalPos.Unsigned.to_uint_nonnil in Hnil.
  - destruct n; simpl; try discriminate.
    intros [= Hnil]. by apply DecimalPos.Unsigned.to_uint_nonnil in Hnil.
Qed.

(** X25. For a user that exists, [getStorageInfo] succeeds, and its
    [remaining] is the number [storage_quota - storage_used] under either
    decoding of int8, [used] and [quota] being the two columns. *)
Theorem storage_info_reports_the_difference userId w row :
  Db.users (db w) !! userId = Some row →
  ∃ info,
    DocumentService.getStorageInfo userId w = (Returned (Success info), w)
    ∧ DocumentService.remaining info
        = Js.Num (Db.storage_quota row - Db.storage_used row)
    ∧ Js.ToNumber (DocumentService.used info) = Some (Db.storage_used row)
    ∧ Js.ToNumber (DocumentService.quota info) = Some (Db.storage_quota row).
Proof.
  intros Hrow. unfold DocumentService.getStorageInfo, Sql.select_user. unfold_monad. simpl.
  rewrite Hrow. eexists. split; [reflexivity|]. simpl.
  unfold Js.sub, pg_int8. destruct int8.
  - by rewrite !decimal_ToNumber.
  - done.
Qed.

End Reading.

Section Routes.
Context `{Runtime}.

(** X26. The handler of POST /upload answers 201, 400 or 500; with 201
    the document row is new in the database, and with 400 or 500 the database
    is as before and no background task was started. *)
Theorem upload_route_status env req w :
  ∃ response tasks w',
    DocumentRoutes.upload env req w = (Returned (response, tasks), w')
    ∧ (DocumentRoutes.statusCode response = 201
       ∧ Db.documents (db w) !! DocumentService.documentId env = None
       ∧ is_Some (Db.documents (db w') !! DocumentService.documentId env)
       ∨ (DocumentRoutes.statusCode response = 400
          ∨ DocumentRoutes.statusCode response = 500)
         ∧ db w' = db w ∧ tasks = []).
Proof.
  unfold DocumentRoutes.upload.
  destruct (bool_decide (DocumentRoutes.upload_errors req = [])); simpl.
  2:{ eexists _, _, _. split; [reflexivity|]. right. simpl. by split; [left|]. }
  destruct (DocumentRoutes.upload_file req) as [file|].
  2:{ eexists _, _, _. split; [reflexivity|]. right. simpl. by split; [left|]. }
  unfold try_catch, mbind, M_bind.
  match goal with |- context [DocumentService.uploadDocument ?e ?u ?f ?m ?w] =>
    destruct (uploadDocument_cases e u f m w)
      as [(c & msg & Hr)|[(b & Hr)|(b & row & tasks & Hr & _ & _ & _ & Hnew & _)]] end;
    cbv zeta in Hr; rewrite Hr; simpl.
  - eexists _, _, _. split; [reflexivity|]. right. simpl. split; [|done].
    destruct c; simpl; auto.
  - eexists _, _, _. split; [reflexivity|]. right. simpl. split; [|done]. by right.
  - eexists _, _, _. split; [reflexivity|]. left. simpl. split; [done|]. split; [done|].
    by rewrite lookup_insert_eq.
Qed.

(** X27. For the id of a document of another user, the handlers of
    GET, PUT and DELETE /:id all answer 404 with NOT_FOUND, as for a document
    that does not exist, and change nothing. *)
Theorem foreign_documents_answer_404 denv documentId userId body w doc :
  Db.documents (db w) !! documentId = Some doc →
  Db.user_id doc ≠ userId →
  DocumentRoutes.get documentId userId w = (Returned document_not_found, w)
  ∧ DocumentRoutes.put {| DocumentRoutes.update_errors := [];
                          DocumentRoutes.update_userId := userId;
                          DocumentRoutes.update_id := documentId;
                          DocumentRoutes.update_body := body |} w
    = (Returned document_not_found, w)
  ∧ DocumentRoutes.delete denv documentId userId w = (Returned document_not_found, w).
Proof.
  intros Hdoc Hforeign.
  assert (owned_document documentId userId (db w) = None) as Hnone.
  { unfold owned_document. rewrite Hdoc. simpl. by rewrite decide_False. }
  unfold document_not_found. split; [|split].
  - unfold DocumentRoutes.get, try_catch, mbind, M_bind.
    by rewrite getDocument_spec, Hnone.
  - unfold DocumentRoutes.put. simpl. unfold try_catch at 1, mbind at 1, M_bind at 1.
    assert (DocumentService.updateDocument documentId userId body w
            = (Returned (Failure NOT_FOUND "Document not found"), w)) as ->; [|done].
    unfold owned_document in Hnone.
    unfold DocumentService.updateDocument, Sql.select_document. unfold_monad. simpl.
    by rewrite Hnone.
  - unfold DocumentRoutes.delete, try_catch at 1, mbind at 1, M_bind at 1.
    by rewrite deleteDocument_not_found.
Qed.

End Routes.

(** ** The storage service *)

Section StorageExtras.
Context `{Runtime}.

Lemma user_prefix userId rest :
  String.prefix (userId +:+ "/") (userId +:+ "/" +:+ rest) = true.
Proof.
  induction userId as [|c u IH]; simpl.
  - by destruct rest.
  - by destruct (ascii_dec c c).
Qed.

(** X28. Whatever happens during [S3Service.uploadDocument], it leaves
    the database alone, and every key of the bucket whose object it has
    changed begins with the user's id and a slash and holds an object with
    the ACL [private]. *)
Theorem storage_upload_writes_private_objects_of_the_user env buffer mimeType userId w :
  ∃ o w',
    S3Service.uploadDocument env buffer mimeType userId w = (o, w')
    ∧ db w' = db w
    ∧ ∀ key, bucket w' !! key ≠ bucket w !! key →
        String.prefix (userId +:+ "/") key = true
        ∧ ACL <$> bucket w' !! key = Some "private".
Proof.
  assert (∀ (b : gmap string S3Object) k o key,
            String.prefix (userId +:+ "/") k = true → ACL o = "private" →
            (∀ key, b !! key ≠ bucket w !! key →
               String.prefix (userId +:+ "/") key = true
               ∧ ACL <$> b !! key = Some "private") →
            <[k := o]> b !! key ≠ bucket w !! key →
            String.prefix (userId +:+ "/") key = true
            ∧ ACL <$> <[k := o]> b !! key = Some "private") as Hput.
  { intros b k o key Hk Ho Hb Hkey. destruct (decide (key = k)) as [->|Hne].
    - rewrite lookup_insert_eq. simpl. by rewrite Ho.
    - rewrite lookup_insert_ne in Hkey |- * by done. by apply Hb. }
  unfold S3Service.uploadDocument, S3Service.generateAndUploadThumbnail, S3Service.send_put.
  unfold_monad. unfold with_bucket. simpl.
  destruct (S3Service.put_original env); simpl.
  2:{ eexists _, _. split; [reflexivity|]. split; [done|]. intros key Hkey. done. }
  destruct (S3Service.isImageType mimeType); simpl.
  - destruct (S3Service.sharp_thumbnail env); simpl.
    + destruct (S3Service.put_thumbnail env); simpl.
      * eexists _, _. split; [reflexivity|]. split; [done|]. simpl. intros key.
        apply Hput; [exact (user_prefix userId _)|done|]. clear key. intros key.
        apply Hput; [exact (user_prefix userId _)|done|]. done.
      * eexists _, _. split; [reflexivity|]. split; [done|]. simpl. intros key.
        apply Hput; [exact (user_prefix userId _)|done|]. done.
    + eexists _, _. split; [reflexivity|]. split; [done|]. simpl. intros key.
      apply Hput; [exact (user_prefix userId _)|done|]. done.
  - eexists _, _. split; [reflexivity|]. split; [done|]. simpl. intros key.
    apply Hput; [exact (user_prefix userId _)|done|]. done.
Qed.


End StorageExtras.

(** ** Text extraction, continued *)

Section OcrExtras.

Lemma no_confidence_filter (words : list OcrService.Annotation) :
  Forall (λ a, OcrService.confidence a = None) words →
  filter (λ c, PrimFloat.ltb 0 c = true)
    (map (λ a, OcrService.confidence_or_zero (OcrService.confidence a)) words) = [].
Proof.
  induction 1 as [|a words Ha _ IH]; [done|].
  simpl. rewrite Ha. simpl. rewrite filter_cons_False; [exact IH|].
  by vm_compute.
Qed.

(** X30. When none of the word annotations carries a confidence, the
    result of [extractText] on a supported image has the confidence 100, the
    text of the first annotation and one bounding box per word. *)
Theorem words_without_confidence_count_as_certain buffer mimeType full words :
  OcrService.isSupportedImageType mimeType = true →
  Forall (λ a, OcrService.confidence a = None) words →
  ∃ data,
    OcrService.extractText (OcrService.VisionResolved None (Some (full :: words)))
      buffer mimeType = OcrService.OcrSuccess data
    ∧ OcrService.confidence_percent data = 100%float
    ∧ OcrService.text data = Js.or_else (OcrService.description full) ""
    ∧ length (OcrService.boundingBoxes data) = length words.
Proof.
  intros Hsupported Hnone. unfold OcrService.extractText. rewrite Hsupported. simpl.
  eexists. split; [reflexivity|]. simpl. split; [|split; [done|by rewrite length_map]].
  unfold OcrService.calculateAverageConfidence.
  destruct (decide (length words = 0%nat)); [done|].
  by rewrite no_confidence_filter.
Qed.

End OcrExtras.
(** ** The further properties on the example worlds *)

Section MoreInstances.
Import Examples.

Lemma png3_is_acceptable :
  size png3 ≤ DocumentService.MAX_FILE_SIZE
  ∧ mimetype png3 ∈ DocumentService.allowedTypes.
Proof.
  split; [vm_compute; discriminate|].
  exact (bool_decide_unpack (mimetype png3 ∈ DocumentService.allowedTypes) I).
Defined.

Lemma first_upload :
  @DocumentService.uploadDocument node_runtime (upload_env "d1") "u1" png3 plain registered
  = (Returned (Success d1_document, []), uploaded).
Proof. vm_compute. reflexivity. Defined.

Lemma d1_is_stored : Db.documents (db uploaded) !! "d1" = Some d1_row.
Proof. vm_compute. reflexivity. Defined.

Lemma server_error_leaves_the_object_witness :
  ∃ w',
    @DocumentService.uploadDocument number_runtime (upload_env "d1") "u1" png3 plain uploaded
      = (Returned (Failure SERVER_ERROR "Failed to upload document", []), w')
    ∧ S3Service.put_original (DocumentService.storage (upload_env "d1")) = true
    ∧ db w' = db uploaded
    ∧ is_Some (bucket w' !! file_key (DocumentService.storage (upload_env "d1"))
                              (mimetype png3) "u1").
Proof.
  assert (∃ w',
            @DocumentService.uploadDocument number_runtime (upload_env "d1") "u1" png3 plain
              uploaded
            = (Returned (Failure SERVER_ERROR "Failed to upload document", []), w'))
    as [w' Hup]
    by (vm_compute; eexists; reflexivity).
  exists w'. split; [exact Hup|]. split; [reflexivity|].
  exact (@server_error_leaves_the_object number_runtime (upload_env "d1") "u1" png3 plain
           uploaded _ _ w' Hup eq_refl).
Defined.

Lemma unknown_user_is_quota_exceeded_witness :
  size png3 ≤ DocumentService.MAX_FILE_SIZE
  ∧ mimetype png3 ∈ DocumentService.allowedTypes
  ∧ Db.users (db empty_world) !! "u1" = None
  ∧ @DocumentService.uploadDocument node_runtime (upload_env "d1") "u1" png3 plain empty_world
    = (Returned (Failure STORAGE_QUOTA_EXCEEDED "User not found", []), empty_world).
Proof.
  destruct png3_is_acceptable as [Hsize Hmime].
  split; [exact Hsize|]. split; [exact Hmime|]. split; [reflexivity|].
  exact (@unknown_user_is_quota_exceeded node_runtime (upload_env "d1") "u1" png3 plain
           empty_world Hsize Hmime eq_refl).
Defined.

Lemma quota_is_never_exceeded_witness :
  @int8 number_runtime = Int8AsNumber
  ∧ freshly_registered "u1" (db registered)
  ∧ (∀ row, Db.users (db registered) !! "u1" = Some row → 0 ≤ Db.storage_quota row)
  ∧ Forall well_formed
      [Upload (upload_env "d1") "u1" png3 plain;
       Upload (upload_env "d2") "u1" png3 plain;
       Delete delete_env "d1" "u1"]
  ∧ within_quota "u1"
      (db (@run number_runtime
             [Upload (upload_env "d1") "u1" png3 plain;
              Upload (upload_env "d2") "u1" png3 plain;
              Delete delete_env "d1" "u1"]
             registered)).
Proof.
  assert (freshly_registered "u1" (db registered)) as Hfresh
    by (split; vm_compute; reflexivity).
  assert (∀ row, Db.users (db registered) !! "u1" = Some row → 0 ≤ Db.storage_quota row)
    as Hquota.
  { intros row Hrow. vm_compute in Hrow. injection Hrow as <-. vm_compute. discriminate. }
  assert (Forall well_formed
            [Upload (upload_env "d1") "u1" png3 plain;
             Upload (upload_env "d2") "u1" png3 plain;
             Delete delete_env "d1" "u1"]) as Hwf
    by (repeat constructor).
  split; [reflexivity|]. split; [exact Hfresh|]. split; [exact Hquota|]. split; [exact Hwf|].
  exact (@quota_is_never_exceeded number_runtime "u1" registered _ eq_refl Hfresh Hquota Hwf).
Defined.

Lemma leading_digit_blocks_uploads_witness :
  @int8 node_runtime = Int8AsText
  ∧ size png3 ≤ DocumentService.MAX_FILE_SIZE
  ∧ mimetype png3 ∈ DocumentService.allowedTypes
  ∧ Db.users (db uploaded) !! "u1" = Some (u1_row 3)
  ∧ Db.storage_quota (u1_row 3) = 104857600
  ∧ Js.decimal (Db.storage_used (u1_row 3)) = String "3" ""
  ∧ Ascii.compare "1" "3" = Lt
  ∧ @DocumentService.uploadDocument node_runtime (upload_env "d2") "u1" png3 plain uploaded
    = (Returned (Failure STORAGE_QUOTA_EXCEEDED
                   (quota_message (Js.Str (Js.decimal (Db.storage_used (u1_row 3))))
                      (Js.Str "104857600")), []), uploaded).
Proof.
  destruct png3_is_acceptable as [Hsize Hmime].
  assert (Db.users (db uploaded) !! "u1" = Some (u1_row 3)) as Hrow
    by (vm_compute; reflexivity).
  split; [reflexivity|]. split; [exact Hsize|]. split; [exact Hmime|]. split; [exact Hrow|].
  split; [reflexivity|]. split; [reflexivity|]. split; [reflexivity|].
  exact (@leading_digit_blocks_uploads node_runtime (upload_env "d2") "u1" png3 plain uploaded
           (u1_row 3) "3"%char "" eq_refl Hsize Hmime Hrow eq_refl eq_refl eq_refl).
Defined.


Lemma delete_after_upload_restores_the_database_witness :
  @DocumentService.uploadDocument node_runtime (upload_env "d1") "u1" png3 plain registered
    = (Returned (Success d1_document, []), uploaded)
  ∧ @storage_delete_succeeds node_runtime delete_env (Shared.fileUrl d1_document)
  ∧ Db.document_ai_analysis (db registered) !! "d1" = None
  ∧ (∀ u, Db.users (db registered) !! "u1" = Some u → 0 ≤ Db.storage_used u)
  ∧ ∃ w2,
      @DocumentService.deleteDocument node_runtime delete_env "d1" "u1" uploaded
        = (Returned (Success tt), w2)
      ∧ Db.documents (db w2) = Db.documents (db registered)
      ∧ Db.storage_used <$> Db.users (db w2) !! "u1"
          = Db.storage_used <$> Db.users (db registered) !! "u1".
Proof.
  assert (@storage_delete_succeeds node_runtime delete_env (Shared.fileUrl d1_document)) as Hs3
    by (split; [reflexivity|exists "u1/f-d1.png"; vm_compute; reflexivity]).
  assert (∀ u, Db.users (db registered) !! "u1" = Some u → 0 ≤ Db.storage_used u) as Hused.
  { intros u Hu. vm_compute in Hu. injection Hu as <-. vm_compute. discriminate. }
  split; [exact first_upload|]. split; [exact Hs3|]. split; [reflexivity|].
  split; [exact Hused|].
  destruct (@delete_after_upload_restores_the_database node_runtime _ delete_env _ _ _ _ _ _ _
              first_upload Hs3 eq_refl Hused) as (w2 & Hdel & Hdocs & _ & Hcounter & _).
  exists w2. split; [exact Hdel|]. split; [exact Hdocs|exact Hcounter].
Defined.

Lemma delete_after_upload_restores_the_bucket_witness :
  @AWS_S3_BUCKET_NAME node_runtime = None
  ∧ @AWS_REGION node_runtime = None
  ∧ @DocumentService.uploadDocument node_runtime (upload_env "d1") "u1" png3 plain registered
    = (Returned (Success d1_document, []), uploaded)
  ∧ S3Service.split_once (@bucket_marker node_runtime)
      (file_key (DocumentService.storage (upload_env "d1")) (mimetype png3) "u1") = None
  ∧ S3Service.split_once (@bucket_marker node_runtime)
      (thumbnail_key (DocumentService.storage (upload_env "d1")) (mimetype png3) "u1") = None
  ∧ bucket registered
      !! file_key (DocumentService.storage (upload_env "d1")) (mimetype png3) "u1" = None
  ∧ bucket registered
      !! thumbnail_key (DocumentService.storage (upload_env "d1")) (mimetype png3) "u1" = None
  ∧ S3Service.delete_original delete_env = true
  ∧ S3Service.delete_thumbnail delete_env = true
  ∧ ∃ w2,
      @DocumentService.deleteDocument node_runtime delete_env "d1" "u1" uploaded
        = (Returned (Success tt), w2)
      ∧ bucket w2 = bucket registered.
Proof.
  do 2 (split; [reflexivity|]). split; [exact first_upload|].
  do 6 (split; [vm_compute; reflexivity|]).
  exact (@delete_after_upload_restores_the_bucket node_runtime (upload_env "d1") delete_env
           "u1" png3 plain registered d1_document [] uploaded eq_refl eq_refl first_upload
           eq_refl eq_refl eq_refl eq_refl eq_refl eq_refl).
Defined.

Lemma foreign_url_cannot_be_deleted_witness :
  Db.documents (db uploaded) !! "d1" = Some d1_row
  ∧ Db.user_id d1_row = "u1"
  ∧ S3Service.split_once (@bucket_marker renamed_bucket_runtime) (Db.file_url d1_row) = None
  ∧ ∃ w',
      @DocumentService.deleteDocument renamed_bucket_runtime delete_env "d1" "u1" uploaded
        = (Returned (Failure SERVER_ERROR "Failed to delete document"), w')
      ∧ db w' = db uploaded ∧ bucket w' = bucket uploaded.
Proof.
  split; [exact d1_is_stored|]. split; [reflexivity|]. split; [vm_compute; reflexivity|].
  exact (@foreign_url_cannot_be_deleted renamed_bucket_runtime delete_env "d1" "u1" uploaded
           d1_row d1_is_stored eq_refl eq_refl).
Defined.

Lemma failed_thumbnail_deletion_is_silent_witness :
  Db.documents (db uploaded) !! "d1" = Some d1_row
  ∧ Db.user_id d1_row = "u1"
  ∧ @S3Service.extractFileNameFromUrl node_runtime (Db.file_url d1_row)
      = Returned "u1/f-d1.png"
  ∧ S3Service.delete_original thumbnail_stays_env = true
  ∧ Js.or_null (Db.thumbnail_url d1_row) = Some d1_thumbnail_url
  ∧ @S3Service.extractFileNameFromUrl node_runtime d1_thumbnail_url
      = Returned "u1/thumbnails/t-d1_thumb.png"
  ∧ S3Service.delete_thumbnail thumbnail_stays_env = false
  ∧ "u1/thumbnails/t-d1_thumb.png" ≠ "u1/f-d1.png"
  ∧ ∃ w',
      @DocumentService.deleteDocument node_runtime thumbnail_stays_env "d1" "u1" uploaded
        = (Returned (Success tt), w')
      ∧ Db.documents (db w') !! "d1" = None
      ∧ bucket w' !! "u1/f-d1.png" = None
      ∧ bucket w' !! "u1/thumbnails/t-d1_thumb.png"
          = bucket uploaded !! "u1/thumbnails/t-d1_thumb.png".
Proof.
  assert ("u1/thumbnails/t-d1_thumb.png" ≠ "u1/f-d1.png") as Hne by discriminate.
  split; [exact d1_is_stored|]. split; [reflexivity|].
  do 5 (split; [vm_compute; reflexivity|]). split; [exact Hne|].
  exact (@failed_thumbnail_deletion_is_silent node_runtime thumbnail_stays_env "d1" "u1"
           uploaded d1_row "u1/f-d1.png" d1_thumbnail_url "u1/thumbnails/t-d1_thumb.png"
           d1_is_stored eq_refl eq_refl eq_refl eq_refl eq_refl eq_refl Hne).
Defined.

Lemma delete_removes_the_analysis_witness :
  Db.documents (db ai_done) !! "d1" = Some (Db.set_status PROCESSED d1_row)
  ∧ Db.user_id (Db.set_status PROCESSED d1_row) = "u1"
  ∧ @storage_delete_succeeds node_runtime delete_env
      (Db.file_url (Db.set_status PROCESSED d1_row))
  ∧ Db.document_ai_analysis (db ai_done) !! "d1" = Some d1_analysis
  ∧ ∃ w1,
      @DocumentService.deleteDocument node_runtime delete_env "d1" "u1" ai_done
        = (Returned (Success tt), w1)
      ∧ Db.document_ai_analysis (db w1) !! "d1" = None
      ∧ DocumentService.getDocument "d1" "u1" w1
          = (Returned (Failure NOT_FOUND "Document not found"), w1).
Proof.
  assert (Db.documents (db ai_done) !! "d1" = Some (Db.set_status PROCESSED d1_row)) as Hdoc
    by (vm_compute; reflexivity).
  assert (@storage_delete_succeeds node_runtime delete_env
            (Db.file_url (Db.set_status PROCESSED d1_row))) as Hs3
    by (split; [reflexivity|exists "u1/f-d1.png"; vm_compute; reflexivity]).
  split; [exact Hdoc|]. split; [reflexivity|]. split; [exact Hs3|].
  split; [vm_compute; reflexivity|].
  destruct (@delete_removes_the_analysis node_runtime delete_env "d1" "u1" ai_done _
              Hdoc eq_refl Hs3) as (w1 & Hdel & Hnone & Hget & _).
  exists w1. split; [exact Hdel|]. split; [exact Hnone|exact Hget].
Defined.



Lemma ocr_path_settles_the_status_witness :
  Db.documents (db uploaded) !! "d1" = Some d1_row
  ∧ ∃ w',
      DocumentService.processDocumentWithOCR ocr_env "d1" (buffer png3) (mimetype png3)
        uploaded = (Returned tt, w')
      ∧ Db.documents (db w')
          = <[ "d1" := Db.set_ocr_status (Some OcrCompleted) d1_row ]>
              (Db.documents (db uploaded))
      ∧ Db.extracted_text <$> Db.document_ai_analysis (db w') !! "d1"
          = Some (Some "Hb 13.5").
Proof.
  split; [exact d1_is_stored|].
  destruct (ocr_path_settles_the_status ocr_env "d1" (buffer png3) (mimetype png3)
              uploaded d1_row d1_is_stored) as (w' & Hrun & _ & _ & Hcase).
  exists w'. split; [exact Hrun|]. exact Hcase.
Defined.

Lemma pdf_upload_fails_text_extraction_witness :
  ∃ document tasks w1,
    @DocumentService.uploadDocument node_runtime (upload_env "d1") "u1" pdf3 with_ocr
      registered = (Returned (Success document, tasks), w1)
    ∧ mimetype pdf3 = "application/pdf"
    ∧ Shared.processWithOCR with_ocr = true
    ∧ DocumentService.OcrTask "d1" (buffer pdf3) (mimetype pdf3) ∈ tasks
    ∧ ∃ w2,
        DocumentService.processDocumentWithOCR ocr_env "d1" (buffer pdf3) (mimetype pdf3) w1
          = (Returned tt, w2)
        ∧ Db.ocr_status <$> Db.documents (db w2) !! "d1" = Some (Some OcrFailed)
        ∧ Db.document_ai_analysis (db w2) = Db.document_ai_analysis (db registered).
Proof.
  assert (∃ document tasks w1,
            @DocumentService.uploadDocument node_runtime (upload_env "d1") "u1" pdf3 with_ocr
              registered = (Returned (Success document, tasks), w1))
    as (document & tasks & w1 & Hup)
    by (vm_compute; eexists _, _, _; reflexivity).
  exists document, tasks, w1.
  split; [exact Hup|]. split; [reflexivity|]. split; [reflexivity|].
  exact (@pdf_upload_fails_text_extraction node_runtime (upload_env "d1") ocr_env "u1" pdf3
           with_ocr registered document tasks w1 Hup eq_refl eq_refl).
Defined.

Lemma words_without_confidence_count_as_certain_witness :
  OcrService.isSupportedImageType "image/png" = true
  ∧ Forall (λ a, OcrService.confidence a = None) [word "Hb"; word "13.5"]
  ∧ ∃ data,
      OcrService.extractText
        (OcrService.VisionResolved None (Some (word "Hb 13.5" :: [word "Hb"; word "13.5"])))
        (buffer png3) "image/png" = OcrService.OcrSuccess data
      ∧ OcrService.confidence_percent data = 100%float
      ∧ OcrService.text data = "Hb 13.5".
Proof.
  assert (Forall (λ a, OcrService.confidence a = None) [word "Hb"; word "13.5"]) as Hwords
    by (repeat constructor).
  split; [reflexivity|]. split; [exact Hwords|].
  destruct (words_without_confidence_count_as_certain (buffer png3) "image/png"
              (word "Hb 13.5") [word "Hb"; word "13.5"] eq_refl Hwords)
    as (data & Hrun & Hconf & Htext & _).
  exists data. split; [exact Hrun|]. split; [exact Hconf|exact Htext].
Defined.

Lemma ocr_after_analysis_keeps_the_summary_witness :
  Db.documents (db ai_done) !! "d1" = Some (Db.set_status PROCESSED d1_row)
  ∧ Db.document_ai_analysis (db ai_done) !! "d1" = Some d1_analysis
  ∧ OcrService.extractText (DocumentService.vision ocr_env) (buffer png3) (mimetype png3)
      = OcrService.OcrSuccess ocr_data
  ∧ ∃ w',
      DocumentService.processDocumentWithOCR ocr_env "d1" (buffer png3) (mimetype png3) ai_done
        = (Returned tt, w')
      ∧ Db.document_ai_analysis (db w')
        = <[ "d1" := {| Db.extracted_text := Some "Hb 13.5";
                        Db.summary := Some "A blood test report.";
                        Db.insights := Some [];
                        Db.processed_at := 7 |} ]>
            (Db.document_ai_analysis (db ai_done)).
Proof.
  assert (Db.documents (db ai_done) !! "d1" = Some (Db.set_status PROCESSED d1_row)) as Hdoc
    by (vm_compute; reflexivity).
  assert (Db.document_ai_analysis (db ai_done) !! "d1" = Some d1_analysis) as Hrow
    by (vm_compute; reflexivity).
  assert (OcrService.extractText (DocumentService.vision ocr_env) (buffer png3) (mimetype png3)
          = OcrService.OcrSuccess ocr_data) as Hocr
    by (vm_compute; reflexivity).
  split; [exact Hdoc|]. split; [exact Hrow|]. split; [exact Hocr|].
  exact (ocr_after_analysis_keeps_the_summary ocr_env "d1" (buffer png3) (mimetype png3)
           ai_done _ d1_analysis ocr_data Hdoc Hrow Hocr).
Defined.

Lemma enrichment_of_a_deleted_document_changes_nothing_witness :
  Db.documents (db registered) !! "d1" = None
  ∧ Db.document_ai_analysis (db registered) !! "d1" = None
  ∧ (∃ o, DocumentService.processDocumentWithOCR ocr_env "d1" (buffer png3) (mimetype png3)
            registered = (o, registered))
  ∧ ∃ e, @DocumentService.processDocumentWithAI node_runtime ai_env "d1" (buffer png3)
           (mimetype png3) registered = (Thrown e, registered).
Proof.
  split; [reflexivity|]. split; [reflexivity|].
  destruct (@enrichment_of_a_deleted_document_changes_nothing node_runtime ocr_env ai_env "d1"
              (buffer png3) (mimetype png3) registered eq_refl eq_refl)
    as [(o & Hocr & _) Hai].
  split; [exists o; exact Hocr|exact Hai].
Defined.

Lemma null_reply_fails_the_analysis_witness :
  Db.documents (db uploaded) !! "d1" = Some d1_row
  ∧ DocumentService.reply null_reply_env = Some [DocumentService.TextBlock "null"]
  ∧ @JSON_parse node_runtime "null" = Some JNull
  ∧ ∃ w',
      @DocumentService.processDocumentWithAI node_runtime null_reply_env "d1" (buffer png3)
        (mimetype png3) uploaded
        = (Thrown (Error "TypeError: Cannot read properties of null"), w')
      ∧ db w' = db uploaded
      ∧ Db.status <$> Db.documents (db w') !! "d1" = Some PENDING_PROCESSING.
Proof.
  split; [exact d1_is_stored|]. split; [reflexivity|]. split; [reflexivity|].
  exact (@null_reply_fails_the_analysis node_runtime null_reply_env "d1" (buffer png3)
           (mimetype png3) uploaded d1_row "null" [] d1_is_stored eq_refl eq_refl).
Defined.

Lemma analysis_path_settles_the_status_witness :
  Db.documents (db uploaded) !! "d1" = Some d1_row
  ∧ (∃ o w',
       @DocumentService.processDocumentWithAI node_runtime ai_env "d1" (buffer png3)
         (mimetype png3) uploaded = (o, w')
       ∧ Db.users (db w') = Db.users (db uploaded))
  ∧ @parsed_null node_runtime null_reply_env = true
  ∧ ∃ e w',
      @DocumentService.processDocumentWithAI node_runtime null_reply_env "d1" (buffer png3)
        (mimetype png3) uploaded = (Thrown e, w')
      ∧ Db.documents (db w') = Db.documents (db uploaded).
Proof.
  split; [exact d1_is_stored|].
  destruct (@analysis_path_settles_the_status node_runtime ai_env "d1" (buffer png3)
              (mimetype png3) uploaded d1_row d1_is_stored) as (o & w' & Hrun & Husers & _).
  split; [exists o, w'; split; [exact Hrun|exact Husers]|].
  split; [reflexivity|].
  destruct (@analysis_path_settles_the_status node_runtime null_reply_env "d1" (buffer png3)
              (mimetype png3) uploaded d1_row d1_is_stored) as (o2 & w2 & Hrun2 & _ & Hcase).
  assert (∃ e, o2 = Thrown e) as [e ->].
  { revert Hrun2. vm_compute. intros [= <- _]. eexists. reflexivity. }
  exists e, w2. split; [exact Hrun2|]. exact (proj2 Hcase).
Defined.

Lemma duplicate_phone_is_refused_witness :
  AuthService.valid (AuthService.validatePassword
                       (Shared.reg_password (test_user "Password123"))) = true
  ∧ AuthService.valid (AuthService.validatePhoneNumber
                         (Shared.reg_phoneNumber (test_user "Password123"))) = true
  ∧ Db.users (db registered) !! "u1" = Some (u1_row 0)
  ∧ Db.phone_number (u1_row 0) = Shared.reg_phoneNumber (test_user "Password123")
  ∧ ∃ w',
      @AuthService.register node_runtime {| AuthService.userId := "u2" |}
        (test_user "Password123") registered
        = (Returned (AuthService.AuthFailure DUPLICATE_PHONE
                       (Some "Phone number already registered")), w')
      ∧ db w' = db registered
      ∧ bcrypt_calls w' = bcrypt_calls registered.
Proof.
  assert (Db.users (db registered) !! "u1" = Some (u1_row 0)) as Hrow
    by (vm_compute; reflexivity).
  split; [reflexivity|]. split; [reflexivity|]. split; [exact Hrow|]. split; [reflexivity|].
  exact (@duplicate_phone_is_refused node_runtime {| AuthService.userId := "u2" |}
           (test_user "Password123") registered "u1" (u1_row 0) eq_refl eq_refl Hrow eq_refl).
Defined.

Lemma registered_user_can_log_in_witness :
  ∃ response,
    @AuthService.register node_runtime {| AuthService.userId := "u1" |}
      (test_user "Password123") empty_world
      = (Returned (AuthService.AuthSuccess response), registered)
    ∧ @bcrypt_compare node_runtime "Password123" (@bcrypt_hash node_runtime "Password123")
        = true
    ∧ ∃ token w2,
        @AuthService.login node_runtime "+9779811111111" "Password123" registered
          = (Returned (AuthService.AuthSuccess
                         {| Shared.user := Shared.user response; Shared.token := token |}), w2)
        ∧ db w2 = db registered.
Proof.
  assert (∃ response,
            @AuthService.register node_runtime {| AuthService.userId := "u1" |}
              (test_user "Password123") empty_world
            = (Returned (AuthService.AuthSuccess response), registered))
    as [response Hreg]
    by (vm_compute; eexists; reflexivity).
  exists response.
  split; [exact Hreg|]. split; [reflexivity|].
  destruct (@registered_user_can_log_in node_runtime _ _ _ _ _ Hreg eq_refl)
    as (token & w2 & Hlogin & Hdb & _).
  exists token, w2. split; [exact Hlogin|exact Hdb].
Defined.

Lemma register_keeps_phone_numbers_unique_witness :
  phones_unique (db registered)
  ∧ phones_unique
      (db (@AuthService.register node_runtime {| AuthService.userId := "u2" |} second_user
             registered).2)
  ∧ base.size
      (Db.users
         (db (@AuthService.register node_runtime {| AuthService.userId := "u2" |} second_user
                registered).2)) = 2%nat
  ∧ phones_unique
      (db (@AuthService.register node_runtime {| AuthService.userId := "u2" |}
             (test_user "Password456") registered).2)
  ∧ (@AuthService.register node_runtime {| AuthService.userId := "u2" |}
        (test_user "Password456") registered).1
    = Returned (AuthService.AuthFailure DUPLICATE_PHONE
                  (Some "Phone number already registered")).
Proof.
  assert (phones_unique (db registered)) as Hone.
  { assert (Db.users (db registered) = {[ "u1" := u1_row 0 ]}) as Husers
      by (vm_compute; reflexivity).
    intros i j u v Hi Hj _. rewrite Husers in Hi, Hj.
    apply lookup_singleton_Some in Hi as [<- _].
    apply lookup_singleton_Some in Hj as [<- _]. reflexivity. }
  split; [exact Hone|].
  split; [exact (@register_keeps_phone_numbers_unique node_runtime
                   {| AuthService.userId := "u2" |} second_user registered Hone)|].
  split; [vm_compute; reflexivity|].
  split; [exact (@register_keeps_phone_numbers_unique node_runtime
                   {| AuthService.userId := "u2" |} (test_user "Password456") registered
                   Hone)|].
  vm_compute. reflexivity.
Defined.

Lemma register_route_stores_the_pattern_witness :
  ∃ result w',
    @AuthRoutes.register node_runtime {| AuthService.userId := "u1" |}
      (padded_registration "Password123") empty_world
      = (Returned (AuthRoutes.respond 201 (AuthRoutes.Result result)), w')
    ∧ ∃ row,
        Db.users (db w') !! "u1" = Some row
        ∧ Db.phone_number row = "+9779811111111"
        ∧ AuthService.phone_pattern (Db.phone_number row) = true.
Proof.
  assert (∃ result w',
            @AuthRoutes.register node_runtime {| AuthService.userId := "u1" |}
              (padded_registration "Password123") empty_world
            = (Returned (AuthRoutes.respond 201 (AuthRoutes.Result result)), w'))
    as (result & w' & Hreg)
    by (vm_compute; eexists _, _; reflexivity).
  exists result, w'. split; [exact Hreg|].
  destruct (@register_route_stores_the_pattern node_runtime _ _ _ _ _ Hreg)
    as (row & Hrow & Hphone & Hpattern & _).
  exists row. split; [exact Hrow|]. split; [exact Hphone|exact Hpattern].
Defined.

Lemma storage_info_reports_the_difference_witness :
  Db.users (db uploaded) !! "u1" = Some (u1_row 3)
  ∧ ∃ info,
      @DocumentService.getStorageInfo node_runtime "u1" uploaded
        = (Returned (Success info), uploaded)
      ∧ DocumentService.remaining info = Js.Num 104857597
      ∧ DocumentService.used info = Js.Str "3".
Proof.
  assert (Db.users (db uploaded) !! "u1" = Some (u1_row 3)) as Hrow
    by (vm_compute; reflexivity).
  split; [exact Hrow|].
  destruct (@storage_info_reports_the_difference node_runtime "u1" uploaded (u1_row 3) Hrow)
    as (info & Hget & Hremaining & _).
  exists info. split; [exact Hget|]. split; [exact Hremaining|].
  revert Hget. vm_compute. intros [= <-]. reflexivity.
Defined.

Lemma foreign_documents_answer_404_witness :
  Db.documents (db uploaded) !! "d1" = Some d1_row
  ∧ Db.user_id d1_row ≠ "u2"
  ∧ DocumentRoutes.get "d1" "u2" uploaded = (Returned document_not_found, uploaded)
  ∧ @DocumentRoutes.delete node_runtime delete_env "d1" "u2" uploaded
      = (Returned document_not_found, uploaded).
Proof.
  assert (Db.user_id d1_row ≠ "u2") as Hforeign by discriminate.
  split; [exact d1_is_stored|]. split; [exact Hforeign|].
  destruct (@foreign_documents_answer_404 node_runtime delete_env "d1" "u2" retitled
              uploaded d1_row d1_is_stored Hforeign) as (Hget & _ & Hdelete).
  split; [exact Hget|exact Hdelete].
Defined.

End MoreInstances.
